(** * BUNJANG_SYNC: order-event processing and reconciliation pipeline

    A shallow embedding of
      - src/routes/webhook.routes.js      (webhook verification and handlers),
      - src/services/orderService.js      (order creation, status polling),
      - src/services/inventoryService.js  (inventory consistency manager),
    and the properties the specification states about them.

    JavaScript values are modelled by the types the code expects of them:
    numbers that count things are [Z], strings are [string], a property that
    may be missing is an [option].  Every remote collaborator (the two
    platforms' API clients, the linkage store, the payload mapper) is a
    field of [Services]: a function of an abstract world state that either
    returns or throws.  Calls are recorded, in order, in a log of [Event]s. *)

From Stdlib Require Import ZArith List String Bool Lia QArith DecimalString.
Import ListNotations.

Open Scope string_scope.
Open Scope Z_scope.

(** ** JavaScript conventions *)

Module Js.

(** [String(n)] for an integral number below 10^21 in magnitude; from there
    on JavaScript prints exponent notation. *)
Definition string_of_Z (z : Z) : string :=
  NilZero.string_of_int (Z.to_int z).

Definition nonempty (s : string) : bool :=
  match s with EmptyString => false | String _ _ => true end.

(** Truthiness of a possibly missing string: [undefined], [null] and [''] are falsy. *)
Definition truthy_str (o : option string) : bool :=
  match o with Some s => nonempty s | None => false end.

(** Truthiness of a possibly missing number: [undefined], [null] and [0] are falsy. *)
Definition truthy_num (o : option Z) : bool :=
  match o with Some n => negb (n =? 0) | None => false end.

(** [x || 0] on a possibly missing number. *)
Definition or_zero (o : option Z) : Z :=
  match o with Some n => n | None => 0 end.

(** [s.startsWith(p)] and [s.substring(n)]. *)
Definition startsWith (p s : string) : bool := String.prefix p s.

Definition substring_from (n : nat) (s : string) : string :=
  String.substring n (String.length s - n) s.

Inductive ErrorClass :=
| ValidationError
| RangeError
| TypeError
| ExternalServiceError
| GenericError.

(** An error object.  [domainCode] is [originalError?.response?.data?.errorCode],
    [domainReason] is [originalError?.response?.data?.reason]. *)
Record Error := mkError {
  errClass : ErrorClass;
  message : string;
  domainCode : option string;
  domainReason : option string
}.

Definition plainError (c : ErrorClass) (msg : string) : Error :=
  mkError c msg None None.

(** The result of evaluating a call: it returns a value or throws. *)
Inductive Outcome (A : Type) :=
| Returned (a : A)
| Thrown (e : Error).
Arguments Returned {A} a.
Arguments Thrown {A} e.

Definition returned {A} (o : Outcome A) : bool :=
  match o with Returned _ => true | Thrown _ => false end.

Definition failureOf {A} (o : Outcome A) : option Error :=
  match o with Returned _ => None | Thrown e => Some e end.

End Js.
Import Js.

(** ** Data model *)

Record LineItem := {
  li_id : Z;
  sku : option string;
  product_id : Z;
  li_quantity : Z
}.

(** An order of Platform A, as a webhook payload or job argument. *)
Record ShopifyOrder := {
  order_id : option Z;                       (* id *)
  admin_graphql_api_id : option string;
  line_items : option (list LineItem);       (* None: missing or not an array *)
  cancelled_at : option string
}.

Record ProductDetails := {
  pd_price : Z;
  shippingFee : option Z;
  pd_quantity : option Z
}.

Record PayloadProduct := { pp_id : Z; pp_price : Z }.

(** The body of the "Create Order V2" request. *)
Record OrderPayload := {
  product : option PayloadProduct;
  deliveryPrice : Z
}.

Definition set_deliveryPrice (p : OrderPayload) (v : Z) : OrderPayload :=
  {| product := product p; deliveryPrice := v |}.

Record ApiResponse := { resp_id : option Z }.

Record PointBalance := { balance : Z; pointExpiredIn30Days : Z }.

Record Metafield := {
  namespace : string;
  key : string;
  value : string;
  type : string
}.

(** The argument of [shopifyService.updateOrder]. *)
Record OrderUpdate := {
  ou_id : string;
  tags : option (list string);
  metafields : option (list Metafield)
}.

(** A row of the linkage store (SyncedProduct). *)
Record SyncedProduct := {
  bunjangPid : string;                     (* empty when absent *)
  shopifyGid : option string;
  bunjangProductName : string;
  bunjangQuantity : Z
}.

Record Variant := {
  inventoryItemId : string;
  inventoryQuantity : option Z
}.

(** Reply to the [getProductVariants] query: [data.product], and when it is
    present the nodes of [variants.edges]. *)
Record VariantsResponse := { vr_product : option (list Variant) }.

Record OrderItem := {
  oi_status : string;
  oi_productId : Z;
  purchaseConfirmedAt : option string
}.

Record BunjangOrder := {
  bo_id : Z;
  orderItems : list OrderItem
}.

Record OrdersQuery := {
  statusUpdateStartDate : Z;      (* the instant, in milliseconds *)
  statusUpdateEndDate : Z;
  page : Z;
  size : Z
}.

Record OrdersResponse := {
  data : option (list BunjangOrder);
  totalPages : Z
}.

Record OrderNode := { node_id : string; node_tags : list string }.

(** Reply to the [findOrderByBunjangId] query: [data.orders.edges]. *)
Record FindOrderResponse := { edges : option (list OrderNode) }.

Record Config := {
  orderIdentifierPrefix : string;
  lowBalanceThreshold : option Z;
  webhookSecret : option string;
  defaultLocationId : option string
}.

(** ** Remote calls *)

Inductive Event :=
| EvGetProductDetails (pid : string)
| EvCreateOrder (payload : OrderPayload) (reply : Outcome (option ApiResponse))
| EvGetPointBalance
| EvGetOrders (q : OrdersQuery) (threw : option Error)
| EvUpdateOrder (u : OrderUpdate)
| EvFindOrderByTag (query : string)
| EvGetProductVariants (gid : string)
| EvUpdateInventoryLevel (itemId : string) (location : option string) (qty : Z)
| EvDbFindOneByPid (pid : string)
| EvDbFindOneByProductId (productId : Z)
| EvDbUpdateQuantity (pid : string) (qty : Z)
| EvDbFindSynced.

(** The collaborators whose code is outside this core.  Each takes the
    world as it is and gives a reply and the world after the call. *)
Record Services (W : Type) := {
  (* bunjangService *)
  getBunjangProductDetails : string -> W -> Outcome (option ProductDetails) * W;
  createBunjangOrderV2 : OrderPayload -> W -> Outcome (option ApiResponse) * W;
  getBunjangPointBalance : W -> Outcome (option PointBalance) * W;
  getBunjangOrders : OrdersQuery -> W -> Outcome (option OrdersResponse) * W;
  (* shopifyService *)
  updateOrder : OrderUpdate -> W -> Outcome unit * W;
  findOrderByBunjangId : string -> W -> Outcome FindOrderResponse * W;
  getProductVariants : string -> W -> Outcome VariantsResponse * W;
  updateInventoryLevel : string -> option string -> Z -> W -> Outcome unit * W;
  (* SyncedProduct model *)
  dbFindOneByPid : string -> W -> Outcome (option SyncedProduct) * W;
  dbFindOneByProductId : Z -> W -> Outcome (option SyncedProduct) * W;
  dbUpdateQuantity : string -> Z -> W -> Outcome unit * W;
  dbFindSynced : W -> Outcome (list SyncedProduct) * W;
  (* orderMapper *)
  mapShopifyItemToBunjangOrderPayload :
    LineItem -> string -> ProductDetails -> Outcome (option OrderPayload);
  (* new Date().toISOString() *)
  nowISO : W -> string * W
}.
Arguments getBunjangProductDetails {W} _ _ _.
Arguments createBunjangOrderV2 {W} _ _ _.
Arguments getBunjangPointBalance {W} _ _.
Arguments getBunjangOrders {W} _ _ _.
Arguments updateOrder {W} _ _ _.
Arguments findOrderByBunjangId {W} _ _ _.
Arguments getProductVariants {W} _ _ _.
Arguments updateInventoryLevel {W} _ _ _ _ _.
Arguments dbFindOneByPid {W} _ _ _.
Arguments dbFindOneByProductId {W} _ _ _.
Arguments dbUpdateQuantity {W} _ _ _ _.
Arguments dbFindSynced {W} _ _.
Arguments mapShopifyItemToBunjangOrderPayload {W} _ _ _ _.
Arguments nowISO {W} _ _.

(** ** Programs: state, log, local variables, exceptions *)

Module Prog.
Section Prog.
Context {W : Type}.

(** [vars] holds the [let] variables of the running function, so that an
    assignment made before a throw is still seen by the handler. *)
Record St (L : Type) := mkSt { world : W; log : list Event; vars : L }.
Arguments mkSt {L} _ _ _.
Arguments world {L} _.
Arguments log {L} _.
Arguments vars {L} _.

Definition M (L A : Type) : Type := St L -> Outcome A * St L.

Definition ret {L A} (a : A) : M L A := fun s => (Returned a, s).

Definition throw {L A} (e : Error) : M L A := fun s => (Thrown e, s).

Definition bind {L A B} (m : M L A) (f : A -> M L B) : M L B :=
  fun s =>
    match m s with
    | (Returned a, s') => f a s'
    | (Thrown e, s') => (Thrown e, s')
    end.

(** [try { m } catch (e) { h e }] *)
Definition try_catch {L A} (m : M L A) (h : Error -> M L A) : M L A :=
  fun s =>
    match m s with
    | (Returned a, s') => (Returned a, s')
    | (Thrown e, s') => h e s'
    end.

Definition get {L} : M L L := fun s => (Returned (vars s), s).

Definition modify {L} (f : L -> L) : M L unit :=
  fun s => (Returned tt, mkSt (world s) (log s) (f (vars s))).

(** A remote call: the reply comes from the world, the call is logged. *)
Definition perform {L A} (ev : Outcome A -> Event)
    (op : W -> Outcome A * W) : M L A :=
  fun s =>
    let (r, w') := op (world s) in
    (r, mkSt w' (log s ++ [ev r]) (vars s)).

(** A value that throwing code may fail to produce, without any call. *)
Definition lift {L A} (o : Outcome A) : M L A := fun s => (o, s).

(** Reading the clock is not logged. *)
Definition clock {L} (op : W -> string * W) : M L string :=
  fun s => let (t, w') := op (world s) in (Returned t, mkSt w' (log s) (vars s)).

(** A callee runs with its own local variables. *)
Definition scope {L L' A} (init : L') (m : M L' A) : M L A :=
  fun s =>
    let (r, s') := m (mkSt (world s) (log s) init) in
    (r, mkSt (world s') (log s') (vars s)).

(** [for (const x of xs) { body x }] *)
Fixpoint for_of {L X} (xs : list X) (body : X -> M L unit) : M L unit :=
  match xs with
  | [] => ret tt
  | x :: rest => bind (body x) (fun _ => for_of rest body)
  end.

End Prog.
Arguments mkSt {W L} _ _ _.
Arguments world {W L} _.
Arguments log {W L} _.
Arguments vars {W L} _.
End Prog.
Import Prog.

Declare Scope prog_scope.
Delimit Scope prog_scope with prog.
Notation "x <- m ;; k" := (bind m (fun x => k))
  (at level 61, m at next level, right associativity) : prog_scope.
Notation "m ;;; k" := (bind m (fun _ => k))
  (at level 61, right associativity) : prog_scope.

Local Open Scope prog_scope.

(** ** src/services/inventoryService.js *)

Record LowStockEntry := {
  ls_bunjangPid : string;
  ls_productName : string;
  currentStock : Z
}.

(** The [results] object of [performFullInventorySync]. *)
Record SyncResults := {
  totalProducts : Z;
  synced : Z;
  failed : Z;
  skipped : Z;
  lowStock : list LowStockEntry
}.

Definition results0 : SyncResults :=
  {| totalProducts := 0; synced := 0; failed := 0; skipped := 0; lowStock := [] |}.

Definition set_total (n : Z) (r : SyncResults) : SyncResults :=
  {| totalProducts := n; synced := synced r; failed := failed r;
     skipped := skipped r; lowStock := lowStock r |}.

Definition incr_synced (r : SyncResults) : SyncResults :=
  {| totalProducts := totalProducts r; synced := synced r + 1; failed := failed r;
     skipped := skipped r; lowStock := lowStock r |}.

Definition incr_failed (r : SyncResults) : SyncResults :=
  {| totalProducts := totalProducts r; synced := synced r; failed := failed r + 1;
     skipped := skipped r; lowStock := lowStock r |}.

Definition incr_skipped (r : SyncResults) : SyncResults :=
  {| totalProducts := totalProducts r; synced := synced r; failed := failed r;
     skipped := skipped r + 1; lowStock := lowStock r |}.

Definition push_lowStock (e : LowStockEntry) (r : SyncResults) : SyncResults :=
  {| totalProducts := totalProducts r; synced := synced r; failed := failed r;
     skipped := skipped r; lowStock := lowStock r ++ [e] |}.

Module InventoryService.
Section InventoryService.
Context {W : Type} (svc : Services W) (config : Config).

(** [syncBunjangInventoryToShopify(bunjangPid, bunjangQuantity)] *)
Definition syncBunjangInventoryToShopify {L} (pid : string) (bunjangQuantity : Z)
  : M L bool :=
  try_catch
    (syncedProduct <-
       perform (fun _ => EvDbFindOneByPid pid) (dbFindOneByPid svc pid) ;;
     match syncedProduct with
     | None => ret false
     | Some sp =>
       match shopifyGid sp with
       | None => ret false
       | Some gid =>
         if negb (nonempty gid) then ret false
         else
           response <-
             perform (fun _ => EvGetProductVariants gid) (getProductVariants svc gid) ;;
           match vr_product response with
           | None => ret false
           | Some [] => ret false
           | Some (variant :: _) =>
             let currentQuantity := or_zero (inventoryQuantity variant) in
             if negb (currentQuantity =? bunjangQuantity) then
               perform
                 (fun _ => EvUpdateInventoryLevel (inventoryItemId variant)
                             (defaultLocationId config) bunjangQuantity)
                 (updateInventoryLevel svc (inventoryItemId variant)
                    (defaultLocationId config) bunjangQuantity) ;;;
               perform (fun _ => EvDbUpdateQuantity pid bunjangQuantity)
                 (dbUpdateQuantity svc pid bunjangQuantity) ;;;
               ret true
             else ret true
           end
       end
     end)
    (fun error => throw error).

(** [checkAndSyncBunjangInventory(bunjangPid)] *)
Definition checkAndSyncBunjangInventory {L} (pid : string) : M L Z :=
  try_catch
    (productDetails <-
       perform (fun _ => EvGetProductDetails pid) (getBunjangProductDetails svc pid) ;;
     match productDetails with
     | None => ret (-1)
     | Some d =>
       let currentQuantity := or_zero (pd_quantity d) in
       syncBunjangInventoryToShopify pid currentQuantity ;;;
       ret currentQuantity
     end)
    (fun error => throw error).

(** The body of the loop of [performFullInventorySync], for one product. *)
Definition fullSyncStep (p : SyncedProduct) : M SyncResults unit :=
  try_catch
    (currentQuantity <- checkAndSyncBunjangInventory (bunjangPid p) ;;
     if 0 <=? currentQuantity then
       modify incr_synced ;;;
       if currentQuantity <=? 5 then
         modify (push_lowStock
                   {| ls_bunjangPid := bunjangPid p;
                      ls_productName := bunjangProductName p;
                      currentStock := currentQuantity |})
       else ret tt
     else modify incr_skipped)
    (fun error => modify incr_failed).

(** [performFullInventorySync()].  The pause after every second success and
    the low-stock notification only wait and log. *)
Definition performFullInventorySync {L} : M L SyncResults :=
  scope results0
    (try_catch
       (found <- perform (fun _ => EvDbFindSynced) (dbFindSynced svc) ;;
        let syncedProducts := firstn 1000 found in
        modify (set_total (Z.of_nat (List.length syncedProducts))) ;;;
        for_of syncedProducts fullSyncStep ;;;
        get)
       (fun error => throw error)).

End InventoryService.
End InventoryService.
Import InventoryService.

(** ** src/routes/webhook.routes.js *)

Inductive ResponseBody :=
| SendText (text : string)               (* res.send(text) *)
| JsonStatus (status : string)           (* res.json({ status }) *)
| JsonError (error : string).            (* res.json({ error }) *)

Record Response := { status : Z; body : ResponseBody }.

(** [req.rawBody] is a Buffer or a string. *)
Inductive RawBody :=
| RawBuffer (b : list Byte.byte)
| RawString (s : string).

(** [req.body]: not yet parsed (a string or a Buffer) or parsed to [J]. *)
Inductive ReqBody (J : Type) :=
| BodyString (s : string)
| BodyBuffer (b : list Byte.byte)
| BodyParsed (j : J).
Arguments BodyString {J} s.
Arguments BodyBuffer {J} b.
Arguments BodyParsed {J} j.

Record Request (J : Type) := {
  hmacHeader : option string;            (* X-Shopify-Hmac-Sha256 *)
  topicHeader : option string;           (* X-Shopify-Topic *)
  shopDomainHeader : option string;      (* X-Shopify-Shop-Domain *)
  rawBody : option RawBody;
  reqBody : option (ReqBody J)
}.
Arguments hmacHeader {J} _.
Arguments topicHeader {J} _.
Arguments shopDomainHeader {J} _.
Arguments rawBody {J} _.
Arguments reqBody {J} _.

(** Node's [crypto] and [Buffer], and [JSON.parse] to the payload type. *)
Record Platform (J : Type) := {
  hmacSha256Base64 : string -> list Byte.byte -> string;
  bufferFromBase64 : string -> list Byte.byte;
  bufferFromUtf8 : string -> list Byte.byte;
  bufferToUtf8 : list Byte.byte -> string;
  jsonParse : string -> option J
}.
Arguments hmacSha256Base64 {J} _ _ _.
Arguments bufferFromBase64 {J} _ _.
Arguments bufferFromUtf8 {J} _ _.
Arguments bufferToUtf8 {J} _ _.
Arguments jsonParse {J} _ _.

(** What the middleware does with the request: it answers, or calls [next()]
    with [req.body] parsed. *)
Inductive Verdict (J : Type) :=
| Respond (r : Response)
| Next (parsed : J).
Arguments Respond {J} r.
Arguments Next {J} parsed.

Fixpoint bytes_eqb (a b : list Byte.byte) : bool :=
  match a, b with
  | [], [] => true
  | x :: a', y :: b' => Byte.eqb x y && bytes_eqb a' b'
  | _, _ => false
  end.

Module Webhook.
Section Verify.
Context {J : Type} (node : Platform J) (config : Config).

(** [!req.rawBody]: a Buffer is an object and so truthy, even when empty. *)
Definition rawBody_missing (r : option RawBody) : bool :=
  match r with
  | None => true
  | Some (RawString s) => negb (nonempty s)
  | Some (RawBuffer _) => false
  end.

Definition rawBodyBuffer (r : RawBody) : list Byte.byte :=
  match r with
  | RawBuffer b => b
  | RawString s => bufferFromUtf8 node s
  end.

(** [crypto.timingSafeEqual], called on buffers of one length. *)
Definition timingSafeEqual (a b : list Byte.byte) : bool := bytes_eqb a b.

Definition verifyWebhook (req : Request J) : Verdict J :=
  match hmacHeader req with
  | None => Respond {| status := 401; body := SendText "Unauthorized - Missing HMAC" |}
  | Some hmac =>
    if negb (nonempty hmac) then
      Respond {| status := 401; body := SendText "Unauthorized - Missing HMAC" |}
    else
      match rawBody req with
      | None => Respond {| status := 401; body := SendText "Unauthorized - Missing body" |}
      | Some raw =>
        if rawBody_missing (Some raw) then
          Respond {| status := 401; body := SendText "Unauthorized - Missing body" |}
        else if negb (truthy_str (webhookSecret config)) then
          Respond {| status := 500; body := SendText "Server configuration error" |}
        else
          let secret := match webhookSecret config with Some s => s | None => "" end in
          let buffer := rawBodyBuffer raw in
          let calculatedHmac := hmacSha256Base64 node secret buffer in
          let hmacBuffer := bufferFromBase64 node hmac in
          let calculatedBuffer := bufferFromBase64 node calculatedHmac in
          if negb (Nat.eqb (List.length hmacBuffer) (List.length calculatedBuffer))
             || negb (timingSafeEqual hmacBuffer calculatedBuffer) then
            Respond {| status := 401; body := SendText "Unauthorized - Invalid HMAC" |}
          else
            match reqBody req with
            | Some (BodyParsed j) => Next j
            | _ =>
              match jsonParse node (bufferToUtf8 node buffer) with
              | Some j => Next j
              | None =>
                Respond {| status := 400; body := SendText "Bad Request - Invalid JSON" |}
              end
            end
      end
  end.

End Verify.

Section Routes.
Context {W : Type} (svc : Services W) (config : Config).

Definition linked (sp : option SyncedProduct) : option string :=
  match sp with
  | Some p => if nonempty (bunjangPid p) then Some (bunjangPid p) else None
  | None => None
  end.

(** The handler of [POST /orders/create]. *)
Definition ordersCreate {L} (order : ShopifyOrder) : M L Response :=
  try_catch
    (for_of (match line_items order with Some l => l | None => [] end)
       (fun lineItem =>
          try_catch
            (syncedProduct <-
               perform (fun _ => EvDbFindOneByProductId (product_id lineItem))
                 (dbFindOneByProductId svc (product_id lineItem)) ;;
             match linked syncedProduct with
             | Some pid =>
               currentStock <- checkAndSyncBunjangInventory svc config pid ;;
               if 0 <=? currentStock then
                 let newStock := Z.max 0 (currentStock - li_quantity lineItem) in
                 syncBunjangInventoryToShopify svc config pid newStock ;;;
                 ret tt
               else ret tt
             | None => ret tt
             end)
            (fun itemError => ret tt)) ;;;
     ret {| status := 200; body := JsonStatus "success" |})
    (fun error => ret {| status := 500; body := JsonError "Internal server error" |}).

(** The handler of [POST /orders/updated]. *)
Definition ordersUpdated {L} (order : ShopifyOrder) : M L Response :=
  try_catch
    ((if truthy_str (cancelled_at order) then
        for_of (match line_items order with Some l => l | None => [] end)
          (fun lineItem =>
             try_catch
               (syncedProduct <-
                  perform (fun _ => EvDbFindOneByProductId (product_id lineItem))
                    (dbFindOneByProductId svc (product_id lineItem)) ;;
                match linked syncedProduct with
                | Some pid =>
                  currentStock <- checkAndSyncBunjangInventory svc config pid ;;
                  let restoredStock := currentStock + li_quantity lineItem in
                  syncBunjangInventoryToShopify svc config pid restoredStock ;;;
                  ret tt
                | None => ret tt
                end)
               (fun itemError => ret tt))
      else ret tt) ;;;
     ret {| status := 200; body := JsonStatus "success" |})
    (fun error => ret {| status := 500; body := JsonError "Internal server error" |}).

(** The handler of [POST /inventory_levels/update]: it only logs. *)
Definition inventoryLevelsUpdate {L J} (payload : J) : @M W L Response :=
  try_catch
    (ret {| status := 200; body := JsonStatus "success" |})
    (fun error => ret {| status := 500; body := JsonError "Internal server error" |}).

(** [router.post(path, verifyWebhook, handler)] *)
Definition route {L J} (node : Platform J) (handler : J -> @M W L Response)
    (req : Request J) : @M W L Response :=
  match verifyWebhook node config req with
  | Respond r => ret r
  | Next parsed => handler parsed
  end.

End Routes.
End Webhook.
Import Webhook.

(** ** src/services/orderService.js *)

(** The two [let] variables of [processShopifyOrderForBunjang]. *)
Record OrderVars := {
  bunjangOrderSuccessfullyCreatedOverall : bool;
  createdBunjangOrderIds : list string
}.

Definition orderVars0 : OrderVars :=
  {| bunjangOrderSuccessfullyCreatedOverall := false; createdBunjangOrderIds := [] |}.

(** [createdBunjangOrderIds.push(id); bunjangOrderSuccessfullyCreatedOverall = true] *)
Definition recordCreated (id : string) (v : OrderVars) : OrderVars :=
  {| bunjangOrderSuccessfullyCreatedOverall := true;
     createdBunjangOrderIds := createdBunjangOrderIds v ++ [id] |}.

Record OrderResult := {
  success : bool;
  bunjangOrderIds : option (list string);
  resultMessage : string
}.

(** The counters of [syncBunjangOrderStatuses]. *)
Record StatusVars := { syncedCount : Z; errorCount : Z }.

Record StatusResult := {
  sr_success : bool;
  syncedOrders : Z;
  errors : Z
}.

Definition dquote : string := String (Ascii.ascii_of_nat 34) EmptyString.

Definition mf (k v t : string) : Metafield :=
  {| namespace := "bunjang"; key := k; value := v; type := t |}.

Module OrderService.
Section OrderService.
Context {W : Type} (svc : Services W) (config : Config).

Definition shopifyUpdateOrder {L} (u : OrderUpdate) : M L unit :=
  perform (fun _ => EvUpdateOrder u) (updateOrder svc u).

Definition tagOrder {L} (gid : string) (ts : list string) : M L unit :=
  shopifyUpdateOrder {| ou_id := gid; tags := Some ts; metafields := None |}.

(** [!item.sku || !item.sku.startsWith('BJ-')] is false *)
Definition bunjangLinked (item : LineItem) : option string :=
  match sku item with
  | Some s => if nonempty s && startsWith "BJ-" s then Some (substring_from 3 s) else None
  | None => None
  end.

Definition oneOf (s : string) (l : list string) : bool :=
  existsb (String.eqb s) l.

(** The tag chosen in [catch (apiError)]. *)
Definition errorTagOf (bunjangPid : string) (apiError : Error) : string :=
  match domainCode apiError with
  | None => "PID-" ++ bunjangPid ++ "-CreateFail"
  | Some errorCode =>
    if negb (nonempty errorCode) then "PID-" ++ bunjangPid ++ "-CreateFail"
    else if oneOf errorCode ["PRODUCT_NOT_FOUND"; "PRODUCT_SOLD_OUT"; "PRODUCT_ON_HOLD"]
      then "PID-" ++ bunjangPid ++ "-NotAvailable"
    else if String.eqb errorCode "INVALID_PRODUCT_PRICE"
      then "PID-" ++ bunjangPid ++ "-PriceChanged"
    else if String.eqb errorCode "INVALID_PRODUCT_QTY"
      then "PID-" ++ bunjangPid ++ "-OutOfStock"
    else if String.eqb errorCode "POINT_SHORTAGE"
      then "PID-" ++ bunjangPid ++ "-InsufficientPoints"
    else if String.eqb errorCode "INVALID_SELF_PURCHASE"
      then "PID-" ++ bunjangPid ++ "-SelfPurchase"
    else if oneOf errorCode ["BLOCKED_BY_OPPONENT"; "BLOCKED_BY_SELF"]
      then "PID-" ++ bunjangPid ++ "-Blocked"
    else "PID-" ++ bunjangPid ++ "-" ++ errorCode
  end.

(** [config.bunjang.lowBalanceThreshold || 1000000] *)
Definition LOW_BALANCE_THRESHOLD : Z :=
  match lowBalanceThreshold config with
  | Some t => if t =? 0 then 1000000 else t
  | None => 1000000
  end.

(** Step 6: the balance check after a created order, in its own [try]. *)
Definition checkPointBalance {L} (shopifyOrderGid : string) : M L unit :=
  try_catch
    (pointBalance <-
       perform (fun _ => EvGetPointBalance) (getBunjangPointBalance svc) ;;
     match pointBalance with
     | Some pb =>
       if balance pb <? LOW_BALANCE_THRESHOLD then
         tagOrder shopifyOrderGid ["LowPointBalance-" ++ string_of_Z (balance pb)]
       else ret tt
     | None => ret tt
     end)
    (fun balanceError => ret tt).

Definition successMetafields (bunjangOrderId : Z) (bunjangPid : string)
    (price sent actual : Z) : list Metafield :=
  [ mf "order_id" (string_of_Z bunjangOrderId) "single_line_text_field";
    mf "ordered_pid" bunjangPid "single_line_text_field";
    mf "ordered_item_price_krw" (string_of_Z price) "number_integer";
    mf "api_sent_shipping_fee_krw" (string_of_Z sent) "number_integer";
    mf "actual_bunjang_shipping_fee_krw" (string_of_Z actual) "number_integer" ].

(** Steps 4 and 5: the inner [try] around the order-creation call. *)
Definition submitOrder (shopifyOrderGid bunjangOrderIdentifier bunjangPid : string)
    (bunjangOrderPayload : OrderPayload) (price actualBunjangShippingFeeKrw : Z)
  : M OrderVars unit :=
  try_catch
    (bunjangApiResponse <-
       perform (EvCreateOrder bunjangOrderPayload)
         (createBunjangOrderV2 svc bunjangOrderPayload) ;;
     match bunjangApiResponse with
     | Some {| resp_id := Some bunjangOrderId |} =>
       if negb (bunjangOrderId =? 0) then
         modify (recordCreated (string_of_Z bunjangOrderId)) ;;;
         shopifyUpdateOrder
           {| ou_id := shopifyOrderGid;
              tags := Some ["BunjangOrderPlaced"; bunjangOrderIdentifier;
                            "BunjangOrderID-" ++ string_of_Z bunjangOrderId];
              metafields := Some (successMetafields bunjangOrderId bunjangPid price
                                    (deliveryPrice bunjangOrderPayload)
                                    actualBunjangShippingFeeKrw) |} ;;;
         checkPointBalance shopifyOrderGid
       else
         tagOrder shopifyOrderGid
           [bunjangOrderIdentifier ++ "_Error"; "PID-" ++ bunjangPid ++ "-NoOrderId"]
     | _ =>
       tagOrder shopifyOrderGid
         [bunjangOrderIdentifier ++ "_Error"; "PID-" ++ bunjangPid ++ "-NoOrderId"]
     end)
    (fun apiError =>
       tagOrder shopifyOrderGid
         [bunjangOrderIdentifier ++ "_Error"; errorTagOf bunjangPid apiError]).

(** The body of the loop over [line_items], for one item. *)
Definition processItem (shopifyOrderGid bunjangOrderIdentifier : string)
    (item : LineItem) : M OrderVars unit :=
  match bunjangLinked item with
  | None => ret tt                                            (* continue *)
  | Some bunjangPid =>
    try_catch
      (bunjangProductDetails <-
         perform (fun _ => EvGetProductDetails bunjangPid)
           (getBunjangProductDetails svc bunjangPid) ;;
       match bunjangProductDetails with
       | None =>
         tagOrder shopifyOrderGid
           [bunjangOrderIdentifier ++ "_Error"; "PID-" ++ bunjangPid ++ "-NotFound"]
       | Some details =>
         mapped <- lift (mapShopifyItemToBunjangOrderPayload svc item bunjangPid details) ;;
         match mapped with
         | None =>
           tagOrder shopifyOrderGid
             [bunjangOrderIdentifier ++ "_Error"; "PID-" ++ bunjangPid ++ "-MapFail"]
         | Some payload =>
           let actualBunjangShippingFeeKrw := or_zero (shippingFee details) in
           let bunjangOrderPayload := set_deliveryPrice payload 0 in
           match product bunjangOrderPayload with
           | None =>
             (* bunjangOrderPayload.product.price, read for the log line *)
             throw (plainError TypeError "Cannot read properties of undefined")
           | Some pr =>
             submitOrder shopifyOrderGid bunjangOrderIdentifier bunjangPid
               bunjangOrderPayload (pp_price pr) actualBunjangShippingFeeKrw
           end
         end
       end)
      (fun error =>
         tagOrder shopifyOrderGid
           [bunjangOrderIdentifier ++ "_Error"; "PID-" ++ bunjangPid ++ "-Exception"])
  end.

Definition join (sep : string) (l : list string) : string := String.concat sep l.

Definition invalidOrderMessage : string :=
  "유효하지 않은 Shopify 주문 데이터입니다. (ID 또는 line_items 누락)".

Definition noOrderMessage : string :=
  "Shopify 주문에 포함된 번개장터 연동 상품에 대해 번개장터 주문을 생성하지 못했습니다.".

(** [processShopifyOrderForBunjang(shopifyOrder)] *)
Definition processShopifyOrderForBunjang {L} (shopifyOrder : ShopifyOrder)
  : M L OrderResult :=
  match order_id shopifyOrder, admin_graphql_api_id shopifyOrder,
        line_items shopifyOrder with
  | Some shopifyOrderId, Some shopifyOrderGid, Some (first :: rest) =>
    if negb (shopifyOrderId =? 0) && nonempty shopifyOrderGid then
      let bunjangOrderIdentifier :=
        orderIdentifierPrefix config ++ string_of_Z shopifyOrderId in
      scope orderVars0
        (for_of (first :: rest) (processItem shopifyOrderGid bunjangOrderIdentifier) ;;;
         v <- get ;;
         if bunjangOrderSuccessfullyCreatedOverall v then
           ret {| success := true;
                  bunjangOrderIds := Some (createdBunjangOrderIds v);
                  resultMessage := "번개장터 주문(들) 생성 성공: "
                                   ++ join ", " (createdBunjangOrderIds v) |}
         else
           ret {| success := false;
                  bunjangOrderIds := None;
                  resultMessage := noOrderMessage |})
    else throw (plainError ValidationError invalidOrderMessage)
  | _, _, _ => throw (plainError ValidationError invalidOrderMessage)
  end.

End OrderService.
End OrderService.
Import OrderService.

Module StatusSync.
Section StatusSync.
Context {W : Type} (svc : Services W) (config : Config).

(** [updateShopifyFulfillmentStatus]: not implemented in the source, it logs. *)
Definition updateShopifyFulfillmentStatus {L} (shopifyOrderGid bunjangStatus : string)
    (orderItem : OrderItem) : @M W L unit :=
  ret tt.

(** The [switch (status)] of [updateShopifyOrderFromBunjangStatus]. *)
Definition handleStatus {L} (shopifyOrderGid : string) (bunjangOrderId : Z)
    (orderItem : OrderItem) : M L unit :=
  let status := oi_status orderItem in
  if oneOf status ["SHIP_READY"; "IN_TRANSIT"; "DELIVERY_COMPLETED"] then
    updateShopifyFulfillmentStatus shopifyOrderGid status orderItem
  else if String.eqb status "PURCHASE_CONFIRM" then
    confirmedAt <-
      (if truthy_str (purchaseConfirmedAt orderItem)
       then ret (match purchaseConfirmedAt orderItem with
                 | Some t => t | None => EmptyString end)
       else clock (nowISO svc)) ;;
    shopifyUpdateOrder svc
      {| ou_id := shopifyOrderGid;
         tags := None;
         metafields := Some [ mf "purchase_confirmed" "true" "single_line_text_field";
                              mf "purchase_confirmed_at" confirmedAt "date_time" ] |}
  else if oneOf status ["CANCEL_REQUESTED_BEFORE_SHIPPING"; "REFUNDED";
                        "RETURN_REQUESTED"; "RETURNED"] then
    tagOrder svc shopifyOrderGid
      [ "BunjangStatus-" ++ status;
        "BunjangOrder-" ++ string_of_Z bunjangOrderId ++ "-" ++ status ]
  else ret tt.

(** [updateShopifyOrderFromBunjangStatus(bunjangOrder)] *)
Definition updateShopifyOrderFromBunjangStatus {L} (bunjangOrder : BunjangOrder)
  : M L unit :=
  let bunjangOrderId := bo_id bunjangOrder in
  let searchQuery :=
    "tag:" ++ dquote ++ "BunjangOrderID-" ++ string_of_Z bunjangOrderId ++ dquote in
  response <-
    perform (fun _ => EvFindOrderByTag searchQuery)
      (findOrderByBunjangId svc searchQuery) ;;
  match edges response with
  | None => ret tt
  | Some [] => ret tt
  | Some (shopifyOrder :: _) =>
    let shopifyOrderGid := node_id shopifyOrder in
    for_of (orderItems bunjangOrder)
      (fun orderItem =>
         handleStatus shopifyOrderGid bunjangOrderId orderItem ;;;
         now <- clock (nowISO svc) ;;
         shopifyUpdateOrder svc
           {| ou_id := shopifyOrderGid;
              tags := None;
              metafields := Some [ mf "last_status_sync" now "date_time";
                                   mf "last_bunjang_status" (oi_status orderItem)
                                      "single_line_text_field" ] |})
  end.

Definition incr_syncedCount (v : StatusVars) : StatusVars :=
  {| syncedCount := syncedCount v + 1; errorCount := errorCount v |}.

Definition incr_errorCount (v : StatusVars) : StatusVars :=
  {| syncedCount := syncedCount v; errorCount := errorCount v + 1 |}.

(** The body of the loop over [ordersResponse.data], for one order. *)
Definition syncOneOrder (order : BunjangOrder) : M StatusVars unit :=
  try_catch
    (updateShopifyOrderFromBunjangStatus order ;;; modify incr_syncedCount)
    (fun error => modify incr_errorCount).

(** [(new Date(endDateUTC) - new Date(startDateUTC)) / (1000 * 60 * 60 * 24)] *)
Definition diffDays (startMs endMs : Z) : Q :=
  (inject_Z (endMs - startMs) / inject_Z (1000 * 60 * 60 * 24))%Q.

(** [diffDays > 15] *)
Definition rangeTooLong (startMs endMs : Z) : bool :=
  negb (Qle_bool (diffDays startMs endMs) (inject_Z 15)).

(** [while (hasMore) { ... }]: the number of turns is the server's to decide,
    so the loop takes the number of turns it may make; [None] when they
    are used up. *)
Fixpoint pagesLoop (turns : nat) (startMs endMs page : Z) (s : St StatusVars)
  : option (Outcome unit * St StatusVars) :=
  match turns with
  | O => None
  | S turns' =>
    let q := {| statusUpdateStartDate := startMs; statusUpdateEndDate := endMs;
                page := page; size := 100 |} in
    match perform (fun r => EvGetOrders q (failureOf r)) (getBunjangOrders svc q) s with
    | (Thrown e, s1) => Some (Thrown e, s1)
    | (Returned None, s1) => Some (Returned tt, s1)                    (* break *)
    | (Returned (Some ordersResponse), s1) =>
      match data ordersResponse with
      | None => Some (Returned tt, s1)                                 (* break *)
      | Some orders =>
        match for_of orders syncOneOrder s1 with
        | (Thrown e, s2) => Some (Thrown e, s2)
        | (Returned _, s2) =>
          if page <? totalPages ordersResponse - 1
          then pagesLoop turns' startMs endMs (page + 1) s2
          else Some (Returned tt, s2)
        end
      end
    end
  end.

(** [syncBunjangOrderStatuses(startDate, endDate)].  A date is its time value,
    [None] for an invalid date, on which [toISOString] throws. *)
Definition syncBunjangOrderStatuses {L} (turns : nat) (startDate endDate : option Z)
    (s : St L) : option (Outcome StatusResult * St L) :=
  match startDate, endDate with
  | Some startMs, Some endMs =>
    if rangeTooLong startMs endMs then
      Some (Thrown (plainError ValidationError
                      "번개장터 주문 조회는 최대 15일 범위만 가능합니다."), s)
    else
      match pagesLoop turns startMs endMs 0
              (mkSt (world s) (log s) {| syncedCount := 0; errorCount := 0 |}) with
      | None => None
      | Some (Thrown error, s') =>
        Some (Thrown error, mkSt (world s') (log s') (vars s))
      | Some (Returned _, s') =>
        Some (Returned {| sr_success := true;
                          syncedOrders := syncedCount (vars s');
                          errors := errorCount (vars s') |},
              mkSt (world s') (log s') (vars s))
      end
  | _, _ => Some (Thrown (plainError RangeError "Invalid time value"), s)
  end.

End StatusSync.
End StatusSync.
Import StatusSync.

(** ** src/services/inventoryService.js: [batchSyncInventory] *)

Record InventoryUpdate := { iu_pid : string; iu_quantity : Z }.

(** An entry of [results.details]: [{pid, success, quantity}] after a call
    that returned, [{pid, success: false, error}] after one that threw. *)
Record BatchDetail := {
  bd_pid : string;
  bd_success : bool;
  bd_quantity : option Z;
  bd_error : option string
}.

Record BatchResults := {
  batchSuccess : Z;
  batchFailed : Z;
  batchDetails : list BatchDetail
}.

Definition batch0 : BatchResults :=
  {| batchSuccess := 0; batchFailed := 0; batchDetails := [] |}.

Definition incr_batchSuccess (r : BatchResults) : BatchResults :=
  {| batchSuccess := batchSuccess r + 1; batchFailed := batchFailed r;
     batchDetails := batchDetails r |}.

Definition incr_batchFailed (r : BatchResults) : BatchResults :=
  {| batchSuccess := batchSuccess r; batchFailed := batchFailed r + 1;
     batchDetails := batchDetails r |}.

Definition push_batchDetail (d : BatchDetail) (r : BatchResults) : BatchResults :=
  {| batchSuccess := batchSuccess r; batchFailed := batchFailed r;
     batchDetails := batchDetails r ++ [d] |}.

Module InventoryBatch.
Section InventoryBatch.
Context {W : Type} (svc : Services W) (config : Config).

(** The body of the loop of [batchSyncInventory], for one update. *)
Definition batchStep (update : InventoryUpdate) : M BatchResults unit :=
  try_catch
    (ok <- syncBunjangInventoryToShopify svc config (iu_pid update)
             (iu_quantity update) ;;
     (if ok then modify incr_batchSuccess else modify incr_batchFailed) ;;;
     modify (push_batchDetail
               {| bd_pid := iu_pid update; bd_success := ok;
                  bd_quantity := Some (iu_quantity update); bd_error := None |}))
    (fun error =>
       modify incr_batchFailed ;;;
       modify (push_batchDetail
                 {| bd_pid := iu_pid update; bd_success := false;
                    bd_quantity := None; bd_error := Some (message error) |})).

(** [batchSyncInventory(inventoryUpdates)] *)
Definition batchSyncInventory {L} (inventoryUpdates : list InventoryUpdate)
  : M L BatchResults :=
  scope batch0 (for_of inventoryUpdates batchStep ;;; get).

End InventoryBatch.
End InventoryBatch.
Import InventoryBatch.

(** ** src/config/index.js: [validateRequiredConfig] *)

(** What the function writes, and to where. *)
Inductive Output :=
| LoggerError (msg : string)
| LoggerWarn (msg : string)
| LoggerFatal (msg : string)
| ConsoleError (msg : string)
| ConsoleWarn (msg : string).

(** How a run of the function ends: [process.exit(code)], a return, or a
    thrown error. *)
Inductive Ending :=
| Exits (code : Z)
| Returns
| Throws (e : Error).

(** [loggerInstance]: which of its methods are functions. *)
Record Logger := { hasError : bool; hasWarn : bool; hasFatal : bool }.

Module ConfigCheck.
Section ConfigCheck.
(** [process.env] *)
Context (env : string -> option string).

Definition requiredEnvVars : list string :=
  [ "MIDDLEWARE_BASE_URL";
    "SHOPIFY_API_KEY"; "SHOPIFY_API_SECRET"; "SHOPIFY_SHOP_DOMAIN";
    "SHOPIFY_ADMIN_ACCESS_TOKEN"; "SHOPIFY_WEBHOOK_SECRET";
    "SHOPIFY_DEFAULT_LOCATION_ID";
    "BUNJANG_API_GENERAL_URL"; "BUNJANG_CATALOG_API_URL";
    "BUNJANG_API_ACCESS_KEY"; "BUNJANG_API_SECRET_KEY";
    "OPENEXCHANGERATES_APP_ID";
    "DB_CONNECTION_STRING";
    "INTERNAL_API_KEY";
    "ARENA_ADMIN_PASSWORD" ].

Definition optionalEnvVars : list string :=
  [ "BUNJANG_LOW_BALANCE_THRESHOLD";
    "BUNJANG_CRITICAL_BALANCE_THRESHOLD";
    "CS_TRADING_BUNJANG_RECIPIENT_NAME_1";
    "CS_TRADING_BUNJANG_SHIPPING_ADDRESS";
    "ENABLE_ORDER_SYNC_SCHEDULER" ].

(** [requiredEnvVars.filter(varName => !process.env[varName])] *)
Definition missingVars : list string :=
  filter (fun varName => negb (truthy_str (env varName))) requiredEnvVars.

Definition missingOptionalVars : list string :=
  filter (fun varName => negb (truthy_str (env varName))) optionalEnvVars.

(** [config.env]: [process.env.NODE_ENV || 'development'] *)
Definition configEnv : string :=
  match env "NODE_ENV" with
  | Some v => if nonempty v then v else "development"
  | None => "development"
  end.

Definition envIs (name value : string) : bool :=
  match env name with Some v => String.eqb v value | None => false end.

(** The test of the last [if]: production, with a default Arena password or
    internal API key. *)
Definition defaultSecretsInProduction : bool :=
  String.eqb configEnv "production"
  && (envIs "ARENA_ADMIN_PASSWORD" "P@$$wOrdArena123!"
      || envIs "ARENA_ADMIN_PASSWORD" "supersecretpassword123"
      || envIs "INTERNAL_API_KEY"
           "a_very_strong_and_secret_api_key_for_internal_use_123!@#").

Definition missingMessage : string :=
  "FATAL ERROR: Missing required environment variables: "
  ++ String.concat ", " missingVars ++ ". Please check your .env file(s).".

Definition optionalMessage : string :=
  "Warning: Missing optional environment variables (using defaults): "
  ++ String.concat ", " missingOptionalVars.

Definition securityMessage : string :=
  "CRITICAL SECURITY WARNING: Default Arena admin password or Internal API Key is being used in production. This is a SEVERE security risk. Please change these values immediately in your production .env file.".

Definition can (loggerInstance : option Logger) (method : Logger -> bool) : bool :=
  match loggerInstance with Some l => method l | None => false end.

(** [validateRequiredConfig(loggerInstance)]: what it writes and how it ends.
    The last branch tests for [warn] and calls [fatal]. *)
Definition validateRequiredConfig (loggerInstance : option Logger)
  : list Output * Ending :=
  match missingVars with
  | _ :: _ =>
    ([ if can loggerInstance hasError then LoggerError missingMessage
       else ConsoleError missingMessage ],
     Exits 1)
  | [] =>
    let warned :=
      match missingOptionalVars with
      | _ :: _ =>
        [ if can loggerInstance hasWarn then LoggerWarn optionalMessage
          else ConsoleWarn optionalMessage ]
      | [] => []
      end in
    if defaultSecretsInProduction then
      if can loggerInstance hasWarn then
        if can loggerInstance hasFatal then
          ((warned ++ [LoggerFatal securityMessage])%list, Exits 1)
        else
          (warned,
           Throws (plainError TypeError "loggerInstance.fatal is not a function"))
      else ((warned ++ [ConsoleError securityMessage])%list, Exits 1)
    else (warned, Returns)
  end.

End ConfigCheck.
End ConfigCheck.

(** ** cleanAndRegisterWebhooks.js *)

(** A webhook of the shop, as the list call returns it. *)
Record WebhookRow := { wh_id : Z; wh_topic : string; wh_address : string }.

(** The body of a registration request. *)
Record Registration := { reg_topic : string; reg_address : string; reg_format : string }.

Inductive HttpCall :=
| HttpGet (url : string)
| HttpDelete (url : string)
| HttpPost (url : string) (webhook : Registration).

(** The HTTP client.  A list reply is [data.webhooks], [None] when the
    property is missing. *)
Record Axios (W : Type) := {
  axiosGet : string -> W -> Outcome (option (list WebhookRow)) * W;
  axiosDelete : string -> W -> Outcome unit * W;
  axiosPost : string -> Registration -> W -> Outcome unit * W
}.
Arguments axiosGet {W} _ _ _.
Arguments axiosDelete {W} _ _ _.
Arguments axiosPost {W} _ _ _ _.

Module RegisterWebhooks.
Section RegisterWebhooks.
Context {W : Type} (axios : Axios W).
(** [config.shopify.shopDomain], [config.shopify.apiVersion], and the three
    sources of [WEBHOOK_BASE_URL]. *)
Context (shopDomain : string) (apiVersion : option string)
        (envBaseUrl : option string) (middlewareBaseUrl : option string).

Definition orElse (o : option string) (d : string) : string :=
  match o with Some v => if nonempty v then v else d | None => d end.

Definition WEBHOOK_BASE_URL : string :=
  orElse envBaseUrl
    (orElse middlewareBaseUrl
       "https://b446-2001-e60-87b5-e1cd-5030-5985-2477-77b0.ngrok-free.app").

Definition apiRoot : string :=
  "https://" ++ shopDomain ++ "/admin/api/" ++ orElse apiVersion "2025-04".

Definition shopifyApiUrl : string := apiRoot ++ "/webhooks.json".

Definition deleteUrl (id : Z) : string :=
  apiRoot ++ "/webhooks/" ++ string_of_Z id ++ ".json".

Definition webhooksToRegister : list Registration :=
  [ {| reg_topic := "orders/create";
       reg_address := WEBHOOK_BASE_URL ++ "/webhooks/orders/create";
       reg_format := "json" |};
    {| reg_topic := "orders/updated";
       reg_address := WEBHOOK_BASE_URL ++ "/webhooks/orders/updated";
       reg_format := "json" |};
    {| reg_topic := "orders/cancelled";
       reg_address := WEBHOOK_BASE_URL ++ "/webhooks/orders/cancelled";
       reg_format := "json" |} ].

(** A state of the script: the world and the calls made so far. *)
Definition Run : Type := W * list HttpCall.

(** Step 1: each delete in its own [try], whose handler only prints. *)
Fixpoint deleteAll (existingWebhooks : list WebhookRow) (r : Run) : Run :=
  match existingWebhooks with
  | [] => r
  | webhook :: rest =>
    let url := deleteUrl (wh_id webhook) in
    let (_, w') := axiosDelete axios url (fst r) in
    deleteAll rest (w', (snd r ++ [HttpDelete url])%list)
  end.

(** Step 2: each registration in its own [try], whose handler only prints. *)
Fixpoint registerAll (toRegister : list Registration) (r : Run) : Run :=
  match toRegister with
  | [] => r
  | webhook :: rest =>
    let (_, w') := axiosPost axios shopifyApiUrl webhook (fst r) in
    registerAll rest (w', (snd r ++ [HttpPost shopifyApiUrl webhook])%list)
  end.

(** [cleanAndRegisterWebhooks()].  The outer [try] has a handler that only
    prints, so the function returns whatever happens. *)
Definition cleanAndRegisterWebhooks (w : W) : Run :=
  match axiosGet axios shopifyApiUrl w with
  | (Thrown _, w1) => (w1, [HttpGet shopifyApiUrl])
  | (Returned listed, w1) =>
    let existingWebhooks := match listed with Some l => l | None => [] end in
    let r1 := deleteAll existingWebhooks (w1, [HttpGet shopifyApiUrl]) in
    let r2 := registerAll webhooksToRegister r1 in
    let (_, w3) := axiosGet axios shopifyApiUrl (fst r2) in
    (w3, (snd r2 ++ [HttpGet shopifyApiUrl])%list)
  end.

End RegisterWebhooks.
End RegisterWebhooks.

(** * Scenarios *)

Module Scenario.

(** A stateless stand-in for the collaborators: each reply is a function of
    the request alone. *)
Record Script := {
  details : string -> Outcome (option ProductDetails);
  create : OrderPayload -> Outcome (option ApiResponse);
  pointBalance : Outcome (option PointBalance);
  orders : OrdersQuery -> Outcome (option OrdersResponse);
  update : OrderUpdate -> Outcome unit;
  findOrder : string -> Outcome FindOrderResponse;
  variants : string -> Outcome VariantsResponse;
  pushLevel : Z -> Outcome unit;
  linkByPid : string -> Outcome (option SyncedProduct);
  linkByProduct : Z -> Outcome (option SyncedProduct);
  syncedLinks : Outcome (list SyncedProduct)
}.

Definition scripted (sc : Script) : Services unit :=
  {| getBunjangProductDetails := fun pid w => (details sc pid, w);
     createBunjangOrderV2 := fun p w => (create sc p, w);
     getBunjangPointBalance := fun w => (pointBalance sc, w);
     getBunjangOrders := fun q w => (orders sc q, w);
     updateOrder := fun u w => (update sc u, w);
     findOrderByBunjangId := fun q w => (findOrder sc q, w);
     getProductVariants := fun gid w => (variants sc gid, w);
     updateInventoryLevel := fun _ _ qty w => (pushLevel sc qty, w);
     dbFindOneByPid := fun pid w => (linkByPid sc pid, w);
     dbFindOneByProductId := fun productId w => (linkByProduct sc productId, w);
     dbUpdateQuantity := fun _ _ w => (Returned tt, w);
     dbFindSynced := fun w => (syncedLinks sc, w);
     mapShopifyItemToBunjangOrderPayload :=
       fun item pid d =>
         Returned (Some {| product := Some {| pp_id := 12345; pp_price := pd_price d |};
                           deliveryPrice := or_zero (shippingFee d) |});
     nowISO := fun w => ("2025-06-01T00:00:00.000Z", w) |}.

Definition start : St unit := mkSt tt [] tt.

Definition cfg : Config :=
  {| orderIdentifierPrefix := "bungjang_order_";
     lowBalanceThreshold := Some 1000000;
     webhookSecret := Some "whsec";
     defaultLocationId := Some "gid://shopify/Location/1" |}.

Definition link12345 : SyncedProduct :=
  {| bunjangPid := "12345";
     shopifyGid := Some "gid://shopify/Product/111";
     bunjangProductName := "photo card";
     bunjangQuantity := 1 |}.

Definition variant3 : Variant :=
  {| inventoryItemId := "gid://shopify/InventoryItem/9"; inventoryQuantity := Some 3 |}.

Definition liveDetails : ProductDetails :=
  {| pd_price := 50000; shippingFee := Some 3000; pd_quantity := Some 3 |}.

Definition onePage : OrdersResponse :=
  {| data := Some [ {| bo_id := 41;
                       orderItems := [ {| oi_status := "PURCHASE_CONFIRM";
                                          oi_productId := 12345;
                                          purchaseConfirmedAt := None |} ] |};
                    {| bo_id := 42; orderItems := [] |} ];
     totalPages := 1 |}.

(** Everything answers. *)
Definition calm : Script :=
  {| details := fun _ => Returned (Some liveDetails);
     create := fun _ => Returned (Some {| resp_id := Some 555 |});
     pointBalance := Returned (Some {| balance := 5000000; pointExpiredIn30Days := 0 |});
     orders := fun _ => Returned (Some onePage);
     update := fun _ => Returned tt;
     findOrder := fun q =>
       if String.eqb q ("tag:" ++ dquote ++ "BunjangOrderID-41" ++ dquote)
       then Returned {| edges := Some [ {| node_id := "gid://shopify/Order/987";
                                           node_tags := [] |} ] |}
       else Thrown (plainError ExternalServiceError "search failed");
     variants := fun _ => Returned {| vr_product := Some [variant3] |};
     pushLevel := fun _ => Returned tt;
     linkByPid := fun _ => Returned (Some link12345);
     linkByProduct := fun _ => Returned (Some link12345);
     syncedLinks := Returned [link12345] |}.

Definition shortage : Error :=
  {| errClass := ExternalServiceError;
     message := "Bunjang API request failed";
     domainCode := Some "POINT_SHORTAGE";
     domainReason := Some "not enough points" |}.

Definition platformADown : Error :=
  plainError ExternalServiceError "Shopify API request failed".

(** Platform B refuses the order for lack of points; Platform A answers. *)
Definition pointShortage : Script :=
  {| details := details calm;
     create := fun _ => Thrown shortage;
     pointBalance := pointBalance calm;
     orders := orders calm;
     update := update calm;
     findOrder := findOrder calm;
     variants := variants calm;
     pushLevel := pushLevel calm;
     linkByPid := linkByPid calm;
     linkByProduct := linkByProduct calm;
     syncedLinks := syncedLinks calm |}.

(** The same, while Platform A rejects every order update. *)
Definition pointShortageTagsDown : Script :=
  {| details := details calm;
     create := fun _ => Thrown shortage;
     pointBalance := pointBalance calm;
     orders := orders calm;
     update := fun _ => Thrown platformADown;
     findOrder := findOrder calm;
     variants := variants calm;
     pushLevel := pushLevel calm;
     linkByPid := linkByPid calm;
     linkByProduct := linkByProduct calm;
     syncedLinks := syncedLinks calm |}.

(** The product-detail fetch returns nothing. *)
Definition fetchFails : Script :=
  {| details := fun _ => Returned None;
     create := create calm;
     pointBalance := pointBalance calm;
     orders := orders calm;
     update := update calm;
     findOrder := findOrder calm;
     variants := variants calm;
     pushLevel := pushLevel calm;
     linkByPid := linkByPid calm;
     linkByProduct := linkByProduct calm;
     syncedLinks := syncedLinks calm |}.

Definition platformBDown : Error :=
  plainError ExternalServiceError "Bunjang API request failed".

(** The product-detail fetch itself fails. *)
Definition fetchThrows : Script :=
  {| details := fun _ => Thrown platformBDown;
     create := create calm;
     pointBalance := pointBalance calm;
     orders := orders calm;
     update := update calm;
     findOrder := findOrder calm;
     variants := variants calm;
     pushLevel := pushLevel calm;
     linkByPid := linkByPid calm;
     linkByProduct := linkByProduct calm;
     syncedLinks := syncedLinks calm |}.

(** The link exists, the Platform A product it names does not. *)
Definition productGone : Script :=
  {| details := details calm;
     create := create calm;
     pointBalance := pointBalance calm;
     orders := orders calm;
     update := update calm;
     findOrder := findOrder calm;
     variants := fun _ => Returned {| vr_product := None |};
     pushLevel := pushLevel calm;
     linkByPid := linkByPid calm;
     linkByProduct := linkByProduct calm;
     syncedLinks := syncedLinks calm |}.

Definition link (pid : string) (cached : Z) : SyncedProduct :=
  {| bunjangPid := pid;
     shopifyGid := Some "gid://shopify/Product/111";
     bunjangProductName := pid;
     bunjangQuantity := cached |}.

(** Three links; the fetch for the second returns nothing, its cached
    quantity is 1. *)
Definition threeLinks : Script :=
  {| details := fun pid =>
       if String.eqb pid "111" then
         Returned (Some {| pd_price := 1000; shippingFee := None; pd_quantity := Some 2 |})
       else if String.eqb pid "222" then Returned None
       else Returned (Some {| pd_price := 1000; shippingFee := None; pd_quantity := Some 50 |});
     create := create calm;
     pointBalance := pointBalance calm;
     orders := orders calm;
     update := update calm;
     findOrder := findOrder calm;
     variants := variants calm;
     pushLevel := pushLevel calm;
     linkByPid := linkByPid calm;
     linkByProduct := linkByProduct calm;
     syncedLinks := Returned [link "111" 9; link "222" 1; link "333" 50] |}.

Definition item (n : Z) (code : string) (productId qty : Z) : LineItem :=
  {| li_id := n; sku := Some code; product_id := productId; li_quantity := qty |}.

Definition order987 (items : list LineItem) (cancelled : option string) : ShopifyOrder :=
  {| order_id := Some 987;
     admin_graphql_api_id := Some "gid://shopify/Order/987";
     line_items := Some items;
     cancelled_at := cancelled |}.

Definition twoLinkedItems : ShopifyOrder :=
  order987 [item 1 "BJ-12345" 111 1; item 2 "BJ-67890" 112 1] None.

Definition oneLinkedItem : ShopifyOrder :=
  order987 [item 1 "BJ-12345" 111 1] None.

Definition errorTags (tag : string) : OrderUpdate :=
  {| ou_id := "gid://shopify/Order/987";
     tags := Some ["bungjang_order_987_Error"; tag];
     metafields := None |}.

Definition zeroFeePayload : OrderPayload :=
  {| product := Some {| pp_id := 12345; pp_price := 50000 |}; deliveryPrice := 0 |}.

Definition node : Platform ShopifyOrder :=
  {| hmacSha256Base64 := fun secret body => "c2ln";
     bufferFromBase64 := list_byte_of_string;
     bufferFromUtf8 := list_byte_of_string;
     bufferToUtf8 := string_of_list_byte;
     jsonParse := fun _ => Some oneLinkedItem |}.

Definition request (hmac : option string) (raw : option RawBody) : Request ShopifyOrder :=
  {| hmacHeader := hmac;
     topicHeader := Some "orders/create";
     shopDomainHeader := Some "shop.myshopify.com";
     rawBody := raw;
     reqBody := None |}.

End Scenario.

(** Further settings of the collaborators, of [process.env] and of the HTTP
    client. *)
Module Cases.
Import Scenario.

(** Product 999 is linked, no other product is. *)
Definition otherLinked : Script :=
  {| details := details calm;
     create := create calm;
     pointBalance := pointBalance calm;
     orders := orders calm;
     update := update calm;
     findOrder := findOrder calm;
     variants := variants calm;
     pushLevel := pushLevel calm;
     linkByPid := linkByPid calm;
     linkByProduct := fun productId =>
       if productId =? 999 then Returned (Some link12345) else Returned None;
     syncedLinks := syncedLinks calm |}.

(** The search by tag finds no order. *)
Definition noMatch : Script :=
  {| details := details calm;
     create := create calm;
     pointBalance := pointBalance calm;
     orders := orders calm;
     update := update calm;
     findOrder := fun _ => Returned {| edges := Some [] |};
     variants := variants calm;
     pushLevel := pushLevel calm;
     linkByPid := linkByPid calm;
     linkByProduct := linkByProduct calm;
     syncedLinks := syncedLinks calm |}.

(** Platform A refuses every inventory push. *)
Definition pushDown : Script :=
  {| details := details calm;
     create := create calm;
     pointBalance := pointBalance calm;
     orders := orders calm;
     update := update calm;
     findOrder := findOrder calm;
     variants := variants calm;
     pushLevel := fun _ => Thrown platformADown;
     linkByPid := linkByPid calm;
     linkByProduct := linkByProduct calm;
     syncedLinks := syncedLinks calm |}.

Definition databaseDown : Error := plainError GenericError "connection lost".

(** The query for the SYNCED links fails. *)
Definition linksDown : Script :=
  {| details := details calm;
     create := create calm;
     pointBalance := pointBalance calm;
     orders := orders calm;
     update := update calm;
     findOrder := findOrder calm;
     variants := variants calm;
     pushLevel := pushLevel calm;
     linkByPid := linkByPid calm;
     linkByProduct := linkByProduct calm;
     syncedLinks := Thrown databaseDown |}.

Definition noItems : ShopifyOrder := order987 [] None.

Definition confirmed : OrderItem :=
  {| oi_status := "PURCHASE_CONFIRM"; oi_productId := 12345;
     purchaseConfirmedAt := None |}.

Definition order41 : BunjangOrder := {| bo_id := 41; orderItems := [confirmed] |}.

Definition order42 : BunjangOrder := {| bo_id := 42; orderItems := [] |}.

Definition feePayload : OrderPayload :=
  {| product := Some {| pp_id := 12345; pp_price := 50000 |}; deliveryPrice := 3000 |}.

(** A production environment with every required variable set, without and
    with an optional one. *)
Definition productionEnv (name : string) : option string :=
  if String.eqb name "NODE_ENV" then Some "production"
  else if existsb (String.eqb name) ConfigCheck.requiredEnvVars then Some "set"
  else None.

Definition productionEnvQuiet (name : string) : option string :=
  if String.eqb name "ENABLE_ORDER_SYNC_SCHEDULER" then Some "false"
  else productionEnv name.

Definition refused : Error :=
  plainError GenericError "Request failed with status code 422".

(** A shop that lists two webhooks and refuses every delete and every
    registration. *)
Definition stubbornShop : Axios unit :=
  {| axiosGet := fun _ w =>
       (Returned (Some [ {| wh_id := 7; wh_topic := "orders/create";
                            wh_address := "https://old.example/webhooks/orders/create" |};
                         {| wh_id := 9; wh_topic := "orders/paid";
                            wh_address := "https://old.example/webhooks/orders/paid" |} ]),
        w);
     axiosDelete := fun _ w => (Thrown refused, w);
     axiosPost := fun _ _ w => (Thrown refused, w) |}.

End Cases.

(** * Vocabulary of the statements *)

Section Vocabulary.
Context {W : Type} (svc : Services W) (config : Config).

(** From a state satisfying [P], [m] ends, returning or throwing, in an
    outcome and a state related by [Q]. *)
Definition triple {L A} (P : St L -> Prop) (m : @M W L A)
    (Q : Outcome A -> St L -> Prop) : Prop :=
  forall s, P s -> Q (fst (m s)) (snd (m s)).

(** An assertion that every outcome of [m] keeps. *)
Definition keeps {L A} (I : St L -> Prop) (m : @M W L A) : Prop :=
  triple I m (fun _ s => I s).

(** The signature the request carries and the one computed over its raw
    body, both as the byte buffers the middleware compares. *)
Definition providedSignature {J} (node : Platform J) (req : Request J)
  : list Byte.byte :=
  match hmacHeader req with
  | Some hmac => bufferFromBase64 node hmac
  | None => []
  end.

Definition computedSignature {J} (node : Platform J) (config : Config)
    (req : Request J) : list Byte.byte :=
  match webhookSecret config, rawBody req with
  | Some secret, Some raw =>
    bufferFromBase64 node (hmacSha256Base64 node secret (rawBodyBuffer node raw))
  | _, _ => []
  end.

Definition unauthorized (v : Response) : Prop :=
  status v = 401 /\ exists text, body v = SendText text.

(** An assertion on the local variables alone. *)
Definition onVars {L} (P : L -> Prop) : @St W L -> Prop := fun s => P (vars s).

(** The Platform A product a linkage row points to, when it has one. *)
Definition linkOf (found : option SyncedProduct) : option string :=
  match found with
  | Some p =>
    match shopifyGid p with
    | Some gid => if nonempty gid then Some gid else None
    | None => None
    end
  | None => None
  end.

(** What the loop does to [results] on one [checkAndSync] outcome. *)
Definition tally (p : SyncedProduct) (o : Outcome Z) (r : SyncResults) : SyncResults :=
  match o with
  | Thrown _ => incr_failed r
  | Returned q =>
    if 0 <=? q then
      if q <=? 5 then
        push_lowStock {| ls_bunjangPid := bunjangPid p;
                         ls_productName := bunjangProductName p;
                         currentStock := q |} (incr_synced r)
      else incr_synced r
    else incr_skipped r
  end.

(** The products of a run, each with the outcome [checkAndSync] had for it
    when the loop reached it. *)
Fixpoint fullSyncTrace (ps : list SyncedProduct) (s : St SyncResults)
  : list (SyncedProduct * Outcome Z) :=
  match ps with
  | [] => []
  | p :: rest =>
    (p, fst (checkAndSyncBunjangInventory svc config (bunjangPid p) s))
      :: fullSyncTrace rest (snd (fullSyncStep svc config p s))
  end.

Definition tallyAll (t : list (SyncedProduct * Outcome Z)) (r : SyncResults)
  : SyncResults :=
  fold_left (fun acc po => tally (fst po) (snd po) acc) t r.

Definition count {X} (f : X -> bool) (l : list X) : Z :=
  Z.of_nat (List.length (filter f l)).

Definition isSynced (po : SyncedProduct * Outcome Z) : bool :=
  match snd po with Returned q => 0 <=? q | Thrown _ => false end.

Definition isSkipped (po : SyncedProduct * Outcome Z) : bool :=
  match snd po with Returned q => q <? 0 | Thrown _ => false end.

Definition isFailed (po : SyncedProduct * Outcome Z) : bool :=
  match snd po with Returned _ => false | Thrown _ => true end.

(** Fetched quantities at or below the threshold, which the code fixes at 5. *)
Definition isLow (po : SyncedProduct * Outcome Z) : bool :=
  match snd po with Returned q => (0 <=? q) && (q <=? 5) | Thrown _ => false end.

Definition lowStockEntry (po : SyncedProduct * Outcome Z) : LowStockEntry :=
  {| ls_bunjangPid := bunjangPid (fst po);
     ls_productName := bunjangProductName (fst po);
     currentStock := match snd po with Returned q => q | Thrown _ => 0 end |}.

(** The errors of the page fetches that threw, among the calls of a log. *)
Definition pageFailures (l : list Event) : list Error :=
  flat_map (fun ev => match ev with
                      | EvGetOrders _ (Some e) => [e]
                      | _ => []
                      end) l.

(** Since the log was [base], no page fetch has thrown. *)
Definition pagesFine {L} (base : list Event) : @St W L -> Prop :=
  fun s => exists new, log s = (base ++ new)%list /\ pageFailures new = [].

(** For each order of a page, in order: did its update return? *)
Fixpoint ordersTrace (orders : list BunjangOrder) (s : St StatusVars) : list bool :=
  match orders with
  | [] => []
  | order :: rest =>
    returned (fst (updateShopifyOrderFromBunjangStatus svc order s))
      :: ordersTrace rest (snd (syncOneOrder svc order s))
  end.

Definition succeeded (t : list bool) : Z := count (fun b => b) t.

Definition failedOrders (t : list bool) : Z := count negb t.

Definition pageQuery (startMs endMs page : Z) : OrdersQuery :=
  {| statusUpdateStartDate := startMs; statusUpdateEndDate := endMs;
     page := page; size := 100 |}.

(** For each order the run reaches, page after page: did its update return? *)
Fixpoint pagesTrace (turns : nat) (startMs endMs page : Z) (s : St StatusVars)
  : list bool :=
  match turns with
  | O => []
  | S turns' =>
    let q := pageQuery startMs endMs page in
    match perform (fun r => EvGetOrders q (failureOf r)) (getBunjangOrders svc q) s with
    | (Returned (Some ordersResponse), s1) =>
      match data ordersResponse with
      | Some orders =>
        ordersTrace orders s1 ++
        (if page <? totalPages ordersResponse - 1
         then pagesTrace turns' startMs endMs (page + 1)
                (snd (for_of orders (syncOneOrder svc) s1))
         else [])
      | None => []
      end
    | _ => []
    end
  end.

(** What a finished run of the page loop has logged and counted. *)
Definition pagesOutcome (startMs endMs page : Z) (trace : list bool)
    (s : @St W StatusVars) (o : Outcome unit) (s' : @St W StatusVars) : Prop :=
  exists new,
    log s' = (log s ++ new)%list
    /\ (exists threw rest,
         new = EvGetOrders (pageQuery startMs endMs page) threw :: rest)
    /\ match o with
       | Returned _ =>
         pageFailures new = []
         /\ syncedCount (vars s') = syncedCount (vars s) + succeeded trace
         /\ errorCount (vars s') = errorCount (vars s) + failedOrders trace
       | Thrown e =>
         exists pre q,
           new = (pre ++ [EvGetOrders q (Some e)])%list /\ pageFailures pre = []
       end.

Definition fifteenDays : Z := 15 * 86400000.

(** The marketplace order a call produced: the order-creation call returned
    a reply with an id. *)
Definition createdOf (ev : Event) : list string :=
  match ev with
  | EvCreateOrder _ (Returned (Some {| resp_id := Some id |})) =>
    if negb (id =? 0) then [string_of_Z id] else []
  | _ => []
  end.

Definition marketplaceOrdersCreated (l : list Event) : list string :=
  flat_map createdOf l.

(** The flag is set exactly when an id has been recorded. *)
Definition consistent (v : OrderVars) : Prop :=
  bunjangOrderSuccessfullyCreatedOverall v =
    match createdBunjangOrderIds v with [] => false | _ :: _ => true end.

(** The ids recorded so far, followed by [pending], are the marketplace
    orders created since the log produced [base]. *)
Definition recorded (base pending : list string) : @St W OrderVars -> Prop :=
  fun s =>
    marketplaceOrdersCreated (log s)
      = (base ++ createdBunjangOrderIds (vars s) ++ pending)%list
    /\ consistent (vars s).

(** Every order-creation request carries a delivery price of 0, apart from
    those already in [base]. *)
Definition zeroDelivery (base : list Event) {L} : @St W L -> Prop :=
  fun s => forall p r,
      In (EvCreateOrder p r) (log s) ->
      In (EvCreateOrder p r) base \/ deliveryPrice p = 0.

Definition noOrderCreated : OrderResult :=
  {| success := false;
     bunjangOrderIds := None;
     resultMessage := noOrderMessage |}.

(** The log only grows. *)
Definition extends {L} (base : list Event) : @St W L -> Prop :=
  fun s => exists rest, log s = (base ++ rest)%list.

Definition feeMetafields (actual : Z) (mfs : list Metafield) : Prop :=
  In (mf "api_sent_shipping_fee_krw" "0" "number_integer") mfs
  /\ In (mf "actual_bunjang_shipping_fee_krw" (string_of_Z actual) "number_integer") mfs.

Definition writesMetadata (ev : Event) : bool :=
  match ev with
  | EvUpdateOrder u => match metafields u with Some _ => true | None => false end
  | _ => false
  end.

(** The shape [processShopifyOrderForBunjang] demands of an order. *)
Definition validShape (order : ShopifyOrder) : bool :=
  truthy_num (order_id order)
  && truthy_str (admin_graphql_api_id order)
  && match line_items order with Some (_ :: _) => true | _ => false end.

(** Every call logged since [base] satisfies [ok]. *)
Definition sinceAll (ok : Event -> Prop) (base : list Event) {L} : @St W L -> Prop :=
  fun s => forall ev, In ev (log s) -> In ev base \/ ok ev.

(** The calls of the order orchestrator for the order [gid]: product
    details, order creation, point balance, and updates of that order. *)
Definition orchestratorCall (gid : string) (ev : Event) : Prop :=
  match ev with
  | EvGetProductDetails _ | EvCreateOrder _ _ | EvGetPointBalance => True
  | EvUpdateOrder u => ou_id u = gid
  | _ => False
  end.

(** The product ids whose details a log fetched, in order. *)
Definition fetchedOf (ev : Event) : list string :=
  match ev with EvGetProductDetails pid => [pid] | _ => [] end.

Definition fetched (l : list Event) : list string := flat_map fetchedOf l.

(** The product ids of the linked line items, in order. *)
Definition linkedPids (items : list LineItem) : list string :=
  flat_map (fun item => match bunjangLinked item with
                        | Some pid => [pid]
                        | None => []
                        end) items.

(** The number of order-creation requests in a log. *)
Definition isAttempt (ev : Event) : bool :=
  match ev with EvCreateOrder _ _ => true | _ => false end.

Definition attempts (l : list Event) : nat := List.length (filter isAttempt l).

Definition attemptsAre {L} (n : nat) : @St W L -> Prop :=
  fun s => attempts (log s) = n.

Definition fetchedAre {L} (pids : list string) : @St W L -> Prop :=
  fun s => fetched (log s) = pids.

(** The suffixes of the failure tags the code names itself. *)
Definition namedSuffixes : list string :=
  [ "CreateFail"; "NotAvailable"; "PriceChanged"; "OutOfStock";
    "InsufficientPoints"; "SelfPurchase"; "Blocked" ].

(** The update written after a created order. *)
Definition successUpdate (gid ident pid : string) (id price actual : Z) : OrderUpdate :=
  {| ou_id := gid;
     tags := Some ["BunjangOrderPlaced"; ident;
                   ("BunjangOrderID-" ++ string_of_Z id)%string];
     metafields := Some (successMetafields id pid price 0 actual) |}.

(** The search that looks an order up by the tag of a marketplace order. *)
Definition searchByTag (tag : string) : string :=
  ("tag:" ++ dquote ++ tag ++ dquote)%string.

(** A call that pushes no negative quantity to Platform A. *)
Definition nonNegativePush (ev : Event) : Prop :=
  match ev with
  | EvUpdateInventoryLevel _ _ q => 0 <= q
  | _ => True
  end.

(** The page queries of a log, in order. *)
Definition pageQueriesOf (ev : Event) : list OrdersQuery :=
  match ev with EvGetOrders q _ => [q] | _ => [] end.

Definition pageQueries (l : list Event) : list OrdersQuery :=
  flat_map pageQueriesOf l.

Definition queriesAre {L} (qs : list OrdersQuery) : @St W L -> Prop :=
  fun s => pageQueries (log s) = qs.

(** The queries for [k] consecutive pages from [page] on. *)
Definition pagesFrom (startMs endMs page : Z) (k : nat) : list OrdersQuery :=
  map (fun i => pageQuery startMs endMs (page + Z.of_nat i)) (seq 0 k).

(** The statuses stamped as [last_bunjang_status], in order. *)
Definition stampOf (ev : Event) : list string :=
  match ev with
  | EvUpdateOrder u =>
    match metafields u with
    | Some [m1; m2] =>
      if String.eqb (key m1) "last_status_sync" && String.eqb (key m2) "last_bunjang_status"
      then [value m2] else []
    | _ => []
    end
  | _ => []
  end.

Definition stamps (l : list Event) : list string := flat_map stampOf l.

Definition stampsAre {L} (sts : list string) : @St W L -> Prop :=
  fun s => stamps (log s) = sts.

(** What [batchSyncInventory] does to [results] on one [syncOne] outcome. *)
Definition batchTally (u : InventoryUpdate) (o : Outcome bool) (r : BatchResults)
  : BatchResults :=
  match o with
  | Returned ok =>
    push_batchDetail
      {| bd_pid := iu_pid u; bd_success := ok;
         bd_quantity := Some (iu_quantity u); bd_error := None |}
      (if ok then incr_batchSuccess r else incr_batchFailed r)
  | Thrown e =>
    push_batchDetail
      {| bd_pid := iu_pid u; bd_success := false;
         bd_quantity := None; bd_error := Some (message e) |}
      (incr_batchFailed r)
  end.

(** The counters agree with the details gathered so far. *)
Definition batchAgrees (r : BatchResults) : Prop :=
  batchSuccess r = count bd_success (batchDetails r)
  /\ batchFailed r = count (fun d => negb (bd_success d)) (batchDetails r).

(** The paths the router of webhook.routes.js serves, [/test] outside
    production only. *)
Definition routerPaths (configEnv : string) : list string :=
  ([ "/orders/create"; "/orders/updated"; "/inventory_levels/update" ]
   ++ (if String.eqb configEnv "production" then [] else ["/test"]))%list.

(** A request with other topic and shop-domain headers. *)
Definition withHeaders {J} (req : Request J) (topic shopDomain : option string)
  : Request J :=
  {| hmacHeader := hmacHeader req;
     topicHeader := topic;
     shopDomainHeader := shopDomain;
     rawBody := rawBody req;
     reqBody := reqBody req |}.

(** The lookup a webhook handler makes for a line item. *)
Definition lookupOf (lineItem : LineItem) : Event :=
  EvDbFindOneByProductId (product_id lineItem).

(** The lookups a webhook handler makes for the line items, each in the
    world where the handler makes it, all return and find no row with a
    Platform B id. *)
Fixpoint unlinkedAlong (items : list LineItem) (w : W) : Prop :=
  match items with
  | [] => True
  | lineItem :: rest =>
    exists sp w',
      dbFindOneByProductId svc (product_id lineItem) w = (Returned sp, w')
      /\ linked sp = None
      /\ unlinkedAlong rest w'
  end.

(** An update of the order [gid]. *)
Definition orderUpdateOf (gid : string) (ev : Event) : Prop :=
  match ev with
  | EvUpdateOrder u => ou_id u = gid
  | _ => False
  end.

(** The log is [base] followed by calls that all satisfy [ok]. *)
Definition addsOnly (ok : Event -> Prop) (base : list Event) {L} : @St W L -> Prop :=
  fun s => exists rest, log s = (base ++ rest)%list /\ forall ev, In ev rest -> ok ev.

(** The calls of a status update that found the order [gid]: the search,
    and updates of that order. *)
Definition statusCall (gid : string) (ev : Event) : Prop :=
  match ev with
  | EvFindOrderByTag _ => True
  | EvUpdateOrder u => ou_id u = gid
  | _ => False
  end.

End Vocabulary.

(** * Reasoning about programs *)

Module Triple.
Section Triple.
Context {W : Type}.

(** The laws of the monad, and of [try] on a step that returns or throws. *)
Lemma bind_ret_l {L A B} (a : A) (f : A -> @M W L B) (s : St L) :
  bind (ret a) f s = f a s.
Proof. reflexivity. Qed.

Lemma bind_ret_r {L A} (m : @M W L A) (s : St L) :
  bind m ret s = m s.
Proof. unfold bind, ret. destruct (m s) as [[a | e] s']; reflexivity. Qed.

Lemma bind_assoc {L A B C} (m : @M W L A) (f : A -> M L B) (g : B -> M L C)
    (s : St L) :
  bind (bind m f) g s = bind m (fun a => bind (f a) g) s.
Proof. unfold bind. destruct (m s) as [[a | e] s']; reflexivity. Qed.

Lemma try_ret {L A} (a : A) (h : Error -> @M W L A) (s : St L) :
  try_catch (ret a) h s = ret a s.
Proof. reflexivity. Qed.

Lemma try_throw {L A} (e : Error) (h : Error -> @M W L A) (s : St L) :
  try_catch (throw e) h s = h e s.
Proof. reflexivity. Qed.

Lemma triple_conseq {L A} (P P' : @St W L -> Prop) (m : M L A)
    (Q Q' : Outcome A -> St L -> Prop) :
  triple P' m Q' ->
  (forall s, P s -> P' s) ->
  (forall o s, Q' o s -> Q o s) ->
  triple P m Q.
Proof. unfold triple; auto. Qed.

Lemma triple_ret {L A} (P : @St W L -> Prop) (a : A) :
  triple P (ret a) (fun o s => o = Returned a /\ P s).
Proof. intros s HP; simpl; auto. Qed.

Lemma triple_throw {L A} (P : @St W L -> Prop) (e : Error) :
  triple P (throw (A := A) e) (fun o s => o = Thrown e /\ P s).
Proof. intros s HP; simpl; auto. Qed.

Lemma triple_bind {L A B} (P : @St W L -> Prop) (m : M L A) (f : A -> M L B)
    (Q : Outcome A -> St L -> Prop) (R : Outcome B -> St L -> Prop) :
  triple P m Q ->
  (forall a, triple (Q (Returned a)) (f a) R) ->
  (forall e s, Q (Thrown e) s -> R (Thrown e) s) ->
  triple P (bind m f) R.
Proof.
  intros Hm Hf Hthrow s HP. specialize (Hm s HP). unfold bind.
  destruct (m s) as [[a | e] s']; simpl in *.
  - apply Hf; assumption.
  - apply Hthrow; assumption.
Qed.

Lemma triple_try {L A} (P : @St W L -> Prop) (m : M L A) (h : Error -> M L A)
    (Q R : Outcome A -> St L -> Prop) :
  triple P m Q ->
  (forall e, triple (Q (Thrown e)) (h e) R) ->
  (forall a s, Q (Returned a) s -> R (Returned a) s) ->
  triple P (try_catch m h) R.
Proof.
  intros Hm Hh Hret s HP. specialize (Hm s HP). unfold try_catch.
  destruct (m s) as [[a | e] s']; simpl in *.
  - apply Hret; assumption.
  - apply Hh; assumption.
Qed.

Lemma keeps_ret {L A} (I : @St W L -> Prop) (a : A) : keeps I (ret a).
Proof. intros s H; exact H. Qed.

Lemma keeps_throw {L A} (I : @St W L -> Prop) (e : Error) : keeps I (throw (A := A) e).
Proof. intros s H; exact H. Qed.

Lemma keeps_lift {L A} (I : @St W L -> Prop) (o : Outcome A) : keeps I (lift o).
Proof. intros s H; exact H. Qed.

Lemma keeps_get {L} (I : @St W L -> Prop) : keeps I get.
Proof. intros s H; exact H. Qed.

Lemma keeps_bind {L A B} (I : @St W L -> Prop) (m : M L A) (f : A -> M L B) :
  keeps I m -> (forall a, keeps I (f a)) -> keeps I (bind m f).
Proof.
  intros Hm Hf. apply triple_bind with (Q := fun _ s => I s); auto.
Qed.

Lemma keeps_try {L A} (I : @St W L -> Prop) (m : M L A) (h : Error -> M L A) :
  keeps I m -> (forall e, keeps I (h e)) -> keeps I (try_catch m h).
Proof.
  intros Hm Hh. apply triple_try with (Q := fun _ s => I s); auto.
Qed.

Lemma keeps_for_of {L X} (I : @St W L -> Prop) (xs : list X) (body : X -> M L unit) :
  (forall x, In x xs -> keeps I (body x)) -> keeps I (for_of xs body).
Proof.
  induction xs as [| x xs IH]; intros Hbody; simpl.
  - apply keeps_ret.
  - apply keeps_bind.
    + apply Hbody; left; reflexivity.
    + intros _. apply IH. intros y Hy. apply Hbody; right; exact Hy.
Qed.

(** A remote call keeps [I] when [I] does not mind the world changing and
    tolerates the event the call logs. *)
Lemma keeps_perform {L A} (I : @St W L -> Prop) (ev : Outcome A -> Event)
    (op : W -> Outcome A * W) :
  (forall s r w, I s -> I (mkSt w (log s ++ [ev r]) (vars s))) ->
  keeps I (perform ev op).
Proof.
  intros H s HI. unfold perform. destruct (op (world s)) as [r w']. simpl. auto.
Qed.

Lemma keeps_clock {L} (I : @St W L -> Prop) (op : W -> string * W) :
  (forall s w, I s -> I (mkSt w (log s) (vars s))) ->
  keeps I (clock op).
Proof.
  intros H s HI. unfold clock. destruct (op (world s)) as [t w']. simpl. auto.
Qed.

Lemma keeps_modify {L} (I : @St W L -> Prop) (f : L -> L) :
  (forall s, I s -> I (mkSt (world s) (log s) (f (vars s)))) ->
  keeps I (modify f).
Proof. intros H s HI. simpl. auto. Qed.

(** A loop whose body always returns, returns. *)
Lemma for_of_returns {L X} (xs : list X) (body : X -> @M W L unit) (s : St L) :
  (forall x s', In x xs -> fst (body x s') = Returned tt) ->
  fst (for_of xs body s) = Returned tt.
Proof.
  revert s. induction xs as [| x xs IH]; intros s Hbody; simpl.
  - reflexivity.
  - unfold bind. pose proof (Hbody x s (or_introl eq_refl)) as Hx.
    destruct (body x s) as [[[] | e] s']; simpl in Hx; try discriminate.
    apply IH. intros y s'' Hy. apply Hbody; right; exact Hy.
Qed.

(** A [try] whose handler only returns, returns. *)
Lemma try_swallow_returns {L} (m : @M W L unit) (h : Error -> M L unit) (s : St L) :
  (forall e s', fst (h e s') = Returned tt) ->
  fst (try_catch m h s) = Returned tt.
Proof.
  intros Hh. unfold try_catch. destruct (m s) as [[[] | e] s']; simpl; auto.
Qed.

End Triple.
End Triple.
Import Triple.

(** * Webhook verification *)

Lemma bytes_eqb_eq (a b : list Byte.byte) : bytes_eqb a b = true <-> a = b.
Proof.
  revert b. induction a as [| x a IH]; intros [| y b]; simpl; split; intros H;
    try reflexivity; try discriminate.
  - apply andb_true_iff in H. destruct H as [Hxy Hab].
    apply Byte.byte_dec_bl in Hxy. apply IH in Hab. congruence.
  - injection H as -> ->. apply andb_true_iff. split.
    + apply Byte.byte_dec_lb; reflexivity.
    + apply IH; reflexivity.
Qed.

Lemma verifyWebhook_missing {J} (node : Platform J) (config : Config) (req : Request J) :
  truthy_str (hmacHeader req) = false \/ rawBody_missing (rawBody req) = true ->
  exists r, verifyWebhook node config req = Respond r /\ unauthorized r.
Proof.
  unfold verifyWebhook, unauthorized.
  destruct (hmacHeader req) as [hmac |]; simpl.
  - destruct (nonempty hmac); simpl.
    + intros [H | H]; [discriminate |].
      destruct (rawBody req) as [[b | str] |]; simpl in *; try discriminate.
      * rewrite H. eexists; split; [reflexivity | simpl; eauto].
      * eexists; split; [reflexivity | simpl; eauto].
    + intros _. eexists; split; [reflexivity | simpl; eauto].
  - intros _. eexists; split; [reflexivity | simpl; eauto].
Qed.

Lemma verifyWebhook_present {J} (node : Platform J) (config : Config) (req : Request J) :
  truthy_str (hmacHeader req) = true ->
  rawBody_missing (rawBody req) = false ->
  verifyWebhook node config req =
    if negb (truthy_str (webhookSecret config)) then
      Respond {| status := 500; body := SendText "Server configuration error" |}
    else if negb (Nat.eqb (List.length (providedSignature node req))
                          (List.length (computedSignature node config req)))
            || negb (bytes_eqb (providedSignature node req)
                               (computedSignature node config req)) then
      Respond {| status := 401; body := SendText "Unauthorized - Invalid HMAC" |}
    else
      match reqBody req with
      | Some (BodyParsed j) => Next j
      | _ =>
        match rawBody req with
        | Some raw =>
          match jsonParse node (bufferToUtf8 node (rawBodyBuffer node raw)) with
          | Some j => Next j
          | None =>
            Respond {| status := 400; body := SendText "Bad Request - Invalid JSON" |}
          end
        | None => Respond {| status := 401; body := SendText "Unauthorized - Missing body" |}
        end
      end.
Proof.
  unfold verifyWebhook, providedSignature, computedSignature, timingSafeEqual.
  destruct (hmacHeader req) as [hmac |]; simpl; [| discriminate].
  intros Hh. rewrite Hh. simpl.
  destruct (rawBody req) as [raw |]; simpl; [| discriminate].
  intros Hr. rewrite Hr.
  destruct (webhookSecret config) as [secret |]; simpl; [| reflexivity].
  destruct (nonempty secret); simpl; reflexivity.
Qed.

Section Handlers.
Context {W : Type} (svc : Services W) (config : Config).

Lemma ordersCreate_responds {L} (order : ShopifyOrder) (s : St L) :
  fst (ordersCreate svc config order s) =
    Returned {| status := 200; body := JsonStatus "success" |}.
Proof.
  unfold ordersCreate.
  match goal with |- context [for_of ?xs ?b] => set (items := xs); set (step := b) end.
  assert (fst (for_of items step s) = Returned tt) as H.
  { apply for_of_returns. intros x s'' _. apply try_swallow_returns. reflexivity. }
  unfold try_catch, bind.
  destruct (for_of items step s) as [[[] | e] s']; simpl in *;
    [reflexivity | discriminate].
Qed.

Lemma ordersUpdated_responds {L} (order : ShopifyOrder) (s : St L) :
  fst (ordersUpdated svc config order s) =
    Returned {| status := 200; body := JsonStatus "success" |}.
Proof.
  unfold ordersUpdated.
  destruct (truthy_str (cancelled_at order)); [| reflexivity].
  match goal with |- context [for_of ?xs ?b] => set (items := xs); set (step := b) end.
  assert (fst (for_of items step s) = Returned tt) as H.
  { apply for_of_returns. intros x s'' _. apply try_swallow_returns. reflexivity. }
  unfold try_catch, bind.
  destruct (for_of items step s) as [[[] | e] s']; simpl in *;
    [reflexivity | discriminate].
Qed.

End Handlers.

(** C3.  Verification answers 401 when the signature header is absent or the
    raw body is unavailable; with both present it answers 500 "Server
    configuration error" when the secret is not configured, and 401 when the
    provided and computed signatures differ in length or in content.  A
    request reaches [next()] only with header, raw body and secret present
    and equal signatures; a rejected request gets the rejection as its
    response, with no call made and no state changed; and the three topic
    handlers answer 200 with status "success". *)
Theorem webhook_verification_gate {J W L} (node : Platform J) (svc : Services W)
    (config : Config) (handler : J -> @M W L Response) (req : Request J)
    (s : St L) :
  (truthy_str (hmacHeader req) = false \/ rawBody_missing (rawBody req) = true ->
   exists r, verifyWebhook node config req = Respond r /\ unauthorized r)
  /\ (truthy_str (hmacHeader req) = true ->
      rawBody_missing (rawBody req) = false ->
      truthy_str (webhookSecret config) = false ->
      verifyWebhook node config req =
        Respond {| status := 500; body := SendText "Server configuration error" |})
  /\ (truthy_str (hmacHeader req) = true ->
      rawBody_missing (rawBody req) = false ->
      truthy_str (webhookSecret config) = true ->
      List.length (providedSignature node req)
        <> List.length (computedSignature node config req)
      \/ providedSignature node req <> computedSignature node config req ->
      verifyWebhook node config req =
        Respond {| status := 401; body := SendText "Unauthorized - Invalid HMAC" |})
  /\ (forall parsed, verifyWebhook node config req = Next parsed ->
      truthy_str (hmacHeader req) = true
      /\ rawBody_missing (rawBody req) = false
      /\ truthy_str (webhookSecret config) = true
      /\ providedSignature node req = computedSignature node config req)
  /\ (forall r, verifyWebhook node config req = Respond r ->
      route config node handler req s = (Returned r, s))
  /\ (forall parsed, verifyWebhook node config req = Next parsed ->
      route config node handler req s = handler parsed s)
  /\ (forall order (s' : St L),
      fst (ordersCreate svc config order s') =
        Returned {| status := 200; body := JsonStatus "success" |}
      /\ fst (ordersUpdated svc config order s') =
        Returned {| status := 200; body := JsonStatus "success" |})
  /\ (forall (payload : J) (s' : St L),
      fst (inventoryLevelsUpdate (W := W) payload s') =
        Returned {| status := 200; body := JsonStatus "success" |}).
Proof.
  repeat split.
  - apply verifyWebhook_missing.
  - intros Hh Hr Hs. rewrite verifyWebhook_present by assumption.
    rewrite Hs. reflexivity.
  - intros Hh Hr Hs Hdiff. rewrite verifyWebhook_present by assumption.
    rewrite Hs. simpl.
    destruct (Nat.eqb _ _) eqn:El; simpl; [| reflexivity].
    destruct (bytes_eqb _ _) eqn:Eb; simpl; [| reflexivity].
    apply Nat.eqb_eq in El. apply bytes_eqb_eq in Eb.
    destruct Hdiff as [Hd | Hd]; contradiction.
  - destruct (truthy_str (hmacHeader req)) eqn:Hh; [reflexivity |].
    destruct (verifyWebhook_missing node config req (or_introl Hh)) as [r [E _]].
    congruence.
  - destruct (rawBody_missing (rawBody req)) eqn:Hr; [| reflexivity].
    destruct (verifyWebhook_missing node config req (or_intror Hr)) as [r [E _]].
    congruence.
  - revert H.
    destruct (truthy_str (hmacHeader req)) eqn:Hh.
    2:{ destruct (verifyWebhook_missing node config req (or_introl Hh)) as [r [E _]].
        congruence. }
    destruct (rawBody_missing (rawBody req)) eqn:Hr.
    1:{ destruct (verifyWebhook_missing node config req (or_intror Hr)) as [r [E _]].
        congruence. }
    rewrite verifyWebhook_present by assumption.
    destruct (truthy_str (webhookSecret config)); [reflexivity | simpl; discriminate].
  - revert H.
    destruct (truthy_str (hmacHeader req)) eqn:Hh.
    2:{ destruct (verifyWebhook_missing node config req (or_introl Hh)) as [r [E _]].
        congruence. }
    destruct (rawBody_missing (rawBody req)) eqn:Hr.
    1:{ destruct (verifyWebhook_missing node config req (or_intror Hr)) as [r [E _]].
        congruence. }
    rewrite verifyWebhook_present by assumption.
    destruct (truthy_str (webhookSecret config)); simpl; [| discriminate].
    destruct (Nat.eqb _ _) eqn:El; simpl; [| discriminate].
    destruct (bytes_eqb _ _) eqn:Eb; simpl; [| discriminate].
    intros _. apply bytes_eqb_eq. exact Eb.
  - intros r E. unfold route. rewrite E. reflexivity.
  - intros parsed E. unfold route. rewrite E. reflexivity.
  - apply ordersCreate_responds.
  - apply ordersUpdated_responds.
Qed.

(** * Inventory consistency manager *)

Ltac keeps_step :=
  cbv zeta;
  first
    [ apply keeps_ret
    | apply keeps_throw
    | apply keeps_get
    | apply keeps_lift
    | apply keeps_bind; [| intros ?]
    | apply keeps_try; [| intros ?]
    | apply keeps_perform; intros ? ? ?
    | apply keeps_clock; intros ? ?
    | apply keeps_modify; intros ?
    | apply keeps_for_of; intros ? ?
    | match goal with
      | |- keeps _ (match ?x with _ => _ end) => destruct x
      end ].

Section InventoryFacts.
Context {W : Type} (svc : Services W) (config : Config).

Lemma syncBunjangInventoryToShopify_keeps_vars {L} (P : L -> Prop) pid q :
  keeps (onVars P) (syncBunjangInventoryToShopify svc config pid q).
Proof.
  unfold syncBunjangInventoryToShopify. repeat keeps_step; auto.
Qed.

Lemma checkAndSyncBunjangInventory_keeps_vars {L} (P : L -> Prop) pid :
  keeps (onVars P) (checkAndSyncBunjangInventory svc config pid).
Proof.
  unfold checkAndSyncBunjangInventory. repeat keeps_step; auto.
Qed.

Lemma checkAndSync_vars {L} pid (s : St L) :
  vars (snd (checkAndSyncBunjangInventory svc config pid s)) = vars s.
Proof.
  apply (checkAndSyncBunjangInventory_keeps_vars (fun v => v = vars s) pid s).
  reflexivity.
Qed.

End InventoryFacts.

Section SyncOne.
Context {W : Type} (svc : Services W) (config : Config).

(** C5, as amended.  [syncOne] returns false when no ProductLink exists for
    the product id (no row, or a row without a Platform A id), and also when
    the link exists but the Platform A product or its first variant is not
    found.  With the link and the variant found it returns true: without a
    push when the variant's current quantity equals the target, and after
    pushing the target and storing it on the link when the quantity differs
    and these two calls succeed. *)
Theorem syncOne_outcomes {L} (pid : string) (target : Z) (s : St L)
    (found : option SyncedProduct) (w1 : W) :
  dbFindOneByPid svc pid (world s) = (Returned found, w1) ->
  let sync := syncBunjangInventoryToShopify svc config pid target s in
  let s1 := mkSt w1 (log s ++ [EvDbFindOneByPid pid]) (vars s) in
  (linkOf found = None -> sync = (Returned false, s1))
  /\ (forall gid resp w2,
      linkOf found = Some gid ->
      getProductVariants svc gid w1 = (Returned resp, w2) ->
      let s2 := mkSt w2 (log s1 ++ [EvGetProductVariants gid]) (vars s) in
      (vr_product resp = None \/ vr_product resp = Some [] ->
       sync = (Returned false, s2))
      /\ (forall v vs,
          vr_product resp = Some (v :: vs) ->
          (or_zero (inventoryQuantity v) = target -> sync = (Returned true, s2))
          /\ (or_zero (inventoryQuantity v) <> target ->
              forall w3 w4,
              updateInventoryLevel svc (inventoryItemId v) (defaultLocationId config)
                target w2 = (Returned tt, w3) ->
              dbUpdateQuantity svc pid target w3 = (Returned tt, w4) ->
              sync = (Returned true,
                      mkSt w4
                        (log s2 ++ [EvUpdateInventoryLevel (inventoryItemId v)
                                      (defaultLocationId config) target]
                                ++ [EvDbUpdateQuantity pid target])
                        (vars s))))).
Proof.
  intros Hfind sync s1. subst sync s1.
  unfold syncBunjangInventoryToShopify, try_catch, bind, perform.
  rewrite Hfind. split.
  - unfold linkOf. destruct found as [p |]; [| reflexivity].
    destruct (shopifyGid p) as [gid |]; [| reflexivity].
    destruct (nonempty gid); [discriminate | reflexivity].
  - intros gid resp w2 Hlink Hvar. unfold linkOf in Hlink.
    destruct found as [p |]; [| discriminate].
    destruct (shopifyGid p) as [g |]; [| discriminate].
    destruct (nonempty g) eqn:Eg; [| discriminate].
    injection Hlink as ->. simpl. rewrite Hvar. simpl. split.
    + intros [Hp | Hp]; rewrite Hp; reflexivity.
    + intros v vs Hp. rewrite Hp. split.
      * intros Heq. apply Z.eqb_eq in Heq. rewrite Heq. reflexivity.
      * intros Hne w3 w4 Hpush Hdb. apply Z.eqb_neq in Hne. rewrite Hne.
        simpl. rewrite Hpush. simpl. rewrite Hdb. simpl.
        rewrite <- app_assoc. reflexivity.
Qed.

(** C6, as amended.  When the product-detail fetch returns nothing,
    [checkAndSync] returns the sentinel -1, which is not 0, having made no
    other call.  When the fetch itself throws, no sentinel is returned: the
    error is re-raised, again with no other call.  When the fetch returns
    details it runs [syncOne] with the fetched quantity, a missing quantity
    read as 0, and returns that quantity unless [syncOne] throws, in which
    case that error is re-raised. *)
Theorem checkAndSync_sentinel {L} (pid : string) (s : St L)
    (reply : Outcome (option ProductDetails)) (w1 : W) :
  getBunjangProductDetails svc pid (world s) = (reply, w1) ->
  let s1 := mkSt w1 (log s ++ [EvGetProductDetails pid]) (vars s) in
  match reply with
  | Thrown e =>
    checkAndSyncBunjangInventory svc config pid s = (Thrown e, s1)
  | Returned None =>
    checkAndSyncBunjangInventory svc config pid s = (Returned (-1), s1)
    /\ fst (checkAndSyncBunjangInventory svc config pid s) <> Returned 0
  | Returned (Some d) =>
    let quantity := or_zero (pd_quantity d) in
    let sync := syncBunjangInventoryToShopify svc config pid quantity s1 in
    checkAndSyncBunjangInventory svc config pid s =
      (match fst sync with
       | Returned _ => Returned quantity
       | Thrown e => Thrown e
       end, snd sync)
  end.
Proof.
  intros Hfetch s1. subst s1.
  unfold checkAndSyncBunjangInventory, try_catch, bind, perform.
  rewrite Hfetch. destruct reply as [[d |] | e].
  - cbv zeta.
    destruct (syncBunjangInventoryToShopify svc config pid _ _) as [[b | e] s2];
      reflexivity.
  - simpl. split; [reflexivity | discriminate].
  - reflexivity.
Qed.

End SyncOne.

Section FullSync.
Context {W : Type} (svc : Services W) (config : Config).

Lemma fullSyncStep_run (p : SyncedProduct) (s : St SyncResults) :
  let c := checkAndSyncBunjangInventory svc config (bunjangPid p) s in
  fullSyncStep svc config p s =
    (Returned tt, mkSt (world (snd c)) (log (snd c)) (tally p (fst c) (vars s))).
Proof.
  cbv zeta. pose proof (checkAndSync_vars svc config (bunjangPid p) s) as Hv.
  unfold fullSyncStep, try_catch, bind.
  destruct (checkAndSyncBunjangInventory svc config (bunjangPid p) s)
    as [[q | e] s1]; simpl in *; rewrite <- Hv.
  - destruct (0 <=? q); simpl; [| reflexivity].
    destruct (q <=? 5); reflexivity.
  - reflexivity.
Qed.

Lemma fullSync_loop (ps : list SyncedProduct) (s : St SyncResults) :
  fst (for_of ps (fullSyncStep svc config) s) = Returned tt
  /\ vars (snd (for_of ps (fullSyncStep svc config) s)) =
       tallyAll (fullSyncTrace svc config ps s) (vars s).
Proof.
  revert s. induction ps as [| p ps IH]; intros s; simpl.
  - split; reflexivity.
  - unfold bind. pose proof (fullSyncStep_run p s) as Hstep. cbv zeta in Hstep.
    destruct (fullSyncStep svc config p s) as [o s1] eqn:E.
    injection Hstep as -> ->. simpl.
    match goal with |- context [for_of ps _ ?st] => destruct (IH st) as [H1 H2] end.
    split; [exact H1 |]. rewrite H2. reflexivity.
Qed.

Lemma tallyAll_counts (t : list (SyncedProduct * Outcome Z)) (r : SyncResults) :
  totalProducts (tallyAll t r) = totalProducts r
  /\ synced (tallyAll t r) = synced r + count isSynced t
  /\ skipped (tallyAll t r) = skipped r + count isSkipped t
  /\ failed (tallyAll t r) = failed r + count isFailed t
  /\ lowStock (tallyAll t r) = (lowStock r ++ map lowStockEntry (filter isLow t))%list.
Proof.
  unfold tallyAll, count. revert r.
  induction t as [| [p o] t IH]; intros r.
  - simpl. rewrite app_nil_r. repeat split; lia.
  - cbn [fold_left fst snd].
    destruct (IH (tally p o r)) as (Ht & Hs & Hk & Hf & Hl).
    rewrite Ht, Hs, Hk, Hf, Hl. clear IH Ht Hs Hk Hf Hl.
    unfold tally, isSynced, isSkipped, isFailed, isLow, lowStockEntry.
    cbn [filter fst snd].
    destruct o as [q | e]; cbn [fst snd].
    + rewrite Z.ltb_antisym.
      destruct (0 <=? q) eqn:E0; cbn [negb andb].
      * destruct (q <=? 5) eqn:E5; cbn [map List.length totalProducts synced
          skipped failed lowStock incr_synced push_lowStock];
          rewrite ?Nat2Z.inj_succ, <- ?app_assoc; repeat split; simpl; lia.
      * cbn [map List.length totalProducts synced skipped failed lowStock
             incr_skipped]; rewrite ?Nat2Z.inj_succ; repeat split; lia.
    + cbn [map List.length totalProducts synced skipped failed lowStock
           incr_failed]; rewrite ?Nat2Z.inj_succ; repeat split; lia.
Qed.

End FullSync.

Section FullSyncResult.
Context {W : Type} (svc : Services W) (config : Config).

Lemma fullSyncTrace_length (ps : list SyncedProduct) (s : St SyncResults) :
  List.length (fullSyncTrace svc config ps s) = List.length ps.
Proof.
  revert s. induction ps as [| p ps IH]; intros s; simpl; [| rewrite IH]; reflexivity.
Qed.

Lemma count_partition (t : list (SyncedProduct * Outcome Z)) :
  count isSynced t + count isSkipped t + count isFailed t = Z.of_nat (List.length t).
Proof.
  unfold count. induction t as [| [p o] t IH]; [reflexivity |].
  unfold isSynced, isSkipped, isFailed in *. cbn [filter snd].
  destruct o as [q | e].
  - rewrite Z.ltb_antisym. destruct (0 <=? q); cbn [negb List.length];
      rewrite ?Nat2Z.inj_succ; lia.
  - cbn [List.length]. rewrite ?Nat2Z.inj_succ. lia.
Qed.

(** C10.  When the query for SYNCED links returns, [fullSync] returns its
    results: at most 1000 products are visited; [synced] counts the products
    whose [checkAndSync] returned a non-negative quantity, [skipped] those
    for which it returned a negative one (the sentinel -1), [failed] those
    for which it threw; [lowStock] lists, in order, exactly the products
    whose fetched quantity is between 0 and the threshold 5, with that
    quantity.  The cached quantity of a link is never consulted, so a
    skipped product is not in [lowStock]. *)
Theorem fullSync_counts {L} (s : St L) (found : list SyncedProduct) (w1 : W) :
  dbFindSynced svc (world s) = (Returned found, w1) ->
  let products := firstn 1000 found in
  let s1 := mkSt w1 (log s ++ [EvDbFindSynced])
              (set_total (Z.of_nat (List.length products)) results0) in
  let trace := fullSyncTrace svc config products s1 in
  exists r,
    fst (performFullInventorySync svc config s) = Returned r
    /\ totalProducts r = Z.of_nat (List.length products)
    /\ totalProducts r <= 1000
    /\ synced r = count isSynced trace
    /\ skipped r = count isSkipped trace
    /\ failed r = count isFailed trace
    /\ lowStock r = map lowStockEntry (filter isLow trace)
    /\ synced r + skipped r + failed r = totalProducts r
    /\ (forall p, In (p, Returned (-1)) trace ->
        isSkipped (p, Returned (-1)) = true
        /\ isSynced (p, Returned (-1)) = false
        /\ isFailed (p, Returned (-1)) = false
        /\ isLow (p, Returned (-1)) = false).
Proof.
  intros Hfind products s1 trace.
  destruct (fullSync_loop svc config products s1) as [Hret Hvars].
  destruct (tallyAll_counts trace (vars s1)) as (Ht & Hs & Hk & Hf & Hl).
  exists (tallyAll trace (vars s1)).
  assert (fst (performFullInventorySync svc config s) =
          Returned (tallyAll trace (vars s1))) as Hrun.
  { unfold performFullInventorySync, scope, try_catch.
    unfold bind at 1. unfold perform. cbn [world log vars]. rewrite Hfind.
    unfold bind at 1. cbn [modify world log vars]. fold products. fold s1.
    unfold bind at 1.
    destruct (for_of products (fullSyncStep svc config) s1) as [[[] | e] s2];
      cbn [fst snd] in *; [| discriminate].
    cbn [get fst]. rewrite Hvars. reflexivity. }
  assert (Z.of_nat (List.length products) <= 1000) as Hcap.
  { subst products. pose proof (firstn_le_length 1000 found). lia. }
  pose proof (count_partition trace) as Hpart.
  unfold trace in Hpart at 4. rewrite fullSyncTrace_length in Hpart.
  simpl vars in *. cbn [set_total totalProducts synced skipped failed lowStock
                        results0] in *.
  repeat split; try assumption; try lia.
Qed.

End FullSyncResult.

(** * Status reconciliation poller *)

Section PagesFine.
Context {W L : Type}.

Lemma pagesFine_refl (s : @St W L) : pagesFine (log s) s.
Proof. exists []. rewrite app_nil_r. split; reflexivity. Qed.

Lemma pagesFine_event (base : list Event) (s : @St W L) (ev : Event)
    (w : W) (v : L) :
  pagesFine base s ->
  pageFailures [ev] = [] ->
  pagesFine base (mkSt w (log s ++ [ev]) v).
Proof.
  intros [new [Hlog Hnew]] Hev. exists (new ++ [ev])%list. simpl. split.
  - rewrite Hlog, app_assoc. reflexivity.
  - unfold pageFailures in *. rewrite flat_map_app, Hnew, Hev. reflexivity.
Qed.

Lemma pagesFine_same_log (base : list Event) (s : @St W L) (w : W) (v : L) :
  pagesFine base s -> pagesFine base (mkSt w (log s) v).
Proof. intros [new H]. exists new. exact H. Qed.

End PagesFine.

Ltac pages_fine :=
  intros;
  first [ apply pagesFine_event; [assumption | reflexivity]
        | apply pagesFine_same_log; assumption ].

Section StatusFacts.
Context {W : Type} (svc : Services W) (config : Config).

Lemma rangeTooLong_iff (startMs endMs : Z) :
  rangeTooLong startMs endMs = true <-> 15 * 86400000 < endMs - startMs.
Proof.
  unfold rangeTooLong. rewrite negb_true_iff, <- not_true_iff_false, Qle_bool_iff.
  unfold diffDays, Qle, Qdiv, Qmult, Qinv, inject_Z. simpl. lia.
Qed.

Lemma updateShopifyOrder_keeps_vars {L} (P : L -> Prop) (order : BunjangOrder) :
  keeps (onVars P) (updateShopifyOrderFromBunjangStatus (L := L) svc order).
Proof.
  unfold updateShopifyOrderFromBunjangStatus, handleStatus,
    updateShopifyFulfillmentStatus, tagOrder, shopifyUpdateOrder.
  repeat keeps_step; auto.
Qed.

Lemma syncOneOrder_keeps_pages (base : list Event) (order : BunjangOrder) :
  keeps (pagesFine base) (syncOneOrder svc order).
Proof.
  unfold syncOneOrder, updateShopifyOrderFromBunjangStatus, handleStatus,
    updateShopifyFulfillmentStatus, tagOrder, shopifyUpdateOrder.
  repeat keeps_step; pages_fine.
Qed.

(** One order: the call is guarded, and exactly one counter moves. *)
Lemma syncOneOrder_run (order : BunjangOrder) (s : St StatusVars) :
  let u := updateShopifyOrderFromBunjangStatus svc order s in
  syncOneOrder svc order s =
    (Returned tt,
     mkSt (world (snd u)) (log (snd u))
       (if returned (fst u) then incr_syncedCount (vars s)
        else incr_errorCount (vars s))).
Proof.
  cbv zeta.
  pose proof (updateShopifyOrder_keeps_vars (fun v => v = vars s) order s eq_refl) as Hv.
  unfold onVars in Hv. unfold syncOneOrder, try_catch, bind.
  destruct (updateShopifyOrderFromBunjangStatus svc order s) as [[[] | e] s1];
    cbn [fst snd returned] in *; unfold modify; rewrite Hv; reflexivity.
Qed.

Lemma counts_cons (b : bool) (t : list bool) :
  succeeded (b :: t) = (if b then 1 else 0) + succeeded t
  /\ failedOrders (b :: t) = (if b then 0 else 1) + failedOrders t.
Proof.
  unfold succeeded, failedOrders, count.
  destruct b; cbn [filter negb List.length]; rewrite ?Nat2Z.inj_succ; split; lia.
Qed.

Lemma counts_app (t1 t2 : list bool) :
  succeeded (t1 ++ t2) = succeeded t1 + succeeded t2
  /\ failedOrders (t1 ++ t2) = failedOrders t1 + failedOrders t2.
Proof.
  unfold succeeded, failedOrders, count.
  rewrite !filter_app, !length_app, !Nat2Z.inj_add. split; reflexivity.
Qed.

Lemma page_loop (orders : list BunjangOrder) (s : St StatusVars) :
  let r := for_of orders (syncOneOrder svc) s in
  fst r = Returned tt
  /\ syncedCount (vars (snd r)) = syncedCount (vars s) + succeeded (ordersTrace svc orders s)
  /\ errorCount (vars (snd r)) = errorCount (vars s) + failedOrders (ordersTrace svc orders s)
  /\ List.length (ordersTrace svc orders s) = List.length orders.
Proof.
  cbv zeta. revert s. induction orders as [| order orders IH]; intros s.
  - simpl. unfold succeeded, failedOrders, count. simpl. repeat split; lia.
  - cbn [for_of ordersTrace]. unfold bind.
    pose proof (syncOneOrder_run order s) as Hrun. cbv zeta in Hrun.
    destruct (syncOneOrder svc order s) as [o s1] eqn:E.
    injection Hrun as -> ->. cbn [snd].
    match goal with |- context [for_of orders _ ?st] =>
      destruct (IH st) as (H1 & H2 & H3 & H4) end.
    destruct (counts_cons
                (returned (fst (updateShopifyOrderFromBunjangStatus svc order s)))
                (ordersTrace svc orders
                   (mkSt (world (snd (updateShopifyOrderFromBunjangStatus svc order s)))
                      (log (snd (updateShopifyOrderFromBunjangStatus svc order s)))
                      (if returned (fst (updateShopifyOrderFromBunjangStatus svc order s))
                       then incr_syncedCount (vars s)
                       else incr_errorCount (vars s))))) as [C1 C2].
    rewrite C1, C2, H2, H3. cbn [List.length]. rewrite H4.
    split; [exact H1 |].
    destruct (returned (fst (updateShopifyOrderFromBunjangStatus svc order s)));
      cbn [vars syncedCount errorCount incr_syncedCount incr_errorCount];
      repeat split; lia.
Qed.

End StatusFacts.

Section StatusRun.
Context {W : Type} (svc : Services W) (config : Config).

Lemma pagesLoop_run (turns : nat) (startMs endMs : Z) :
  forall page s o s',
    pagesLoop svc turns startMs endMs page s = Some (o, s') ->
    pagesOutcome startMs endMs page (pagesTrace svc turns startMs endMs page s) s o s'.
Proof.
  induction turns as [| turns IH]; intros page s o s' Hrun; [discriminate |].
  cbn [pagesLoop pagesTrace] in *. fold (pageQuery startMs endMs page) in *.
  unfold perform in *.
  destruct (getBunjangOrders svc (pageQuery startMs endMs page) (world s))
    as [[reply | e] w1]; cbn [failureOf] in *.
  2:{ injection Hrun as <- <-. eexists; split; [reflexivity |].
      split; [eauto |]. exists [], (pageQuery startMs endMs page). split; reflexivity. }
  assert (forall v : StatusVars,
            pagesOutcome startMs endMs page [] s (Returned tt)
              (mkSt w1 (log s ++ [EvGetOrders (pageQuery startMs endMs page) None])
                 (vars s))) as Hbreak.
  { intros _. eexists; split; [reflexivity |]. split; [eauto |].
    unfold succeeded, failedOrders, count. simpl. repeat split; lia. }
  destruct reply as [ordersResponse |].
  2:{ injection Hrun as <- <-. apply Hbreak. exact (vars s). }
  destruct (data ordersResponse) as [orders |].
  2:{ injection Hrun as <- <-. apply Hbreak. exact (vars s). }
  set (s1 := mkSt w1 (log s ++ [EvGetOrders (pageQuery startMs endMs page) None])
               (vars s)) in *.
  destruct (page_loop svc orders s1) as (Hret & Hsync & Herr & _).
  assert (pagesFine (log s1) (snd (for_of orders (syncOneOrder svc) s1))) as Hfine.
  { apply (keeps_for_of (pagesFine (log s1)) orders (syncOneOrder svc)).
    - intros order _. apply syncOneOrder_keeps_pages.
    - apply pagesFine_refl. }
  destruct (for_of orders (syncOneOrder svc) s1) as [[[] | e] s2];
    cbn [fst snd] in *; [| discriminate].
  destruct Hfine as [new2 [Hlog2 Hnew2]]. cbn [log s1] in Hlog2.
  destruct (page <? totalPages ordersResponse - 1).
  - apply IH in Hrun. destruct Hrun as (new3 & Hlog3 & _ & Hout).
    exists ((EvGetOrders (pageQuery startMs endMs page) None :: new2) ++ new3)%list.
    split.
    { rewrite Hlog3, Hlog2, <- !app_assoc. reflexivity. }
    split; [eexists; eexists; reflexivity |].
    destruct o as [[] | e].
    + destruct Hout as (Hf3 & Hs3 & He3).
      destruct (counts_app (ordersTrace svc orders s1)
                  (pagesTrace svc turns startMs endMs (page + 1) s2)) as [C1 C2].
      rewrite C1, C2, Hs3, He3, Hsync, Herr. cbn [vars s1].
      unfold pageFailures in *. rewrite flat_map_app, Hf3. cbn [flat_map].
      rewrite Hnew2. repeat split; lia.
    + destruct Hout as (pre & q & Hnew3 & Hpre).
      exists ((EvGetOrders (pageQuery startMs endMs page) None :: new2) ++ pre)%list, q.
      split.
      { rewrite Hnew3, <- !app_assoc. reflexivity. }
      unfold pageFailures in *. rewrite flat_map_app, Hpre. cbn [flat_map].
      rewrite Hnew2. reflexivity.
  - injection Hrun as <- <-.
    exists (EvGetOrders (pageQuery startMs endMs page) None :: new2).
    split.
    { rewrite Hlog2, <- app_assoc. reflexivity. }
    split; [eexists; eexists; reflexivity |].
    rewrite app_nil_r, Hsync, Herr. cbn [vars s1].
    unfold pageFailures in *. cbn [flat_map]. rewrite Hnew2.
    repeat split; lia.
Qed.

(** When no reply announces more than [bound] pages, [bound] turns (and at
    least one) are enough for the loop to finish. *)
Lemma pagesLoop_finishes (bound : Z) (startMs endMs : Z) :
  (forall q w reply w',
      getBunjangOrders svc q w = (Returned (Some reply), w') ->
      totalPages reply <= bound) ->
  forall turns page s,
    1 <= Z.of_nat turns ->
    bound - page <= Z.of_nat turns ->
    pagesLoop svc turns startMs endMs page s <> None.
Proof.
  intros Hbound. induction turns as [| turns IH]; intros page s H1 H2; [lia |].
  cbn [pagesLoop]. unfold perform.
  destruct (getBunjangOrders svc _ (world s)) as [[reply | e] w1] eqn:E;
    [| discriminate].
  destruct reply as [ordersResponse |]; [| discriminate].
  apply Hbound in E.
  destruct (data ordersResponse) as [orders |]; [| discriminate].
  match goal with |- context [for_of orders _ ?st] =>
    destruct (for_of orders (syncOneOrder svc) st) as [[[] | e] s2] end;
    [| discriminate].
  destruct (page <? totalPages ordersResponse - 1) eqn:Emore; [| discriminate].
  apply Z.ltb_lt in Emore. apply IH; lia.
Qed.

End StatusRun.

Section StatusTheorems.
Context {W : Type} (svc : Services W) (config : Config).

Lemma syncStatuses_accepted {L} (turns : nat) (startMs endMs : Z) (s : St L) :
  endMs - startMs <= fifteenDays ->
  syncBunjangOrderStatuses svc turns (Some startMs) (Some endMs) s =
    match pagesLoop svc turns startMs endMs 0
            (mkSt (world s) (log s) {| syncedCount := 0; errorCount := 0 |}) with
    | None => None
    | Some (Thrown error, s') =>
      Some (Thrown error, mkSt (world s') (log s') (vars s))
    | Some (Returned _, s') =>
      Some (Returned {| sr_success := true;
                        syncedOrders := syncedCount (vars s');
                        errors := errorCount (vars s') |},
            mkSt (world s') (log s') (vars s))
    end.
Proof.
  intros Hrange. unfold syncBunjangOrderStatuses.
  destruct (rangeTooLong startMs endMs) eqn:E; [| reflexivity].
  apply rangeTooLong_iff in E. unfold fifteenDays in Hrange. lia.
Qed.

Lemma syncStatuses_finishes {L} (turns : nat) (startMs endMs : Z) (s : St L)
    (bound : Z) :
  endMs - startMs <= fifteenDays ->
  (forall q w reply w',
      getBunjangOrders svc q w = (Returned (Some reply), w') ->
      totalPages reply <= bound) ->
  1 <= Z.of_nat turns -> bound <= Z.of_nat turns ->
  exists o s',
    syncBunjangOrderStatuses svc turns (Some startMs) (Some endMs) s = Some (o, s').
Proof.
  intros Hrange Hbound H1 H2.
  rewrite (syncStatuses_accepted turns startMs endMs s Hrange).
  pose proof (pagesLoop_finishes svc bound startMs endMs Hbound turns 0
                (mkSt (world s) (log s) {| syncedCount := 0; errorCount := 0 |})
                H1 ltac:(lia)) as Hfin.
  destruct (pagesLoop svc turns startMs endMs 0 _) as [[[[] | e] s1] |];
    [eauto | eauto | contradiction].
Qed.

(** C7.  A range of more than 15 days fails with a Validation error and
    leaves world and log as they were: no call was made.  A range of 15 days
    or less passes the check: whatever the run ends in, it has first fetched
    page 0 of that range, and it does end when the turns allowed cover the
    pages the server announces. *)
Theorem syncStatuses_window {L} (turns : nat) (startMs endMs : Z) (s : St L) :
  (fifteenDays < endMs - startMs ->
   exists e,
     syncBunjangOrderStatuses svc turns (Some startMs) (Some endMs) s
       = Some (Thrown e, s)
     /\ errClass e = ValidationError)
  /\ (endMs - startMs <= fifteenDays ->
      (forall o s',
          syncBunjangOrderStatuses svc turns (Some startMs) (Some endMs) s
            = Some (o, s') ->
          exists threw rest,
            log s' = (log s ++ EvGetOrders (pageQuery startMs endMs 0) threw :: rest)%list)
      /\ (forall bound,
          (forall q w reply w',
              getBunjangOrders svc q w = (Returned (Some reply), w') ->
              totalPages reply <= bound) ->
          1 <= Z.of_nat turns -> bound <= Z.of_nat turns ->
          exists o s',
            syncBunjangOrderStatuses svc turns (Some startMs) (Some endMs) s
              = Some (o, s'))).
Proof.
  split.
  - intros Hlong. unfold syncBunjangOrderStatuses.
    apply rangeTooLong_iff in Hlong. rewrite Hlong.
    eexists. split; reflexivity.
  - intros Hrange. split.
    + rewrite (syncStatuses_accepted turns startMs endMs s Hrange).
      intros o s' Hrun.
      destruct (pagesLoop svc turns startMs endMs 0 _) as [[o1 s1] |] eqn:E;
        [| discriminate].
      apply pagesLoop_run in E. destruct E as (new & Hlog & (threw & rest & Hnew) & _).
      cbn [log] in Hlog. exists threw, rest. rewrite <- Hnew, <- Hlog.
      destruct o1 as [[] | e]; injection Hrun as <- <-; reflexivity.
    + intros bound. apply syncStatuses_finishes. exact Hrange.
Qed.

(** C8.  One order: its update is guarded, so the step returns and moves
    exactly one counter, [syncedCount] when the update returned and
    [errorCount] when it threw; the loop over a page therefore reaches every
    order.  The run: when it returns, no page fetch threw and the returned
    counts are those of the orders reached; when it throws, the error is the
    one a page fetch threw and that fetch is the last call made; a range
    check apart, there is no third way to end.  So the run returns counts
    exactly when no page fetch threw, and it does end when the turns allowed
    cover the pages the server announces. *)
Theorem syncStatuses_failures {L} (turns : nat) (startMs endMs : Z) (s : St L) :
  endMs - startMs <= fifteenDays ->
  let s0 := mkSt (world s) (log s) {| syncedCount := 0; errorCount := 0 |} in
  let trace := pagesTrace svc turns startMs endMs 0 s0 in
  (forall order (st : St StatusVars),
      let u := updateShopifyOrderFromBunjangStatus svc order st in
      syncOneOrder svc order st =
        (Returned tt,
         mkSt (world (snd u)) (log (snd u))
           (if returned (fst u) then incr_syncedCount (vars st)
            else incr_errorCount (vars st))))
  /\ (forall orders (st : St StatusVars),
      fst (for_of orders (syncOneOrder svc) st) = Returned tt
      /\ List.length (ordersTrace svc orders st) = List.length orders)
  /\ (forall o s',
      syncBunjangOrderStatuses svc turns (Some startMs) (Some endMs) s = Some (o, s') ->
      exists new,
        log s' = (log s ++ new)%list
        /\ (returned o = true <-> pageFailures new = [])
        /\ match o with
           | Returned res =>
             sr_success res = true
             /\ syncedOrders res = succeeded trace
             /\ errors res = failedOrders trace
           | Thrown e =>
             exists pre q,
               new = (pre ++ [EvGetOrders q (Some e)])%list /\ pageFailures pre = []
           end)
  /\ (forall bound,
      (forall q w reply w',
          getBunjangOrders svc q w = (Returned (Some reply), w') ->
          totalPages reply <= bound) ->
      1 <= Z.of_nat turns -> bound <= Z.of_nat turns ->
      exists o s',
        syncBunjangOrderStatuses svc turns (Some startMs) (Some endMs) s = Some (o, s')).
Proof.
  intros Hrange s0 trace. split; [| split; [| split]];
    [| | | intros bound; apply syncStatuses_finishes; exact Hrange].
  - intros order st. apply syncOneOrder_run.
  - intros orders st. destruct (page_loop svc orders st) as (H1 & _ & _ & H4).
    split; assumption.
  - intros o s' Hrun.
    rewrite (syncStatuses_accepted turns startMs endMs s Hrange) in Hrun.
    fold s0 in Hrun.
    destruct (pagesLoop svc turns startMs endMs 0 s0) as [[o1 s1] |] eqn:E;
      [| discriminate].
    apply pagesLoop_run in E. fold trace in E.
    destruct E as (new & Hlog & _ & Hout). cbn [log s0] in Hlog.
    exists new. destruct o1 as [[] | e]; injection Hrun as <- <-; cbn [log].
    + destruct Hout as (Hf & Hs & He). cbn [vars s0 syncedCount errorCount] in *.
      split; [exact Hlog |]. split; [split; auto |].
      cbn [sr_success syncedOrders errors]. repeat split; lia.
    + destruct Hout as (pre & q & Hnew & Hpre).
      split; [exact Hlog |]. split.
      * split; [discriminate |]. intros Hnone. exfalso.
        rewrite Hnew in Hnone. unfold pageFailures in Hnone.
        rewrite flat_map_app in Hnone. apply app_eq_nil in Hnone.
        destruct Hnone as [_ Hlast]. discriminate Hlast.
      * exists pre, q. split; assumption.
Qed.

End StatusTheorems.

(** * Order sync orchestrator *)

Section Recorded.
Context {W : Type}.

Lemma recorded_event (base pending : list string) (s : @St W OrderVars)
    (ev : Event) (w : W) :
  recorded base pending s ->
  createdOf ev = [] ->
  recorded base pending (mkSt w (log s ++ [ev]) (vars s)).
Proof.
  intros [Hlog Hc] Hev. split; [| exact Hc]. cbn [log vars].
  unfold marketplaceOrdersCreated in *. rewrite flat_map_app, Hlog.
  cbn [flat_map]. rewrite Hev. rewrite !app_nil_r. reflexivity.
Qed.

Lemma recorded_create (base : list string) (s : @St W OrderVars)
    (p : OrderPayload) (r : Outcome (option ApiResponse)) (w : W) :
  recorded base [] s ->
  recorded base (createdOf (EvCreateOrder p r)) (mkSt w (log s ++ [EvCreateOrder p r]) (vars s)).
Proof.
  intros [Hlog Hc]. split; [| exact Hc]. cbn [log vars].
  unfold marketplaceOrdersCreated in *. rewrite flat_map_app, Hlog.
  cbn [flat_map]. rewrite !app_nil_r, <- app_assoc. reflexivity.
Qed.

Lemma recorded_push (base : list string) (s : @St W OrderVars) (id : string) :
  recorded base [id] s ->
  recorded base [] (mkSt (world s) (log s) (recordCreated id (vars s))).
Proof.
  intros [Hlog Hc]. split.
  - cbn [log vars recordCreated createdBunjangOrderIds].
    rewrite Hlog, app_nil_r. reflexivity.
  - unfold consistent. cbn [vars recordCreated createdBunjangOrderIds
                              bunjangOrderSuccessfullyCreatedOverall].
    destruct (createdBunjangOrderIds (vars s)); reflexivity.
Qed.

End Recorded.

Ltac recorded_fine :=
  intros;
  first [ assumption
        | apply recorded_event; [assumption | reflexivity] ].

Section OrderFacts.
Context {W : Type} (svc : Services W) (config : Config).

Lemma tagOrder_keeps_recorded (base pending : list string) gid ts :
  keeps (recorded base pending) (tagOrder svc gid ts).
Proof. unfold tagOrder, shopifyUpdateOrder. repeat keeps_step; recorded_fine. Qed.

Lemma checkPointBalance_keeps_recorded (base : list string) gid :
  keeps (recorded base []) (checkPointBalance svc config gid).
Proof.
  unfold checkPointBalance, tagOrder, shopifyUpdateOrder.
  repeat keeps_step; recorded_fine.
Qed.

Lemma submitOrder_keeps_recorded (base : list string) gid ident pid payload price fee :
  keeps (recorded base []) (submitOrder svc config gid ident pid payload price fee).
Proof.
  unfold submitOrder. apply keeps_try; [| intros e; apply tagOrder_keeps_recorded].
  apply triple_bind with
    (Q := fun o s => recorded base (createdOf (EvCreateOrder payload o)) s).
  - intros s Hs. unfold perform.
    destruct (createBunjangOrderV2 svc payload (world s)) as [r w']. cbn [fst snd].
    apply recorded_create. exact Hs.
  - intros [[[id |]] |]; cbn [createdOf]; try apply tagOrder_keeps_recorded.
    destruct (negb (id =? 0)); [| apply tagOrder_keeps_recorded].
    apply triple_bind with (Q := fun _ s => recorded base [] s).
    + intros s Hs. cbn [modify fst snd]. apply recorded_push. exact Hs.
    + intros _. apply keeps_bind; [| intros _; apply checkPointBalance_keeps_recorded].
      unfold shopifyUpdateOrder. repeat keeps_step; recorded_fine.
    + auto.
  - intros e s Hs. exact Hs.
Qed.

Lemma processItem_keeps_recorded (base : list string) gid ident item :
  keeps (recorded base []) (processItem svc config gid ident item).
Proof.
  unfold processItem. destruct (bunjangLinked item) as [pid |]; [| apply keeps_ret].
  apply keeps_try; [| intros e; apply tagOrder_keeps_recorded].
  apply keeps_bind; [repeat keeps_step; recorded_fine |].
  intros [details |]; [| apply tagOrder_keeps_recorded].
  apply keeps_bind; [apply keeps_lift |].
  intros [payload |]; [| apply tagOrder_keeps_recorded].
  cbv zeta. destruct (product (set_deliveryPrice payload 0)) as [pr |];
    [apply submitOrder_keeps_recorded | apply keeps_throw].
Qed.

Lemma zeroDelivery_event (base : list Event) {L} (s : @St W L) (ev : Event)
    (w : W) (v : L) :
  zeroDelivery base s ->
  (forall p r, ev = EvCreateOrder p r -> deliveryPrice p = 0) ->
  zeroDelivery base (mkSt w (log s ++ [ev]) v).
Proof.
  intros Hs Hev p r Hin. cbn [log] in Hin. apply in_app_or in Hin.
  destruct Hin as [Hin | [Heq | []]]; [apply Hs; exact Hin |].
  right. apply (Hev p r). exact Heq.
Qed.

Lemma zeroDelivery_same_log (base : list Event) {L} (s : @St W L) (w : W) (v : L) :
  zeroDelivery base s -> zeroDelivery base (mkSt w (log s) v).
Proof. intros Hs p r Hin. apply Hs. exact Hin. Qed.

Lemma processItem_keeps_zeroDelivery (base : list Event) gid ident item :
  keeps (zeroDelivery base) (processItem svc config gid ident item).
Proof.
  unfold processItem, submitOrder, checkPointBalance, tagOrder, shopifyUpdateOrder.
  repeat keeps_step; intros;
    first [ assumption
          | apply zeroDelivery_same_log; assumption
          | apply zeroDelivery_event;
            [assumption | intros ? ? E; first [discriminate E | injection E as <- _; reflexivity]] ].
Qed.

End OrderFacts.

Section ProcessOrder.
Context {W : Type} (svc : Services W) (config : Config).

Lemma unlinked_items_skip gid ident (items : list LineItem) (s : St OrderVars) :
  (forall item, In item items -> bunjangLinked item = None) ->
  for_of items (processItem svc config gid ident) s = (Returned tt, s).
Proof.
  induction items as [| item items IH]; intros Hnone; [reflexivity |].
  cbn [for_of]. unfold bind, processItem at 1.
  rewrite (Hnone item (or_introl eq_refl)). cbn [ret].
  apply IH. intros i Hi. apply Hnone. right. exact Hi.
Qed.

Lemma tagOrder_returns {L} gid ts (s : St L) :
  (forall u w, returned (fst (updateOrder svc u w)) = true) ->
  fst (tagOrder svc gid ts s) = Returned tt.
Proof.
  intros Hup. unfold tagOrder, shopifyUpdateOrder, perform.
  match goal with |- context [updateOrder svc ?u ?w] =>
    specialize (Hup u w); destruct (updateOrder svc u w) as [[[] | e] w'] end;
    [reflexivity | discriminate].
Qed.

Lemma processItem_returns gid ident item (s : St OrderVars) :
  (forall u w, returned (fst (updateOrder svc u w)) = true) ->
  fst (processItem svc config gid ident item s) = Returned tt.
Proof.
  intros Hup. unfold processItem.
  destruct (bunjangLinked item) as [pid |]; [| reflexivity].
  apply try_swallow_returns. intros e s'. apply tagOrder_returns. exact Hup.
Qed.

(** The only error that leaves an item's step is one thrown by the tag
    write of its last handler. *)
Lemma processItem_throws_only_from_tagging gid ident item (s : St OrderVars) e :
  fst (processItem svc config gid ident item s) = Thrown e ->
  exists pid w,
    bunjangLinked item = Some pid
    /\ fst (updateOrder svc
              {| ou_id := gid;
                 tags := Some [(ident ++ "_Error")%string;
                               ("PID-" ++ pid ++ "-Exception")%string];
                 metafields := None |} w) = Thrown e.
Proof.
  unfold processItem. destruct (bunjangLinked item) as [pid |]; [| discriminate].
  unfold try_catch.
  match goal with |- context [bind ?m ?f s] => destruct (bind m f s) as [[[] | e'] s'] end;
    [discriminate |].
  unfold tagOrder, shopifyUpdateOrder, perform.
  destruct (updateOrder svc _ (world s')) as [r w'] eqn:E. cbn [fst].
  intros ->. exists pid, (world s'). rewrite E. split; reflexivity.
Qed.

(** C1.  For an order with a numeric id, a global id and a non-empty list of
    line items, whenever [processOrder] returns a result, [success] is true
    exactly when at least one marketplace order was created during the call,
    and the ids returned are exactly, and in order, the ids of the
    marketplace orders created (none is returned when there is none).  With
    no linked line item it returns [success = false] without making any
    call.  It returns a result whenever the tag writes to Platform A do not
    throw. *)
Theorem processOrder_postcondition {L} (order : ShopifyOrder) (s : St L)
    (id : Z) (gid : string) (first : LineItem) (rest : list LineItem) :
  order_id order = Some id -> id <> 0 ->
  admin_graphql_api_id order = Some gid -> gid <> EmptyString ->
  line_items order = Some (first :: rest) ->
  let run := processShopifyOrderForBunjang svc config order s in
  (forall res,
      fst run = Returned res ->
      exists ids,
        marketplaceOrdersCreated (log (snd run))
          = (marketplaceOrdersCreated (log s) ++ ids)%list
        /\ (success res = true <-> ids <> [])
        /\ bunjangOrderIds res = (if success res then Some ids else None))
  /\ ((forall item, In item (first :: rest) -> bunjangLinked item = None) ->
      run = (Returned noOrderCreated, s))
  /\ ((forall u w, returned (fst (updateOrder svc u w)) = true) ->
      returned (fst run) = true).
Proof.
  intros Hid Hnz Hgid Hne Hitems run. subst run.
  unfold processShopifyOrderForBunjang. rewrite Hid, Hgid, Hitems.
  apply Z.eqb_neq in Hnz. rewrite Hnz.
  assert (nonempty gid = true) as Hg by (destruct gid; [contradiction | reflexivity]).
  rewrite Hg. cbn [negb andb]. unfold scope.
  set (ident := (orderIdentifierPrefix config ++ string_of_Z id)%string).
  set (s0 := mkSt (world s) (log s) orderVars0).
  set (step := processItem svc config gid ident).
  unfold bind, get.
  split; [| split].
  - assert (recorded (marketplaceOrdersCreated (log s)) []
              (snd (for_of (first :: rest) step s0))) as Hrec.
    { apply (keeps_for_of (recorded (marketplaceOrdersCreated (log s)) [])).
      - intros item _. apply processItem_keeps_recorded.
      - split; [| reflexivity]. cbn [log vars s0 orderVars0 createdBunjangOrderIds].
        rewrite !app_nil_r. reflexivity. }
    destruct (for_of (first :: rest) step s0) as [[[] | e] s1];
      cbn [fst snd] in *; [| discriminate].
    destruct Hrec as [Hlog Hcons]. rewrite app_nil_r in Hlog.
    unfold consistent in Hcons.
    intros res.
    destruct (bunjangOrderSuccessfullyCreatedOverall (vars s1)) eqn:Eflag;
      cbn [ret fst snd log]; intros Hres; injection Hres as <-;
      cbn [success bunjangOrderIds].
    + exists (createdBunjangOrderIds (vars s1)). split; [exact Hlog |].
      split; [| reflexivity]. split; [| reflexivity].
      intros _ Hnil. rewrite Hnil in Hcons. discriminate.
    + exists []. destruct (createdBunjangOrderIds (vars s1)); [| discriminate].
      split; [exact Hlog |]. split; [| reflexivity].
      split; [discriminate | intros Hn; contradiction].
  - intros Hnone.
    pose proof (unlinked_items_skip gid ident (first :: rest) s0 Hnone) as E.
    fold step in E. rewrite E. cbn. destruct s; reflexivity.
  - intros Hup.
    assert (fst (for_of (first :: rest) step s0) = Returned tt) as Hret.
    { apply for_of_returns. intros item s' _. apply processItem_returns. exact Hup. }
    destruct (for_of (first :: rest) step s0) as [[[] | e] s1];
      cbn [fst] in Hret; [| discriminate].
    cbn [fst snd].
    destruct (bunjangOrderSuccessfullyCreatedOverall (vars s1)); reflexivity.
Qed.

End ProcessOrder.

Section DeliveryFee.
Context {W : Type} (svc : Services W) (config : Config).

Lemma extends_event {L} (base : list Event) (s : @St W L) (ev : Event)
    (w : W) (v : L) :
  extends base s -> extends base (mkSt w (log s ++ [ev]) v).
Proof.
  intros [rest H]. exists (rest ++ [ev])%list. cbn [log].
  rewrite H, app_assoc. reflexivity.
Qed.

Lemma extends_same_log {L} (base : list Event) (s : @St W L) (w : W) (v : L) :
  extends base s -> extends base (mkSt w (log s) v).
Proof. intros [rest H]. exists rest. exact H. Qed.

Lemma tagOrder_extends {L} (base : list Event) gid ts :
  keeps (extends (L := L) base) (tagOrder svc gid ts).
Proof.
  unfold tagOrder, shopifyUpdateOrder.
  repeat keeps_step; intros; apply extends_event; assumption.
Qed.

Lemma checkPointBalance_extends {L} (base : list Event) gid :
  keeps (extends (L := L) base) (checkPointBalance svc config gid).
Proof.
  unfold checkPointBalance, tagOrder, shopifyUpdateOrder.
  repeat keeps_step; intros;
    first [assumption | apply extends_event; assumption].
Qed.

Lemma successMetafields_fees id pid price actual :
  feeMetafields actual (successMetafields id pid price 0 actual).
Proof.
  unfold feeMetafields, successMetafields. split.
  - right; right; right; left. reflexivity.
  - right; right; right; right; left. reflexivity.
Qed.

(** C9, as amended.  Every order-creation request made while an order is
    processed carries a delivery price of 0, whatever the product's shipping
    fee.  When the request for a line item returns a marketplace order id,
    the next call writes the order's metadata, in which
    [api_sent_shipping_fee_krw] is 0 and [actual_bunjang_shipping_fee_krw]
    is the product's actual fee (0 when it has none). *)
Theorem zero_delivery_fee_policy {L} (order : ShopifyOrder) (s : St L) :
  (forall p r,
      In (EvCreateOrder p r)
         (log (snd (processShopifyOrderForBunjang svc config order s))) ->
      In (EvCreateOrder p r) (log s) \/ deliveryPrice p = 0)
  /\ (forall gid ident item pid details payload pr id (st : St OrderVars) w1 w2,
      bunjangLinked item = Some pid ->
      getBunjangProductDetails svc pid (world st) = (Returned (Some details), w1) ->
      mapShopifyItemToBunjangOrderPayload svc item pid details
        = Returned (Some payload) ->
      product payload = Some pr ->
      createBunjangOrderV2 svc (set_deliveryPrice payload 0) w1
        = (Returned (Some {| resp_id := Some id |}), w2) ->
      id <> 0 ->
      exists u mfs rest,
        log (snd (processItem svc config gid ident item st))
          = (log st ++ [ EvGetProductDetails pid;
                         EvCreateOrder (set_deliveryPrice payload 0)
                           (Returned (Some {| resp_id := Some id |}));
                         EvUpdateOrder u ] ++ rest)%list
        /\ ou_id u = gid
        /\ metafields u = Some mfs
        /\ feeMetafields (or_zero (shippingFee details)) mfs).
Proof.
  split.
  - unfold processShopifyOrderForBunjang.
    assert (zeroDelivery (log s) s) as H0 by (intros p r Hin; left; exact Hin).
    destruct (order_id order) as [id |]; [| exact H0].
    destruct (admin_graphql_api_id order) as [gid |]; [| exact H0].
    destruct (line_items order) as [[| first rest] |]; try exact H0.
    destruct (negb (id =? 0) && nonempty gid); [| exact H0].
    unfold scope, bind, get.
    match goal with |- context [for_of ?xs ?b ?st] =>
      assert (zeroDelivery (log s) (snd (for_of xs b st))) as Hz;
      [ apply (keeps_for_of (zeroDelivery (log s)) xs b);
        [ intros item _; apply processItem_keeps_zeroDelivery
        | intros p r Hin; left; exact Hin ]
      | destruct (for_of xs b st) as [[[] | e] s1] ]
    end; cbn [fst snd] in *.
    + destruct (bunjangOrderSuccessfullyCreatedOverall (vars s1)); exact Hz.
    + exact Hz.
  - intros gid ident item pid details payload pr id st w1 w2
      Hlinked Hfetch Hmap Hprod Hcreate Hnz.
    unfold processItem. rewrite Hlinked.
    unfold try_catch at 1. unfold bind at 1. unfold perform at 1. rewrite Hfetch.
    unfold bind at 1. unfold lift. rewrite Hmap. cbv zeta.
    cbn [product set_deliveryPrice]. rewrite Hprod.
    unfold submitOrder. unfold try_catch at 1. unfold bind at 1.
    unfold perform at 1. cbn [world log vars]. rewrite Hcreate.
    apply Z.eqb_neq in Hnz. rewrite Hnz. cbn [negb].
    unfold bind at 1. cbn [modify]. unfold bind at 1.
    unfold shopifyUpdateOrder at 1. unfold perform at 1. cbn [world log vars].
    match goal with |- context [updateOrder svc ?u w2] =>
      exists u, (successMetafields id pid (pp_price pr) 0 (or_zero (shippingFee details)));
      destruct (updateOrder svc u w2) as [[[] | e3] w3]
    end.
    + match goal with |- context [checkPointBalance svc config gid ?s3] =>
        pose proof (checkPointBalance_extends (log s3) gid s3
                      (ex_intro _ [] (eq_sym (app_nil_r _)))) as Hext;
        destruct (checkPointBalance svc config gid s3) as [[[] | e4] s4]
      end; cbn [fst snd] in Hext.
      * destruct Hext as [rest Hrest]. exists rest. cbn [fst snd log] in *.
        rewrite Hrest, <- !app_assoc. cbn [app ou_id metafields deliveryPrice].
        repeat split; apply successMetafields_fees.
      * match goal with |- context [tagOrder svc gid ?ts s4] =>
          pose proof (tagOrder_extends (log s4) gid ts s4
                        (ex_intro _ [] (eq_sym (app_nil_r _)))) as Hext5;
          destruct (tagOrder svc gid ts s4) as [[[] | e5] s5]
        end; cbn [fst snd] in Hext5.
        -- destruct Hext as [rest Hrest]. destruct Hext5 as [rest5 Hrest5].
           exists (rest ++ rest5)%list. cbn [fst snd log] in *.
           rewrite Hrest5, Hrest, <- !app_assoc. cbn [app ou_id metafields deliveryPrice].
           repeat split; apply successMetafields_fees.
        -- match goal with |- context [tagOrder svc gid ?ts s5] =>
             pose proof (tagOrder_extends (log s5) gid ts s5
                           (ex_intro _ [] (eq_sym (app_nil_r _)))) as Hext6;
             destruct (tagOrder svc gid ts s5) as [o6 s6]
           end; cbn [fst snd] in Hext6.
           destruct Hext as [rest Hrest]. destruct Hext5 as [rest5 Hrest5].
           destruct Hext6 as [rest6 Hrest6].
           exists (rest ++ rest5 ++ rest6)%list. cbn [fst snd log] in *.
           rewrite Hrest6, Hrest5, Hrest, <- !app_assoc.
           cbn [app ou_id metafields deliveryPrice].
           repeat split; apply successMetafields_fees.
    + match goal with |- context [tagOrder svc gid ?ts ?s3] =>
        pose proof (tagOrder_extends (log s3) gid ts s3
                      (ex_intro _ [] (eq_sym (app_nil_r _)))) as Hext;
        destruct (tagOrder svc gid ts s3) as [[[] | e4] s4]
      end; cbn [fst snd] in Hext.
      * destruct Hext as [rest Hrest]. exists rest. cbn [fst snd log] in *.
        rewrite Hrest, <- !app_assoc. cbn [app ou_id metafields deliveryPrice].
        repeat split; apply successMetafields_fees.
      * match goal with |- context [tagOrder svc gid ?ts s4] =>
          pose proof (tagOrder_extends (log s4) gid ts s4
                        (ex_intro _ [] (eq_sym (app_nil_r _)))) as Hext5;
          destruct (tagOrder svc gid ts s4) as [o5 s5]
        end; cbn [fst snd] in Hext5.
        destruct Hext as [rest Hrest]. destruct Hext5 as [rest5 Hrest5].
        exists (rest ++ rest5)%list. cbn [fst snd log] in *.
        rewrite Hrest5, Hrest, <- !app_assoc. cbn [app ou_id metafields deliveryPrice].
        repeat split; apply successMetafields_fees.
Qed.

End DeliveryFee.


Section Checks.
Import Scenario.

Lemma processOrder_postcondition_witness :
  returned (fst (processShopifyOrderForBunjang (scripted calm) cfg twoLinkedItems start))
    = true.
Proof.
  pose proof (processOrder_postcondition (scripted calm) cfg twoLinkedItems start
                987 "gid://shopify/Order/987"
                (item 1 "BJ-12345" 111 1) [item 2 "BJ-67890" 112 1]
                eq_refl ltac:(discriminate) eq_refl ltac:(discriminate) eq_refl)
    as H.
  destruct H as (_ & _ & H). apply H. intros u w. reflexivity.
Defined.

(** C2.  Two linked line items; Platform B refuses the first order with
    POINT_SHORTAGE while Platform A rejects order updates.  The tag write in
    the handler of the inner [try] throws, the one in the handler of the
    outer [try] throws again, and that error leaves the loop: the call
    throws and the second line item is never looked at. *)
Theorem item_failure_escapes_loop :
  processShopifyOrderForBunjang (scripted pointShortageTagsDown) cfg twoLinkedItems start
  = (Thrown platformADown,
     mkSt tt
       [ EvGetProductDetails "12345";
         EvCreateOrder zeroFeePayload (Thrown shortage);
         EvUpdateOrder (errorTags "PID-12345-InsufficientPoints");
         EvUpdateOrder (errorTags "PID-12345-Exception") ]
       tt).
Proof. vm_compute. reflexivity. Qed.

Lemma webhook_verification_gate_witness :
  verifyWebhook node cfg (request (Some "c2lnX") (Some (RawString "{}")))
  = Respond {| status := 401; body := SendText "Unauthorized - Invalid HMAC" |}.
Proof.
  destruct (webhook_verification_gate node (scripted calm) cfg
              (ordersCreate (L := unit) (scripted calm) cfg)
              (request (Some "c2lnX") (Some (RawString "{}"))) start)
    as (_ & _ & H & _).
  apply H; try reflexivity. left. vm_compute. discriminate.
Defined.

(** C4.  An order-cancellation event for a linked line item of quantity 0,
    while the product-detail fetch returns nothing: [checkAndSync] returns
    the sentinel -1 and the handler pushes -1 + 0 = -1 to Platform A and
    stores it on the link.  With quantity 2 it pushes -1 + 2 = 1 over the 3
    that Platform A holds.  The order-creation handler, on the same replies,
    pushes nothing. *)
Theorem cancellation_pushes_sentinel :
  ordersUpdated (scripted fetchFails) cfg
    (order987 [item 1 "BJ-12345" 111 0] (Some "2025-06-01T00:00:00Z")) start
  = (Returned {| status := 200; body := JsonStatus "success" |},
     mkSt tt
       [ EvDbFindOneByProductId 111;
         EvGetProductDetails "12345";
         EvDbFindOneByPid "12345";
         EvGetProductVariants "gid://shopify/Product/111";
         EvUpdateInventoryLevel "gid://shopify/InventoryItem/9"
           (Some "gid://shopify/Location/1") (-1);
         EvDbUpdateQuantity "12345" (-1) ]
       tt)
  /\ log (snd (ordersUpdated (scripted fetchFails) cfg
                 (order987 [item 1 "BJ-12345" 111 2] (Some "2025-06-01T00:00:00Z"))
                 start))
     = [ EvDbFindOneByProductId 111;
         EvGetProductDetails "12345";
         EvDbFindOneByPid "12345";
         EvGetProductVariants "gid://shopify/Product/111";
         EvUpdateInventoryLevel "gid://shopify/InventoryItem/9"
           (Some "gid://shopify/Location/1") 1;
         EvDbUpdateQuantity "12345" 1 ]
  /\ ordersCreate (scripted fetchFails) cfg
       (order987 [item 1 "BJ-12345" 111 0] None) start
     = (Returned {| status := 200; body := JsonStatus "success" |},
        mkSt tt [ EvDbFindOneByProductId 111; EvGetProductDetails "12345" ] tt).
Proof. repeat split; vm_compute; reflexivity. Qed.

(** C5, as stated, fails: the link exists and names a Platform A product,
    the product is not found there, and [syncOne] returns false. *)
Lemma syncOne_false_with_link :
  linkByPid productGone "12345" = Returned (Some link12345)
  /\ linkOf (Some link12345) = Some "gid://shopify/Product/111"
  /\ syncBunjangInventoryToShopify (scripted productGone) cfg "12345" 3 start
     = (Returned false,
        mkSt tt [ EvDbFindOneByPid "12345";
                  EvGetProductVariants "gid://shopify/Product/111" ] tt).
Proof. repeat split. Qed.

Lemma syncOne_outcomes_witness :
  syncBunjangInventoryToShopify (scripted calm) cfg "12345" 3 start
  = (Returned true,
     mkSt tt [ EvDbFindOneByPid "12345";
               EvGetProductVariants "gid://shopify/Product/111" ] tt).
Proof.
  destruct (syncOne_outcomes (scripted calm) cfg "12345" 3 start
              (Some link12345) tt eq_refl) as [_ H].
  destruct (H "gid://shopify/Product/111" {| vr_product := Some [variant3] |} tt
              eq_refl eq_refl) as [_ H2].
  destruct (H2 variant3 [] eq_refl) as [H3 _].
  exact (H3 eq_refl).
Defined.

(** C6, as stated, fails: the fetch from Platform B fails, and [checkAndSync]
    returns neither -1 nor anything else; it throws the error of the fetch. *)
Lemma checkAndSync_raises_failed_fetch :
  details fetchThrows "12345" = Thrown platformBDown
  /\ checkAndSyncBunjangInventory (scripted fetchThrows) cfg "12345" start
     = (Thrown platformBDown, mkSt tt [EvGetProductDetails "12345"] tt)
  /\ fst (checkAndSyncBunjangInventory (scripted fetchThrows) cfg "12345" start)
     <> Returned (-1).
Proof. repeat split. discriminate. Qed.

Lemma checkAndSync_sentinel_witness :
  checkAndSyncBunjangInventory (scripted fetchFails) cfg "12345" start
  = (Returned (-1), mkSt tt [EvGetProductDetails "12345"] tt)
  /\ fst (checkAndSyncBunjangInventory (scripted fetchFails) cfg "12345" start)
     <> Returned 0.
Proof.
  exact (checkAndSync_sentinel (scripted fetchFails) cfg "12345" start
           (Returned None) tt eq_refl).
Defined.

Lemma syncStatuses_window_witness :
  exists e,
    syncBunjangOrderStatuses (scripted calm) 3 (Some 0) (Some (16 * 86400000)) start
      = Some (Thrown e, start)
    /\ errClass e = ValidationError.
Proof.
  destruct (syncStatuses_window (scripted calm) 3 0 (16 * 86400000) start) as [H _].
  apply H. unfold fifteenDays. lia.
Defined.

Lemma syncStatuses_failures_witness :
  exists o s',
    syncBunjangOrderStatuses (scripted calm) 3 (Some 0) (Some 86400000) start
      = Some (o, s').
Proof.
  destruct (syncStatuses_failures (scripted calm) 3 0 86400000 start
              ltac:(unfold fifteenDays; lia)) as (_ & _ & _ & H).
  apply (H 1); [| lia | lia].
  intros q w reply w' E. injection E as <- _. simpl. lia.
Defined.

(** C9, as stated, fails: a payload is submitted for the line item, with
    delivery price 0 for a product whose actual fee is 3000; Platform B
    refuses the order; and the only write to the order is the failure tag,
    without metadata. *)
Lemma fee_not_recorded_on_rejection :
  shippingFee liveDetails = Some 3000
  /\ log (snd (processShopifyOrderForBunjang (scripted pointShortage) cfg
                 oneLinkedItem start))
     = [ EvGetProductDetails "12345";
         EvCreateOrder zeroFeePayload (Thrown shortage);
         EvUpdateOrder (errorTags "PID-12345-InsufficientPoints") ]
  /\ existsb writesMetadata
       (log (snd (processShopifyOrderForBunjang (scripted pointShortage) cfg
                    oneLinkedItem start)))
     = false.
Proof. repeat split. Qed.

Lemma zero_delivery_fee_policy_witness :
  exists u mfs rest,
    log (snd (processItem (scripted calm) cfg "gid://shopify/Order/987"
                "bungjang_order_987" (item 1 "BJ-12345" 111 1)
                (mkSt tt [] orderVars0)))
      = ([] ++ [ EvGetProductDetails "12345";
                 EvCreateOrder zeroFeePayload (Returned (Some {| resp_id := Some 555 |}));
                 EvUpdateOrder u ] ++ rest)%list
    /\ ou_id u = "gid://shopify/Order/987"
    /\ metafields u = Some mfs
    /\ feeMetafields 3000 mfs.
Proof.
  destruct (zero_delivery_fee_policy (scripted calm) cfg oneLinkedItem start) as [_ H].
  exact (H "gid://shopify/Order/987" "bungjang_order_987" (item 1 "BJ-12345" 111 1)
           "12345" liveDetails
           {| product := Some {| pp_id := 12345; pp_price := 50000 |};
              deliveryPrice := 3000 |}
           {| pp_id := 12345; pp_price := 50000 |} 555 (mkSt tt [] orderVars0) tt tt
           eq_refl eq_refl eq_refl eq_refl eq_refl ltac:(discriminate)).
Defined.

Lemma fullSync_counts_witness :
  exists r,
    fst (performFullInventorySync (scripted threeLinks) cfg start) = Returned r
    /\ totalProducts r = 3
    /\ skipped r = 1
    /\ lowStock r = [ {| ls_bunjangPid := "111"; ls_productName := "111";
                         currentStock := 2 |} ].
Proof.
  destruct (fullSync_counts (scripted threeLinks) cfg start
              [link "111" 9; link "222" 1; link "333" 50] tt eq_refl)
    as (r & Hr & Ht & _ & _ & Hk & _ & Hl & _).
  exists r. split; [exact Hr |]. split; [exact Ht |]. split.
  - rewrite Hk. reflexivity.
  - rewrite Hl. reflexivity.
Defined.

End Checks.


(** * Further properties of the order orchestrator *)

Section SinceAll.
Context {W L : Type}.

Lemma sinceAll_refl (ok : Event -> Prop) (s : @St W L) : sinceAll ok (log s) s.
Proof. intros ev Hin. left. exact Hin. Qed.

Lemma sinceAll_event (ok : Event -> Prop) (base : list Event) (s : @St W L)
    (ev : Event) (w : W) (v : L) :
  sinceAll ok base s -> ok ev -> sinceAll ok base (mkSt w (log s ++ [ev]) v).
Proof.
  intros Hs Hev e Hin. cbn [log] in Hin. apply in_app_or in Hin.
  destruct Hin as [Hin | [<- | []]]; [apply Hs; exact Hin | right; exact Hev].
Qed.

Lemma sinceAll_same_log (ok : Event -> Prop) (base : list Event) (s : @St W L)
    (w : W) (v : L) :
  sinceAll ok base s -> sinceAll ok base (mkSt w (log s) v).
Proof. intros Hs e Hin. apply Hs. exact Hin. Qed.

End SinceAll.

Ltac since_all :=
  intros;
  first [ assumption
        | apply sinceAll_same_log; assumption
        | apply sinceAll_event; [assumption | simpl; auto; try lia] ].

Section OrchestratorMore.
Context {W : Type} (svc : Services W) (config : Config).

(** X1.  An order without a numeric id, without a global id, or without a
    non-empty array of line items is refused with a Validation error before
    anything is called: world and log are as they were. *)
Theorem processOrder_rejects_invalid {L} (order : ShopifyOrder) (s : St L) :
  validShape order = false ->
  exists e,
    processShopifyOrderForBunjang svc config order s = (Thrown e, s)
    /\ errClass e = ValidationError.
Proof.
  unfold validShape, processShopifyOrderForBunjang, truthy_num, truthy_str.
  intros H. exists (plainError ValidationError invalidOrderMessage).
  destruct (order_id order) as [id |]; [| split; reflexivity].
  destruct (admin_graphql_api_id order) as [gid |]; [| split; reflexivity].
  destruct (line_items order) as [[| first rest] |]; try (split; reflexivity).
  destruct (negb (id =? 0)); [| split; reflexivity].
  destruct (nonempty gid); [discriminate | split; reflexivity].
Qed.

Lemma processItem_keeps_orchestrator (base : list Event) gid ident item :
  keeps (sinceAll (orchestratorCall gid) base) (processItem svc config gid ident item).
Proof.
  unfold processItem, submitOrder, checkPointBalance, tagOrder, shopifyUpdateOrder.
  repeat keeps_step; since_all.
Qed.

(** X2.  While it processes an order, the orchestrator calls nothing but the
    product-detail fetch, the order creation, the point balance and the
    order update, and every order update it sends is addressed to the order
    it was given. *)
Theorem processOrder_calls_own_order {L} (order : ShopifyOrder) (s : St L)
    (gid : string) :
  admin_graphql_api_id order = Some gid ->
  forall ev,
    In ev (log (snd (processShopifyOrderForBunjang svc config order s))) ->
    In ev (log s) \/ orchestratorCall gid ev.
Proof.
  intros Hgid. unfold processShopifyOrderForBunjang. rewrite Hgid.
  assert (sinceAll (orchestratorCall gid) (log s) s) as H0 by apply sinceAll_refl.
  destruct (order_id order) as [id |]; [| exact H0].
  destruct (line_items order) as [[| first rest] |]; try exact H0.
  destruct (negb (id =? 0) && nonempty gid); [| exact H0].
  unfold scope, bind, get.
  match goal with |- context [for_of ?xs ?b ?st] =>
    assert (sinceAll (orchestratorCall gid) (log s) (snd (for_of xs b st))) as Hz;
    [ apply (keeps_for_of (sinceAll (orchestratorCall gid) (log s)) xs b);
      [ intros item _; apply processItem_keeps_orchestrator
      | intros ev Hin; left; exact Hin ]
    | destruct (for_of xs b st) as [[[] | e] s1] ]
  end; cbn [fst snd] in *.
  - destruct (bunjangOrderSuccessfullyCreatedOverall (vars s1)); exact Hz.
  - exact Hz.
Qed.

End OrchestratorMore.

Ltac projection_fine :=
  intros;
  unfold fetchedAre, queriesAre, stampsAre, attemptsAre,
    fetched, pageQueries, stamps, attempts in *;
  cbn [log] in *;
  first [ assumption
        | rewrite ?flat_map_app, ?filter_app, ?length_app; simpl;
          rewrite ?app_nil_r, ?Nat.add_0_r; assumption ].

Ltac as_keeps :=
  match goal with |- triple ?P ?m _ => change (keeps P m) end.

Section Triple2.
Context {W : Type}.

Lemma keeps_or {L A} (P Q : @St W L -> Prop) (m : M L A) :
  keeps P m -> keeps Q m -> keeps (fun s => P s \/ Q s) m.
Proof. intros HP HQ s [H | H]; [left; apply HP | right; apply HQ]; exact H. Qed.

End Triple2.

Section ItemsInOrder.
Context {W : Type} (svc : Services W) (config : Config).

Lemma processItem_fetches gid ident item (F : list string) :
  triple (fetchedAre F) (processItem svc config gid ident item)
    (fun _ s => fetchedAre (F ++ linkedPids [item]) s).
Proof.
  unfold processItem, linkedPids. cbn [flat_map].
  destruct (bunjangLinked item) as [pid |].
  - rewrite app_nil_r.
    apply triple_try with (Q := fun _ s => fetchedAre (F ++ [pid]) s).
    + apply triple_bind with (Q := fun _ s => fetchedAre (F ++ [pid]) s).
      * intros s H. unfold perform.
        destruct (getBunjangProductDetails svc pid (world s)) as [r w'].
        unfold fetchedAre, fetched in *. cbn [fst snd log].
        rewrite flat_map_app, H. reflexivity.
      * intros a. as_keeps.
        unfold submitOrder, checkPointBalance, tagOrder, shopifyUpdateOrder.
        repeat keeps_step; projection_fine.
      * intros e s H. exact H.
    + intros e. as_keeps. unfold tagOrder, shopifyUpdateOrder.
      repeat keeps_step; projection_fine.
    + auto.
  - rewrite !app_nil_r. intros s H. exact H.
Qed.

Lemma items_fetched_in_order gid ident (items : list LineItem) :
  forall (s : St OrderVars) (F : list string),
    fetchedAre F s ->
    let r := for_of items (processItem svc config gid ident) s in
    (exists n, fetched (log (snd r)) = (F ++ firstn n (linkedPids items))%list)
    /\ (fst r = Returned tt -> fetched (log (snd r)) = (F ++ linkedPids items)%list).
Proof.
  induction items as [| item items IH]; intros s F HF; cbv zeta.
  - split; [exists 0%nat | intros _]; cbn; rewrite app_nil_r; exact HF.
  - cbn [for_of]. unfold bind.
    pose proof (processItem_fetches gid ident item F s HF) as Hstep.
    assert (linkedPids (item :: items)
            = (linkedPids [item] ++ linkedPids items)%list) as Hcons.
    { unfold linkedPids. cbn [flat_map]. rewrite app_nil_r. reflexivity. }
    rewrite Hcons.
    destruct (processItem svc config gid ident item s) as [[[] | e] s1];
      cbn [fst snd] in *.
    + destruct (IH s1 _ Hstep) as [[n Hn] Hall]. cbv zeta in *. split.
      * exists (List.length (linkedPids [item]) + n)%nat.
        rewrite firstn_app_2, Hn, app_assoc. reflexivity.
      * intros Hret. rewrite (Hall Hret), app_assoc. reflexivity.
    + split; [| discriminate].
      exists (List.length (linkedPids [item]) + 0)%nat.
      rewrite firstn_app_2. cbn [firstn]. rewrite app_nil_r. exact Hstep.
Qed.

Lemma tagOrder_keeps_attempts {L} (n : nat) gid ts :
  keeps (attemptsAre (L := L) n) (tagOrder svc gid ts).
Proof. unfold tagOrder, shopifyUpdateOrder. repeat keeps_step; projection_fine. Qed.

Lemma submitOrder_attempts gid ident pid payload price fee (n : nat) :
  triple (attemptsAre n) (submitOrder svc config gid ident pid payload price fee)
    (fun _ s => attemptsAre (S n) s).
Proof.
  unfold submitOrder.
  apply triple_try with (Q := fun _ s => attemptsAre (S n) s).
  - apply triple_bind with (Q := fun _ s => attemptsAre (S n) s).
    + intros s H. unfold perform.
      destruct (createBunjangOrderV2 svc payload (world s)) as [r w'].
      unfold attemptsAre, attempts in *. cbn [fst snd log].
      rewrite filter_app, length_app, H. cbn. lia.
    + intros a. as_keeps.
      unfold checkPointBalance, tagOrder, shopifyUpdateOrder.
      repeat keeps_step; projection_fine.
    + intros e s H. exact H.
  - intros e. apply tagOrder_keeps_attempts.
  - auto.
Qed.

Lemma processItem_attempts gid ident item (n : nat) :
  triple (attemptsAre n) (processItem svc config gid ident item)
    (fun _ s => (attempts (log s) <= n + List.length (linkedPids [item]))%nat).
Proof.
  unfold processItem, linkedPids. cbn [flat_map].
  destruct (bunjangLinked item) as [pid |].
  2:{ intros s H. cbn. unfold attemptsAre in H. lia. }
  apply triple_conseq with
    (P' := attemptsAre n)
    (Q' := fun _ s => attemptsAre n s \/ attemptsAre (S n) s); auto.
  2:{ intros o s [H | H]; unfold attemptsAre in H; cbn; lia. }
  apply triple_try with (Q := fun _ s => attemptsAre n s \/ attemptsAre (S n) s).
  - apply triple_bind with (Q := fun _ s => attemptsAre n s).
    + as_keeps. repeat keeps_step; projection_fine.
    + intros [details |].
      2:{ apply triple_conseq with (P' := attemptsAre n)
            (Q' := fun _ s => attemptsAre n s); auto.
          apply tagOrder_keeps_attempts. }
      apply triple_bind with (Q := fun _ s => attemptsAre n s).
      * as_keeps. apply keeps_lift.
      * intros [payload |].
        2:{ apply triple_conseq with (P' := attemptsAre n)
              (Q' := fun _ s => attemptsAre n s); auto.
            apply tagOrder_keeps_attempts. }
        cbv zeta. destruct (product (set_deliveryPrice payload 0)) as [pr |].
        -- apply triple_conseq with (P' := attemptsAre n)
             (Q' := fun _ s => attemptsAre (S n) s); auto.
           apply submitOrder_attempts.
        -- intros s H. left. exact H.
      * intros e s H. left. exact H.
    + intros e s H. left. exact H.
  - intros e. apply keeps_or; apply tagOrder_keeps_attempts.
  - auto.
Qed.

Lemma items_attempts gid ident (items : list LineItem) :
  forall (s : St OrderVars),
    (attempts (log (snd (for_of items (processItem svc config gid ident) s)))
     <= attempts (log s) + List.length (linkedPids items))%nat.
Proof.
  induction items as [| item items IH]; intros s.
  - cbn. lia.
  - cbn [for_of]. unfold bind.
    pose proof (processItem_attempts gid ident item (attempts (log s)) s eq_refl)
      as Hstep.
    assert (List.length (linkedPids (item :: items))
            = (List.length (linkedPids [item]) + List.length (linkedPids items))%nat)
      as Hcons.
    { unfold linkedPids. cbn [flat_map]. rewrite app_nil_r, length_app. reflexivity. }
    destruct (processItem svc config gid ident item s) as [[[] | e] s1];
      cbn [fst snd] in *.
    + specialize (IH s1). lia.
    + lia.
Qed.

(** X3.  The line items of an order are taken in order: the product ids
    whose details are fetched during a call are an initial part of the ids
    of the linked line items, all of them when the call returns, each once,
    and no unlinked item is fetched.  The call requests at most one order
    creation per linked line item. *)
Theorem processOrder_items_in_order {L} (order : ShopifyOrder) (s : St L) :
  let items := match line_items order with Some l => l | None => [] end in
  let run := processShopifyOrderForBunjang svc config order s in
  (exists n,
      fetched (log (snd run)) = (fetched (log s) ++ firstn n (linkedPids items))%list)
  /\ (returned (fst run) = true ->
      fetched (log (snd run)) = (fetched (log s) ++ linkedPids items)%list)
  /\ (attempts (log (snd run))
      <= attempts (log s) + List.length (linkedPids items))%nat.
Proof.
  cbv zeta. unfold processShopifyOrderForBunjang.
  set (items := match line_items order with Some l => l | None => [] end).
  assert (forall e : Error,
             (exists n, fetched (log (snd (Thrown (A := OrderResult) e, s)))
                        = (fetched (log s) ++ firstn n (linkedPids items))%list)
             /\ (returned (fst (Thrown (A := OrderResult) e, s)) = true ->
                 fetched (log (snd (Thrown (A := OrderResult) e, s)))
                 = (fetched (log s) ++ linkedPids items)%list)
             /\ (attempts (log (snd (Thrown (A := OrderResult) e, s)))
                 <= attempts (log s) + List.length (linkedPids items))%nat)
    as Hrefused.
  { intros e. cbn [fst snd]. split; [| split].
    - exists 0%nat. cbn. rewrite app_nil_r. reflexivity.
    - discriminate.
    - lia. }
  subst items.
  destruct (order_id order) as [id |]; [| apply Hrefused].
  destruct (admin_graphql_api_id order) as [gid |]; [| apply Hrefused].
  destruct (line_items order) as [[| first rest] |]; try apply Hrefused.
  destruct (negb (id =? 0) && nonempty gid); [| apply Hrefused].
  clear Hrefused. unfold scope, bind, get.
  set (ident := (orderIdentifierPrefix config ++ string_of_Z id)%string).
  set (s0 := mkSt (world s) (log s) orderVars0).
  destruct (items_fetched_in_order gid ident (first :: rest) s0 (fetched (log s))
              eq_refl) as [Hpre Hall].
  pose proof (items_attempts gid ident (first :: rest) s0) as Hatt.
  cbv zeta in *.
  destruct (for_of (first :: rest) (processItem svc config gid ident) s0)
    as [[[] | e] s1]; cbn [fst snd log s0] in *.
  - destruct (bunjangOrderSuccessfullyCreatedOverall (vars s1)); cbn [fst snd log];
      (split; [exact Hpre | split; [intros _; apply Hall; reflexivity | exact Hatt]]).
  - split; [exact Hpre | split; [discriminate | exact Hatt]].
Qed.

End ItemsInOrder.

Section TagsAndBalance.
Context {W : Type} (svc : Services W) (config : Config).

(** X4.  Whatever error the order-creation call throws, the failure tag has
    the form PID-<pid>-<suffix> with a non-empty suffix: one of the seven
    the code names, or the platform's own error code as it came.  The suffix
    is CreateFail when the error carries no error code. *)
Theorem errorTag_shape (pid : string) (apiError : Error) :
  exists suffix,
    errorTagOf pid apiError = ("PID-" ++ pid ++ "-" ++ suffix)%string
    /\ suffix <> EmptyString
    /\ (In suffix namedSuffixes \/ domainCode apiError = Some suffix)
    /\ (truthy_str (domainCode apiError) = false -> suffix = "CreateFail").
Proof.
  unfold errorTagOf, truthy_str, namedSuffixes, oneOf.
  destruct (domainCode apiError) as [errorCode |].
  2:{ exists "CreateFail". split; [reflexivity |]. split; [discriminate |].
      split; [left; left; reflexivity |]. reflexivity. }
  destruct (nonempty errorCode) eqn:Ene; cbn [negb].
  2:{ exists "CreateFail". split; [reflexivity |]. split; [discriminate |].
      split; [left; left; reflexivity |]. reflexivity. }
  cbn [existsb].
  repeat match goal with
         | |- context [String.eqb errorCode ?c] =>
           let E := fresh "E" in destruct (String.eqb errorCode c) eqn:E; cbn [orb]
         end;
    try (eexists; split; [reflexivity |];
         split; [discriminate |];
         split; [left; cbn; tauto |];
         intros H; discriminate H).
  exists errorCode.
  split; [reflexivity |].
  split; [intros ->; discriminate Ene |].
  split; [right; reflexivity |].
  intros H; discriminate H.
Qed.

Lemma statusUpdate_extends {L} (base : list Event) (order : BunjangOrder) :
  keeps (extends (L := L) base) (updateShopifyOrderFromBunjangStatus svc order).
Proof.
  unfold updateShopifyOrderFromBunjangStatus, handleStatus,
    updateShopifyFulfillmentStatus, tagOrder, shopifyUpdateOrder.
  repeat keeps_step; intros;
    first [ assumption
          | apply extends_event; assumption
          | apply extends_same_log; assumption ].
Qed.

Lemma processItem_created_log gid ident item pid details payload pr id
    (st : St OrderVars) w1 w2 :
  bunjangLinked item = Some pid ->
  getBunjangProductDetails svc pid (world st) = (Returned (Some details), w1) ->
  mapShopifyItemToBunjangOrderPayload svc item pid details = Returned (Some payload) ->
  product payload = Some pr ->
  createBunjangOrderV2 svc (set_deliveryPrice payload 0) w1
    = (Returned (Some {| resp_id := Some id |}), w2) ->
  id <> 0 ->
  exists rest,
    log (snd (processItem svc config gid ident item st))
    = (log st ++ [ EvGetProductDetails pid;
                   EvCreateOrder (set_deliveryPrice payload 0)
                     (Returned (Some {| resp_id := Some id |}));
                   EvUpdateOrder (successUpdate gid ident pid id (pp_price pr)
                                    (or_zero (shippingFee details))) ] ++ rest)%list.
Proof.
  intros Hlinked Hfetch Hmap Hprod Hcreate Hnz.
  set (s3 := mkSt w2 (log st ++ [ EvGetProductDetails pid;
                                  EvCreateOrder (set_deliveryPrice payload 0)
                                    (Returned (Some {| resp_id := Some id |})) ])
               (recordCreated (string_of_Z id) (vars st))).
  set (u := successUpdate gid ident pid id (pp_price pr) (or_zero (shippingFee details))).
  set (after := bind (L := OrderVars) (shopifyUpdateOrder svc u)
                  (fun _ => checkPointBalance svc config gid)).
  set (h1 := fun apiError : Error =>
               tagOrder (L := OrderVars) svc gid
                 [(ident ++ "_Error")%string; errorTagOf pid apiError]).
  set (h2 := fun error : Error =>
               tagOrder (L := OrderVars) svc gid
                 [(ident ++ "_Error")%string; ("PID-" ++ pid ++ "-Exception")%string]).
  assert (processItem svc config gid ident item st
          = try_catch (try_catch after h1) h2 s3) as Hrun.
  { unfold processItem. rewrite Hlinked.
    unfold try_catch at 1. unfold bind at 1. unfold perform at 1. rewrite Hfetch.
    unfold bind at 1. unfold lift. rewrite Hmap. cbv zeta.
    cbn [product set_deliveryPrice]. rewrite Hprod.
    unfold submitOrder. unfold try_catch at 1. unfold bind at 1.
    unfold perform at 1. cbn [world log vars]. rewrite Hcreate.
    apply Z.eqb_neq in Hnz. rewrite Hnz. cbn [negb].
    unfold bind at 1. cbn [modify world log vars].
    rewrite <- app_assoc. reflexivity. }
  rewrite Hrun. clear Hrun.
  (* after its first call, every path only adds to the log *)
  assert (extends (log s3 ++ [EvUpdateOrder u])
            (snd (try_catch (try_catch after h1) h2 s3))) as [rest Hrest].
  { unfold try_catch at 1. unfold try_catch at 1. unfold after at 1.
    unfold bind at 1. unfold shopifyUpdateOrder at 1. unfold perform at 1.
    destruct (updateOrder svc u (world s3)) as [[[] | e3] w3].
    - match goal with |- context [checkPointBalance svc config gid ?s4] =>
        pose proof (checkPointBalance_extends svc config (log s4) gid s4
                      (ex_intro _ [] (eq_sym (app_nil_r _)))) as H4;
        destruct (checkPointBalance svc config gid s4) as [[[] | e4] s5]
      end; cbn [fst snd log] in *; [exact H4 |].
      pose proof (tagOrder_extends svc (log s3 ++ [EvUpdateOrder u]) gid
                    [(ident ++ "_Error")%string; errorTagOf pid e4] s5 H4) as H5.
      unfold h1. destruct (tagOrder svc gid _ s5) as [[[] | e5] s6];
        cbn [fst snd] in *; [exact H5 |].
      apply (tagOrder_extends svc (log s3 ++ [EvUpdateOrder u]) gid _ s6 H5).
    - match goal with |- context [h1 e3 ?s4] =>
        pose proof (tagOrder_extends svc (log s4) gid
                      [(ident ++ "_Error")%string; errorTagOf pid e3] s4
                      (ex_intro _ [] (eq_sym (app_nil_r _)))) as H4;
        unfold h1; destruct (tagOrder svc gid _ s4) as [[[] | e4] s5]
      end; cbn [fst snd log] in *; [exact H4 |].
      apply (tagOrder_extends svc (log s3 ++ [EvUpdateOrder u]) gid _ s5 H4). }
  exists rest. rewrite Hrest. subst s3. cbn [log].
  rewrite <- !app_assoc. reflexivity.
Qed.

(** X5.  The tag written on the order when a marketplace order is created is
    the key the status poller later searches by: after a creation that
    returned id [id], the next call writes the tags BunjangOrderPlaced, the
    order identifier and BunjangOrderID-<id>, and the status update of the
    marketplace order [id] begins by searching tag:"BunjangOrderID-<id>". *)
Theorem created_tag_is_search_key {L} gid ident item pid details payload pr id
    (st : St OrderVars) w1 w2 (items : list OrderItem) (st' : St L) :
  bunjangLinked item = Some pid ->
  getBunjangProductDetails svc pid (world st) = (Returned (Some details), w1) ->
  mapShopifyItemToBunjangOrderPayload svc item pid details = Returned (Some payload) ->
  product payload = Some pr ->
  createBunjangOrderV2 svc (set_deliveryPrice payload 0) w1
    = (Returned (Some {| resp_id := Some id |}), w2) ->
  id <> 0 ->
  exists tag u rest rest',
    tag = ("BunjangOrderID-" ++ string_of_Z id)%string
    /\ log (snd (processItem svc config gid ident item st))
    = (log st ++ [ EvGetProductDetails pid;
                   EvCreateOrder (set_deliveryPrice payload 0)
                     (Returned (Some {| resp_id := Some id |}));
                   EvUpdateOrder u ] ++ rest)%list
    /\ ou_id u = gid
    /\ tags u = Some ["BunjangOrderPlaced"; ident; tag]
    /\ log (snd (updateShopifyOrderFromBunjangStatus svc
                   {| bo_id := id; orderItems := items |} st'))
       = (log st' ++ [EvFindOrderByTag (searchByTag tag)] ++ rest')%list.
Proof.
  intros Hlinked Hfetch Hmap Hprod Hcreate Hnz.
  destruct (processItem_created_log gid ident item pid details payload pr id st w1 w2
              Hlinked Hfetch Hmap Hprod Hcreate Hnz) as [rest Hlog].
  exists ("BunjangOrderID-" ++ string_of_Z id)%string,
    (successUpdate gid ident pid id (pp_price pr) (or_zero (shippingFee details))),
    rest.
  assert (extends (log st' ++ [EvFindOrderByTag
                                 (searchByTag ("BunjangOrderID-" ++ string_of_Z id))])
            (snd (updateShopifyOrderFromBunjangStatus svc
                    {| bo_id := id; orderItems := items |} st'))) as [rest' Hrest'].
  { unfold updateShopifyOrderFromBunjangStatus. cbn [bo_id orderItems].
    unfold bind at 1. unfold perform at 1.
    destruct (findOrderByBunjangId svc _ (world st')) as [[response | e] w'];
      [| exists []; cbn [snd log]; rewrite app_nil_r; reflexivity].
    match goal with |- extends ?base (snd (?k ?s1)) =>
      assert (keeps (extends base) k) as Hk
    end.
    { repeat keeps_step; unfold handleStatus, updateShopifyFulfillmentStatus,
        tagOrder, shopifyUpdateOrder; repeat keeps_step; intros;
        first [ assumption
              | apply extends_event; assumption
              | apply extends_same_log; assumption ]. }
    apply Hk. exists []. cbn [log]. rewrite app_nil_r. reflexivity. }
  exists rest'. split; [reflexivity |]. split; [exact Hlog |].
  split; [reflexivity |].
  split; [reflexivity |]. rewrite Hrest', <- app_assoc. reflexivity.
Qed.

(** X6.  The balance check after a created order never fails the line item:
    it returns whether the balance call or the tag write throws.  It writes
    a tag, LowPointBalance-<balance>, exactly when a balance was returned
    and is below the threshold, which is the configured value when one is
    configured and is not 0, and 1,000,000 otherwise. *)
Theorem balance_check_outcomes {L} (gid : string) (s : St L)
    (reply : Outcome (option PointBalance)) (w1 : W) :
  getBunjangPointBalance svc (world s) = (reply, w1) ->
  let s1 := mkSt w1 (log s ++ [EvGetPointBalance]) (vars s) in
  let run := checkPointBalance svc config gid s in
  fst run = Returned tt
  /\ match reply with
     | Returned (Some pb) =>
       if balance pb <? LOW_BALANCE_THRESHOLD config then
         log (snd run)
         = (log s1 ++ [EvUpdateOrder
                         {| ou_id := gid;
                            tags := Some [("LowPointBalance-"
                                           ++ string_of_Z (balance pb))%string];
                            metafields := None |}])%list
       else run = (Returned tt, s1)
     | _ => run = (Returned tt, s1)
     end
  /\ LOW_BALANCE_THRESHOLD config <> 0
  /\ (truthy_num (lowBalanceThreshold config) = false ->
      LOW_BALANCE_THRESHOLD config = 1000000)
  /\ (forall t, lowBalanceThreshold config = Some t -> t <> 0 ->
      LOW_BALANCE_THRESHOLD config = t).
Proof.
  intros Hbal s1 run. subst s1 run. split; [| split; [| split; [| split]]].
  - unfold checkPointBalance. apply try_swallow_returns. reflexivity.
  - unfold checkPointBalance, try_catch, bind, perform. rewrite Hbal.
    destruct reply as [[pb |] | e]; try reflexivity.
    destruct (balance pb <? LOW_BALANCE_THRESHOLD config); [| reflexivity].
    unfold tagOrder, shopifyUpdateOrder, perform. cbn [world log vars].
    destruct (updateOrder svc _ w1) as [[[] | e] w2]; reflexivity.
  - unfold LOW_BALANCE_THRESHOLD.
    destruct (lowBalanceThreshold config) as [t |]; [| discriminate].
    destruct (t =? 0) eqn:E; [discriminate | apply Z.eqb_neq; exact E].
  - unfold LOW_BALANCE_THRESHOLD, truthy_num.
    destruct (lowBalanceThreshold config) as [t |]; [| reflexivity].
    destruct (t =? 0); [reflexivity | discriminate].
  - intros t Ht Hnz. unfold LOW_BALANCE_THRESHOLD. rewrite Ht.
    apply Z.eqb_neq in Hnz. rewrite Hnz. reflexivity.
Qed.

End TagsAndBalance.


(** * Further properties of the webhook routes *)

Section WebhookMore.
Context {J : Type} (node : Platform J) (config : Config).

(** X7.  A request is passed on to its handler exactly when the signature
    header is non-empty, the raw body is present, the secret is configured,
    the two signatures are equal, and the body either is already parsed, in
    which case it is passed on as it is, or parses.  A request that fails
    only the last condition is answered 400, and no other request is.  The
    topic and shop-domain headers play no part in the verdict. *)
Theorem verifyWebhook_accepts_iff (req : Request J) :
  let verified :=
    truthy_str (hmacHeader req) = true
    /\ rawBody_missing (rawBody req) = false
    /\ truthy_str (webhookSecret config) = true
    /\ providedSignature node req = computedSignature node config req in
  let parses (parsed : option J) :=
    match reqBody req with
    | Some (BodyParsed j) => parsed = Some j
    | _ => exists raw, rawBody req = Some raw
                       /\ jsonParse node (bufferToUtf8 node (rawBodyBuffer node raw))
                          = parsed
    end in
  (forall parsed,
      verifyWebhook node config req = Next parsed <-> verified /\ parses (Some parsed))
  /\ (forall r,
      verifyWebhook node config req = Respond r ->
      (status r = 400 <-> verified /\ parses None)
      /\ (status r = 400 \/ status r = 401 \/ status r = 500))
  /\ (forall topic shopDomain,
      verifyWebhook node config (withHeaders req topic shopDomain)
      = verifyWebhook node config req).
Proof.
  cbv zeta. split; [| split]; [| | reflexivity].
  - intros parsed.
    destruct (truthy_str (hmacHeader req)) eqn:Hh.
    2:{ destruct (verifyWebhook_missing node config req (or_introl Hh)) as [r [E _]].
        rewrite E. split; [discriminate | intros [[H _] _]; discriminate H]. }
    destruct (rawBody_missing (rawBody req)) eqn:Hr.
    1:{ destruct (verifyWebhook_missing node config req (or_intror Hr)) as [r [E _]].
        rewrite E. split; [discriminate | intros [(_ & H & _) _]; discriminate H]. }
    rewrite verifyWebhook_present by assumption.
    destruct (truthy_str (webhookSecret config)); cbn [negb].
    2:{ split; [discriminate | intros [(_ & _ & H & _) _]; discriminate H]. }
    destruct (Nat.eqb _ _) eqn:El; cbn [negb orb].
    2:{ split; [discriminate |]. intros [(_ & _ & _ & H) _].
        rewrite H, Nat.eqb_refl in El. discriminate El. }
    destruct (bytes_eqb _ _) eqn:Eb; cbn [negb].
    2:{ split; [discriminate |]. intros [(_ & _ & _ & H) _].
        apply bytes_eqb_eq in H. rewrite H in Eb. discriminate Eb. }
    apply bytes_eqb_eq in Eb.
    destruct (rawBody req) as [raw |]; [| discriminate Hr].
    destruct (reqBody req) as [[str | buf | j] |];
      try (destruct (jsonParse node _) as [j' |] eqn:Ep;
           [ split;
             [ intros H; injection H as <-;
               repeat split; auto; exists raw; split; [reflexivity | exact Ep]
             | intros [_ [raw' [Hraw Hp]]]; injection Hraw as <-;
               rewrite Ep in Hp; injection Hp as <-; reflexivity ]
           | split;
             [ intros H; discriminate H
             | intros [_ [raw' [Hraw Hp]]]; injection Hraw as <-;
               rewrite Ep in Hp; discriminate Hp ] ]).
    split.
    + intros H. injection H as <-. repeat split; auto.
    + intros [_ H]. injection H as <-. reflexivity.
  - intros r.
    destruct (truthy_str (hmacHeader req)) eqn:Hh.
    2:{ destruct (verifyWebhook_missing node config req (or_introl Hh))
          as [r' [E [H401 _]]].
        rewrite E. intros H. injection H as <-. rewrite H401. split.
        - split; [discriminate | intros [[H _] _]; discriminate H].
        - right; left; reflexivity. }
    destruct (rawBody_missing (rawBody req)) eqn:Hr.
    1:{ destruct (verifyWebhook_missing node config req (or_intror Hr))
          as [r' [E [H401 _]]].
        rewrite E. intros H. injection H as <-. rewrite H401. split.
        - split; [discriminate | intros [(_ & H & _) _]; discriminate H].
        - right; left; reflexivity. }
    rewrite verifyWebhook_present by assumption.
    destruct (truthy_str (webhookSecret config)); cbn [negb].
    2:{ intros H. injection H as <-. cbn [status]. split.
        - split; [discriminate | intros [(_ & _ & H & _) _]; discriminate H].
        - right; right; reflexivity. }
    destruct (Nat.eqb _ _) eqn:El; cbn [negb orb].
    2:{ intros H. injection H as <-. cbn [status]. split.
        - split; [discriminate |]. intros [(_ & _ & _ & H) _].
          rewrite H, Nat.eqb_refl in El. discriminate El.
        - right; left; reflexivity. }
    destruct (bytes_eqb _ _) eqn:Eb; cbn [negb].
    2:{ intros H. injection H as <-. cbn [status]. split.
        - split; [discriminate |]. intros [(_ & _ & _ & H) _].
          apply bytes_eqb_eq in H. rewrite H in Eb. discriminate Eb.
        - right; left; reflexivity. }
    apply bytes_eqb_eq in Eb.
    destruct (rawBody req) as [raw |]; [| discriminate Hr].
    destruct (reqBody req) as [[str | buf | j] |]; try discriminate;
      (destruct (jsonParse node _) as [j' |] eqn:Ep; [discriminate |];
       intros H; injection H as <-; cbn [status]; split;
       [ split; [intros _ | reflexivity];
         repeat split; auto; exists raw; split; [reflexivity | exact Ep]
       | left; reflexivity ]).
Qed.

End WebhookMore.

Section HandlersMore.
Context {W : Type} (svc : Services W) (config : Config).

Lemma syncOne_keeps_nonNegative {L} (base : list Event) pid (q : Z) :
  0 <= q ->
  keeps (sinceAll (L := L) nonNegativePush base)
    (syncBunjangInventoryToShopify svc config pid q).
Proof.
  intros Hq. unfold syncBunjangInventoryToShopify. repeat keeps_step; since_all.
Qed.

Lemma checkAndSync_keeps_nonNegative {L} (base : list Event) pid :
  (forall p w d w',
      getBunjangProductDetails svc p w = (Returned (Some d), w') ->
      0 <= or_zero (pd_quantity d)) ->
  keeps (sinceAll (L := L) nonNegativePush base)
    (checkAndSyncBunjangInventory svc config pid).
Proof.
  intros Hnn. unfold checkAndSyncBunjangInventory.
  apply keeps_try; [| intros e; apply keeps_throw].
  intros s Hs. unfold bind at 1. unfold perform at 1.
  destruct (getBunjangProductDetails svc pid (world s)) as [[[d |] | e] w'] eqn:E;
    cbn [fst snd];
    try (apply sinceAll_event; [exact Hs | exact I]).
  apply Hnn in E.
  match goal with |- context [bind ?m ?f ?st] =>
    assert (keeps (sinceAll nonNegativePush base) (bind m f)) as Hk
  end.
  { apply keeps_bind; [| intros _; apply keeps_ret].
    apply syncOne_keeps_nonNegative. exact E. }
  apply Hk. apply sinceAll_event; [exact Hs | exact I].
Qed.

(** X8.  When Platform B never reports a negative quantity, the handler of
    an order-creation event never pushes a negative quantity to Platform A,
    whatever the quantities ordered and whatever fails on the way. *)
Theorem ordersCreate_pushes_non_negative {L} (order : ShopifyOrder) (s : St L) :
  (forall p w d w',
      getBunjangProductDetails svc p w = (Returned (Some d), w') ->
      0 <= or_zero (pd_quantity d)) ->
  forall itemId loc q,
    In (EvUpdateInventoryLevel itemId loc q)
       (log (snd (ordersCreate svc config order s))) ->
    In (EvUpdateInventoryLevel itemId loc q) (log s) \/ 0 <= q.
Proof.
  intros Hnn itemId loc q Hin.
  assert (keeps (sinceAll (L := L) nonNegativePush (log s))
            (ordersCreate svc config order)) as Hk.
  { unfold ordersCreate.
    apply keeps_try; [| intros e; apply keeps_ret].
    apply keeps_bind; [| intros _; apply keeps_ret].
    apply keeps_for_of. intros lineItem _.
    apply keeps_try; [| intros e; apply keeps_ret].
    apply keeps_bind; [apply keeps_perform; intros; since_all |].
    intros sp. destruct (linked sp) as [pid |]; [| apply keeps_ret].
    apply keeps_bind; [apply checkAndSync_keeps_nonNegative; exact Hnn |].
    intros currentStock. destruct (0 <=? currentStock); [| apply keeps_ret].
    cbv zeta. apply keeps_bind; [| intros _; apply keeps_ret].
    apply syncOne_keeps_nonNegative. lia. }
  destruct (Hk s (sinceAll_refl _ s) _ Hin) as [H | H]; [left; exact H | right; exact H].
Qed.

(** A loop whose every step returns and logs one call logs one call per
    element, in order. *)
Lemma for_of_lookups {L} (body : LineItem -> @M W L unit) :
  (forall x s sp w',
      dbFindOneByProductId svc (product_id x) (world s) = (Returned sp, w') ->
      linked sp = None ->
      body x s = (Returned tt, mkSt w' (log s ++ [lookupOf x]) (vars s))) ->
  forall items s,
    unlinkedAlong svc items (world s) ->
    fst (for_of items body s) = Returned tt
    /\ log (snd (for_of items body s)) = (log s ++ map lookupOf items)%list.
Proof.
  intros Hbody. induction items as [| x items IH]; intros s Hun.
  - cbn. rewrite app_nil_r. split; reflexivity.
  - cbn [for_of map]. unfold bind.
    destruct Hun as (sp & w' & Hfind & Hnone & Hrest).
    rewrite (Hbody x s sp w' Hfind Hnone).
    match goal with |- context [for_of items body ?st] =>
      destruct (IH st Hrest) as [H1 H2]
    end.
    split; [exact H1 |]. rewrite H2. cbn [log]. rewrite <- app_assoc. reflexivity.
Qed.

(** X9.  The webhook handlers touch inventory only for linked products: when
    the lookups for the line items of an order find no ProductLink with a
    Platform B id, whatever the store holds for other products, the
    order-creation handler and the cancellation handler each make one lookup
    per line item, in order, and no other call.  An order update that is not
    a cancellation makes no call at all, whatever is linked. *)
Theorem handlers_leave_unlinked_items {L} (order : ShopifyOrder) (s : St L) :
  let items := match line_items order with Some l => l | None => [] end in
  (unlinkedAlong svc items (world s) ->
   log (snd (ordersCreate svc config order s)) = (log s ++ map lookupOf items)%list
   /\ (truthy_str (cancelled_at order) = true ->
       log (snd (ordersUpdated svc config order s))
       = (log s ++ map lookupOf items)%list))
  /\ (truthy_str (cancelled_at order) = false ->
      ordersUpdated svc config order s
      = (Returned {| status := 200; body := JsonStatus "success" |}, s)).
Proof.
  intros items. split; [intros Hun; split |].
  - unfold ordersCreate. fold items.
    match goal with |- context [for_of items ?b] =>
      destruct (for_of_lookups b) with (items := items) (s := s) as [Hret Hlog]
    end.
    { intros x s0 sp w' E Hl. unfold try_catch, bind, perform, lookupOf.
      rewrite E, Hl. reflexivity. }
    { exact Hun. }
    unfold try_catch at 1. unfold bind at 1.
    match goal with |- context [for_of items ?b s] =>
      destruct (for_of items b s) as [[[] | e] s1]
    end; cbn [fst snd] in *; [exact Hlog | discriminate].
  - intros Hc. unfold ordersUpdated. rewrite Hc. fold items.
    match goal with |- context [for_of items ?b] =>
      destruct (for_of_lookups b) with (items := items) (s := s) as [Hret Hlog]
    end.
    { intros x s0 sp w' E Hl. unfold try_catch, bind, perform, lookupOf.
      rewrite E, Hl. reflexivity. }
    { exact Hun. }
    unfold try_catch at 1. unfold bind at 1.
    match goal with |- context [for_of items ?b s] =>
      destruct (for_of items b s) as [[[] | e] s1]
    end; cbn [fst snd] in *; [exact Hlog | discriminate].
  - intros Hc. unfold ordersUpdated. rewrite Hc. reflexivity.
Qed.

End HandlersMore.


(** * Further properties of the status poller *)

Section PollerMore.
Context {W : Type} (svc : Services W) (config : Config).

Lemma pagesFrom_S (startMs endMs page : Z) (k : nat) :
  pagesFrom startMs endMs page (S k)
  = pageQuery startMs endMs page :: pagesFrom startMs endMs (page + 1) k.
Proof.
  unfold pagesFrom. cbn [seq map]. rewrite Z.add_0_r. f_equal.
  rewrite <- seq_shift, map_map. apply map_ext. intros i.
  f_equal. lia.
Qed.

Lemma syncOneOrder_keeps_queries (qs : list OrdersQuery) (order : BunjangOrder) :
  keeps (queriesAre qs) (syncOneOrder svc order).
Proof.
  unfold syncOneOrder, updateShopifyOrderFromBunjangStatus, handleStatus,
    updateShopifyFulfillmentStatus, tagOrder, shopifyUpdateOrder.
  repeat keeps_step; projection_fine.
Qed.

Lemma pagesLoop_queries (turns : nat) (startMs endMs : Z) :
  forall page s o s',
    pagesLoop svc turns startMs endMs page s = Some (o, s') ->
    exists k,
      (1 <= k <= turns)%nat
      /\ pageQueries (log s')
         = (pageQueries (log s) ++ pagesFrom startMs endMs page k)%list.
Proof.
  induction turns as [| turns IH]; intros page s o s' Hrun; [discriminate |].
  cbn [pagesLoop] in Hrun. fold (pageQuery startMs endMs page) in Hrun.
  unfold perform in Hrun.
  assert (forall (r : option Error) (w : W),
             pageQueries (log (mkSt (L := StatusVars) w
                                 (log s ++ [EvGetOrders (pageQuery startMs endMs page) r])
                                 (vars s)))
             = (pageQueries (log s) ++ pagesFrom startMs endMs page 1)%list) as Hone.
  { intros r w. cbn [log]. unfold pageQueries. rewrite flat_map_app.
    rewrite pagesFrom_S. reflexivity. }
  destruct (getBunjangOrders svc (pageQuery startMs endMs page) (world s))
    as [[reply | e] w1]; cbn [failureOf] in *.
  2:{ injection Hrun as <- <-. exists 1%nat. split; [lia | apply Hone]. }
  destruct reply as [ordersResponse |].
  2:{ injection Hrun as <- <-. exists 1%nat. split; [lia | apply Hone]. }
  destruct (data ordersResponse) as [orders |].
  2:{ injection Hrun as <- <-. exists 1%nat. split; [lia | apply Hone]. }
  match type of Hrun with context [for_of orders _ ?s1] =>
    pose proof (keeps_for_of (queriesAre (pageQueries (log s1))) orders
                  (syncOneOrder svc)
                  (fun order _ => syncOneOrder_keeps_queries _ order) s1 eq_refl) as Hq;
    rewrite (Hone None w1) in Hq;
    destruct (for_of orders (syncOneOrder svc) s1) as [[[] | e] s2]
  end; cbn [fst snd] in *.
  2:{ injection Hrun as <- <-. exists 1%nat. split; [lia | exact Hq]. }
  unfold queriesAre in Hq.
  destruct (page <? totalPages ordersResponse - 1).
  - apply IH in Hrun. destruct Hrun as (k & Hk & Hlog).
    exists (S k). split; [lia |].
    rewrite Hlog, Hq, !pagesFrom_S.
    change (pagesFrom startMs endMs (page + 1) 0) with (@nil OrdersQuery).
    rewrite <- app_assoc. reflexivity.
  - injection Hrun as <- <-. exists 1%nat. split; [lia | exact Hq].
Qed.

(** X10.  A run of the status poller asks for pages 0, 1, 2, ... in order,
    with no gap and none twice, each with the window it was given and a
    page size of 100, and for at least one page.  An invalid date is
    refused with a RangeError before any call. *)
Theorem syncStatuses_pages_in_order {L} (turns : nat) (startMs endMs : Z) (s : St L) :
  endMs - startMs <= fifteenDays ->
  (forall o s',
      syncBunjangOrderStatuses svc turns (Some startMs) (Some endMs) s = Some (o, s') ->
      exists k,
        (1 <= k <= turns)%nat
        /\ pageQueries (log s')
           = (pageQueries (log s) ++ pagesFrom startMs endMs 0 k)%list)
  /\ (forall startDate endDate,
      startDate = None \/ endDate = None ->
      exists e,
        syncBunjangOrderStatuses svc turns startDate endDate s = Some (Thrown e, s)
        /\ errClass e = RangeError).
Proof.
  intros Hrange. split.
  - intros o s' Hrun.
    rewrite (syncStatuses_accepted svc turns startMs endMs s Hrange) in Hrun.
    destruct (pagesLoop svc turns startMs endMs 0 _) as [[o1 s1] |] eqn:E;
      [| discriminate].
    apply pagesLoop_queries in E. destruct E as (k & Hk & Hlog). cbn [log] in Hlog.
    exists k. split; [exact Hk |].
    destruct o1 as [[] | e]; injection Hrun as <- <-; exact Hlog.
  - intros startDate endDate Hbad. unfold syncBunjangOrderStatuses.
    destruct Hbad as [-> | ->]; [| destruct startDate];
      eexists; split; reflexivity.
Qed.

(** X11.  A marketplace order for which the search finds no Platform A order
    is skipped without any write, and is counted as synced, not as an
    error. *)
Theorem unmatched_order_counts_as_synced (order : BunjangOrder) (s : St StatusVars)
    (response : FindOrderResponse) (w1 : W) :
  findOrderByBunjangId svc
    (searchByTag ("BunjangOrderID-" ++ string_of_Z (bo_id order))) (world s)
    = (Returned response, w1) ->
  edges response = None \/ edges response = Some [] ->
  syncOneOrder svc order s
  = (Returned tt,
     mkSt w1
       (log s ++ [EvFindOrderByTag
                    (searchByTag ("BunjangOrderID-" ++ string_of_Z (bo_id order)))])
       (incr_syncedCount (vars s))).
Proof.
  intros Hfind Hnone.
  unfold syncOneOrder, updateShopifyOrderFromBunjangStatus, try_catch, bind, perform.
  unfold searchByTag in Hfind. cbv zeta.
  match goal with |- context [findOrderByBunjangId svc ?q (world s)] =>
    change q with ("tag:" ++ dquote
                   ++ ("BunjangOrderID-" ++ string_of_Z (bo_id order)) ++ dquote)%string
  end.
  rewrite Hfind. destruct Hnone as [-> | ->]; reflexivity.
Qed.

Lemma addsOnly_refl {L} (ok : Event -> Prop) (s : @St W L) : addsOnly ok (log s) s.
Proof. exists []. split; [rewrite app_nil_r; reflexivity | intros ev []]. Qed.

Lemma addsOnly_event {L} (ok : Event -> Prop) (base : list Event) (s : @St W L)
    (ev : Event) (w : W) (v : L) :
  addsOnly ok base s -> ok ev -> addsOnly ok base (mkSt w (log s ++ [ev]) v).
Proof.
  intros (rest & Hlog & Hall) Hev. exists (rest ++ [ev])%list. cbn [log]. split.
  - rewrite Hlog, <- app_assoc. reflexivity.
  - intros e Hin. apply in_app_or in Hin.
    destruct Hin as [Hin | [<- | []]]; [apply Hall; exact Hin | exact Hev].
Qed.

Lemma addsOnly_same_log {L} (ok : Event -> Prop) (base : list Event) (s : @St W L)
    (w : W) (v : L) :
  addsOnly ok base s -> addsOnly ok base (mkSt w (log s) v).
Proof. intros H. exact H. Qed.

Lemma handleStatus_keeps_stamps {L} (sts : list string) gid id orderItem :
  keeps (stampsAre (L := L) sts) (handleStatus svc gid id orderItem).
Proof.
  unfold handleStatus, updateShopifyFulfillmentStatus, tagOrder, shopifyUpdateOrder.
  repeat keeps_step; projection_fine.
Qed.

Lemma stamps_in_order {L} gid id (items : list OrderItem) :
  forall (s : St L) (sts : list string),
    stampsAre sts s ->
    let body := fun orderItem =>
      bind (handleStatus svc gid id orderItem)
        (fun _ =>
           bind (clock (nowISO svc))
             (fun now =>
                shopifyUpdateOrder svc
                  {| ou_id := gid; tags := None;
                     metafields :=
                       Some [ mf "last_status_sync" now "date_time";
                              mf "last_bunjang_status" (oi_status orderItem)
                                 "single_line_text_field" ] |})) in
    fst (for_of items body s) = Returned tt ->
    stampsAre (sts ++ map oi_status items) (snd (for_of items body s)).
Proof.
  induction items as [| item items IH]; intros s sts Hs body Hret.
  - cbn. rewrite app_nil_r. exact Hs.
  - cbn [for_of map] in *. unfold bind at 1 in Hret. unfold bind at 1.
    assert (returned (fst (body item s)) = true ->
            stampsAre (sts ++ [oi_status item]) (snd (body item s))) as Hstep.
    { unfold body, bind, clock, shopifyUpdateOrder, perform.
      pose proof (handleStatus_keeps_stamps sts gid id item s Hs) as H1.
      destruct (handleStatus svc gid id item s) as [[[] | e] s1];
        cbn [fst snd] in *; [| discriminate].
      destruct (nowISO svc (world s1)) as [now w']. cbn [world log vars].
      destruct (updateOrder svc _ w') as [r w'']. cbn [fst snd]. intros _.
      unfold stampsAre, stamps in *. cbn [log].
      rewrite flat_map_app, H1. reflexivity. }
    destruct (body item s) as [[[] | e] s1]; cbn [fst snd] in *; [| discriminate].
    specialize (IH s1 (sts ++ [oi_status item])%list (Hstep eq_refl) Hret).
    cbv zeta in IH. rewrite <- app_assoc in IH. exact IH.
Qed.

Lemma statusUpdate_found {L} (order : BunjangOrder) (s : St L)
    (response : FindOrderResponse) (w1 : W) (first : OrderNode)
    (more : list OrderNode) :
  findOrderByBunjangId svc
    (searchByTag ("BunjangOrderID-" ++ string_of_Z (bo_id order))) (world s)
    = (Returned response, w1) ->
  edges response = Some (first :: more) ->
  updateShopifyOrderFromBunjangStatus svc order s
  = for_of (orderItems order)
      (fun orderItem =>
         bind (handleStatus svc (node_id first) (bo_id order) orderItem)
           (fun _ =>
              bind (clock (nowISO svc))
                (fun now =>
                   shopifyUpdateOrder svc
                     {| ou_id := node_id first; tags := None;
                        metafields :=
                          Some [ mf "last_status_sync" now "date_time";
                                 mf "last_bunjang_status" (oi_status orderItem)
                                    "single_line_text_field" ] |})))
      (mkSt w1
         (log s ++ [EvFindOrderByTag
                      (searchByTag ("BunjangOrderID-" ++ string_of_Z (bo_id order)))])
         (vars s)).
Proof.
  intros Hfind Hedges.
  unfold updateShopifyOrderFromBunjangStatus. cbv zeta.
  unfold bind at 1. unfold perform at 1.
  unfold searchByTag in *.
  match goal with |- context [findOrderByBunjangId svc ?q (world s)] =>
    change q with ("tag:" ++ dquote
                   ++ ("BunjangOrderID-" ++ string_of_Z (bo_id order)) ++ dquote)%string
  end.
  rewrite Hfind, Hedges. reflexivity.
Qed.

(** X12.  When the search finds Platform A orders, a status update makes
    that one search and after it nothing but updates of the first order
    found, and, when it returns, has stamped [last_bunjang_status] once for
    every item of the marketplace order, in order, whatever the item's
    status is. *)
Theorem status_update_stamps_every_item {L} (order : BunjangOrder) (s : St L)
    (response : FindOrderResponse) (w1 : W) (first : OrderNode)
    (more : list OrderNode) :
  findOrderByBunjangId svc
    (searchByTag ("BunjangOrderID-" ++ string_of_Z (bo_id order))) (world s)
    = (Returned response, w1) ->
  edges response = Some (first :: more) ->
  let run := updateShopifyOrderFromBunjangStatus svc order s in
  (forall ev, In ev (log (snd run)) ->
              In ev (log s) \/ statusCall (node_id first) ev)
  /\ (fst run = Returned tt ->
      stamps (log (snd run))
      = (stamps (log s) ++ map oi_status (orderItems order))%list)
  /\ (exists updates,
      log (snd run)
      = (log s
         ++ [EvFindOrderByTag
               (searchByTag ("BunjangOrderID-" ++ string_of_Z (bo_id order)))]
         ++ updates)%list
      /\ forall ev, In ev updates -> orderUpdateOf (node_id first) ev).
Proof.
  intros Hfind Hedges run. subst run.
  rewrite (statusUpdate_found order s response w1 first more Hfind Hedges).
  match goal with |- context [for_of (orderItems order) ?b ?s1] =>
    set (body := b); set (st1 := s1)
  end.
  split; [| split].
  3:{ assert (keeps (addsOnly (orderUpdateOf (node_id first)) (log st1))
                (for_of (orderItems order) body)) as Hk.
      { apply keeps_for_of. intros orderItem _. unfold body, handleStatus,
          updateShopifyFulfillmentStatus, tagOrder, shopifyUpdateOrder.
        repeat keeps_step; intros;
          first [ assumption
                | apply addsOnly_same_log; assumption
                | apply addsOnly_event; [assumption | reflexivity] ]. }
      destruct (Hk st1 (addsOnly_refl _ st1)) as (updates & Hlog & Hall).
      exists updates. split; [| exact Hall].
      rewrite Hlog. unfold st1. cbn [log]. rewrite <- app_assoc. reflexivity. }
  - assert (keeps (sinceAll (statusCall (node_id first)) (log s))
              (for_of (orderItems order) body)) as Hk.
    { apply keeps_for_of. intros orderItem _. unfold body, handleStatus,
        updateShopifyFulfillmentStatus, tagOrder, shopifyUpdateOrder.
      repeat keeps_step; since_all. }
    apply Hk. unfold st1. apply sinceAll_event; [apply sinceAll_refl | exact I].
  - intros Hret.
    pose proof (stamps_in_order (node_id first) (bo_id order) (orderItems order)
                  st1 (stamps (log s))) as H.
    cbv zeta in H. fold body in H. apply H; [| exact Hret].
    unfold stampsAre, stamps, st1. cbn [log]. rewrite flat_map_app. cbn.
    rewrite app_nil_r. reflexivity.
Qed.

End PollerMore.

(** * Further properties of the inventory manager *)

Section InventoryMore.
Context {W : Type} (svc : Services W) (config : Config).

Lemma syncOne_vars {L} pid q (s : St L) :
  vars (snd (syncBunjangInventoryToShopify svc config pid q s)) = vars s.
Proof.
  apply (syncBunjangInventoryToShopify_keeps_vars svc config (fun v => v = vars s) pid q s).
  reflexivity.
Qed.

Lemma batchStep_run (u : InventoryUpdate) (s : St BatchResults) :
  let c := syncBunjangInventoryToShopify svc config (iu_pid u) (iu_quantity u) s in
  batchStep svc config u s
  = (Returned tt, mkSt (world (snd c)) (log (snd c)) (batchTally u (fst c) (vars s))).
Proof.
  cbv zeta. pose proof (syncOne_vars (iu_pid u) (iu_quantity u) s) as Hv.
  unfold batchStep, try_catch, bind.
  destruct (syncBunjangInventoryToShopify svc config (iu_pid u) (iu_quantity u) s)
    as [[ok | e] s1]; simpl in *; rewrite <- Hv.
  - destruct ok; reflexivity.
  - reflexivity.
Qed.

Lemma count_snoc {X} (f : X -> bool) (l : list X) (x : X) :
  count f (l ++ [x]) = count f l + (if f x then 1 else 0).
Proof.
  unfold count. rewrite filter_app, length_app, Nat2Z.inj_add. cbn [filter].
  destruct (f x); reflexivity.
Qed.

Lemma batchTally_step (u : InventoryUpdate) (o : Outcome bool) (r : BatchResults) :
  map bd_pid (batchDetails (batchTally u o r))
  = (map bd_pid (batchDetails r) ++ [iu_pid u])%list
  /\ (batchAgrees r -> batchAgrees (batchTally u o r)).
Proof.
  unfold batchAgrees, batchTally.
  destruct o as [[] | e];
    cbn [push_batchDetail incr_batchSuccess incr_batchFailed batchSuccess
         batchFailed batchDetails];
    rewrite map_app, !count_snoc; cbn [map bd_pid bd_success negb];
    (split; [reflexivity | intros [H1 H2]; rewrite H1, H2; split; lia]).
Qed.

Lemma batch_loop (updates : list InventoryUpdate) :
  forall s : St BatchResults,
    let r := for_of updates (batchStep svc config) s in
    fst r = Returned tt
    /\ map bd_pid (batchDetails (vars (snd r)))
       = (map bd_pid (batchDetails (vars s)) ++ map iu_pid updates)%list
    /\ (batchAgrees (vars s) -> batchAgrees (vars (snd r))).
Proof.
  induction updates as [| u updates IH]; intros s; cbv zeta.
  - cbn. rewrite app_nil_r. split; [reflexivity |]. split; [reflexivity | auto].
  - cbn [for_of map]. unfold bind.
    pose proof (batchStep_run u s) as Hstep. cbv zeta in Hstep. rewrite Hstep.
    match goal with |- context [for_of updates _ ?st] =>
      destruct (IH st) as (H1 & H2 & H3)
    end.
    cbn [vars] in H2, H3.
    destruct (batchTally_step u
                (fst (syncBunjangInventoryToShopify svc config (iu_pid u)
                        (iu_quantity u) s)) (vars s)) as [Hp Ha].
    split; [exact H1 |]. split.
    + rewrite H2, Hp, <- app_assoc. reflexivity.
    + intros H. apply H3, Ha, H.
Qed.

Lemma count_split {X} (f : X -> bool) (l : list X) :
  count f l + count (fun x => negb (f x)) l = Z.of_nat (List.length l).
Proof.
  unfold count. induction l as [| x l IH]; [reflexivity |].
  cbn [filter]. destruct (f x); cbn [negb List.length];
    rewrite ?Nat2Z.inj_succ; lia.
Qed.

(** X13.  A batch sync never throws and accounts for every update: the
    details name the product ids of the updates, one entry each and in
    order, whatever the single syncs return or throw; [success] and [failed]
    count the entries marked successful and the others, so together they
    count the updates; the caller's variables are untouched. *)
Theorem batchSync_accounts_for_every_update {L} (updates : list InventoryUpdate)
    (s : St L) :
  exists r,
    fst (batchSyncInventory svc config updates s) = Returned r
    /\ vars (snd (batchSyncInventory svc config updates s)) = vars s
    /\ map bd_pid (batchDetails r) = map iu_pid updates
    /\ batchSuccess r = count bd_success (batchDetails r)
    /\ batchFailed r = count (fun d => negb (bd_success d)) (batchDetails r)
    /\ batchSuccess r + batchFailed r = Z.of_nat (List.length updates).
Proof.
  unfold batchSyncInventory, scope.
  set (s0 := mkSt (world s) (log s) batch0).
  destruct (batch_loop updates s0) as (Hret & Hpids & Hagree).
  unfold bind.
  destruct (for_of updates (batchStep svc config) s0) as [[[] | e] s1];
    cbn [fst snd] in *; [| discriminate].
  exists (vars s1). cbn [get fst snd vars].
  destruct Hagree as [Hs Hf]; [split; reflexivity |].
  repeat split; try assumption.
  rewrite Hs, Hf, count_split.
  rewrite <- (length_map bd_pid (batchDetails (vars s1))), Hpids.
  cbn [s0 vars batch0 batchDetails map app]. rewrite length_map. reflexivity.
Qed.

(** X14.  A single sync makes its calls in the order lookup, variant query,
    push, store, and re-raises the first failure without making a later
    call: a failed lookup or variant query pushes nothing; a failed push
    stores nothing on the link; a failed store leaves the push made. *)
Theorem syncOne_rethrows_first_failure {L} (pid : string) (target : Z) (s : St L) :
  let sync := syncBunjangInventoryToShopify svc config pid target s in
  let s1 := fun w => mkSt w (log s ++ [EvDbFindOneByPid pid]) (vars s) in
  (forall e w1,
      dbFindOneByPid svc pid (world s) = (Thrown e, w1) ->
      sync = (Thrown e, s1 w1))
  /\ (forall found w1 gid,
      dbFindOneByPid svc pid (world s) = (Returned found, w1) ->
      linkOf found = Some gid ->
      let s2 := fun w => mkSt w (log (s1 w1) ++ [EvGetProductVariants gid]) (vars s) in
      (forall e w2,
          getProductVariants svc gid w1 = (Thrown e, w2) ->
          sync = (Thrown e, s2 w2))
      /\ (forall resp w2 v vs,
          getProductVariants svc gid w1 = (Returned resp, w2) ->
          vr_product resp = Some (v :: vs) ->
          or_zero (inventoryQuantity v) <> target ->
          let push := EvUpdateInventoryLevel (inventoryItemId v)
                        (defaultLocationId config) target in
          (forall e w3,
              updateInventoryLevel svc (inventoryItemId v) (defaultLocationId config)
                target w2 = (Thrown e, w3) ->
              sync = (Thrown e, mkSt w3 (log (s2 w2) ++ [push]) (vars s)))
          /\ (forall e w3 w4,
              updateInventoryLevel svc (inventoryItemId v) (defaultLocationId config)
                target w2 = (Returned tt, w3) ->
              dbUpdateQuantity svc pid target w3 = (Thrown e, w4) ->
              sync = (Thrown e,
                      mkSt w4 (log (s2 w2) ++ [push; EvDbUpdateQuantity pid target])
                        (vars s))))).
Proof.
  cbv zeta. unfold syncBunjangInventoryToShopify, try_catch, bind, perform, throw.
  split.
  - intros e w1 Hfind. rewrite Hfind. reflexivity.
  - intros found w1 gid Hfind Hlink. rewrite Hfind. unfold linkOf in Hlink.
    destruct found as [p |]; [| discriminate].
    destruct (shopifyGid p) as [g |]; [| discriminate].
    destruct (nonempty g) eqn:Eg; [| discriminate].
    injection Hlink as ->. cbn [negb world log vars]. split.
    + intros e w2 Hvar. rewrite Hvar. reflexivity.
    + intros resp w2 v vs Hvar Hp Hne. rewrite Hvar, Hp.
      apply Z.eqb_neq in Hne. rewrite Hne. cbn [negb world log vars]. split.
      * intros e w3 Hpush. rewrite Hpush. reflexivity.
      * intros e w3 w4 Hpush Hdb. rewrite Hpush. cbn [world log vars].
        rewrite Hdb. cbn [log]. rewrite <- app_assoc. reflexivity.
Qed.

Lemma checkAndSync_fetches {L} (pid : string) (F : list string) :
  triple (fetchedAre (L := L) F) (checkAndSyncBunjangInventory svc config pid)
    (fun _ s => fetchedAre (F ++ [pid]) s).
Proof.
  unfold checkAndSyncBunjangInventory.
  apply triple_try with (Q := fun _ s => fetchedAre (F ++ [pid]) s).
  - apply triple_bind with (Q := fun _ s => fetchedAre (F ++ [pid]) s).
    + intros s H. unfold perform.
      destruct (getBunjangProductDetails svc pid (world s)) as [r w'].
      unfold fetchedAre, fetched in *. cbn [fst snd log].
      rewrite flat_map_app, H. reflexivity.
    + intros a. as_keeps. unfold syncBunjangInventoryToShopify.
      repeat keeps_step; projection_fine.
    + intros e s H. exact H.
  - intros e. as_keeps. apply keeps_throw.
  - auto.
Qed.

Lemma fullSync_loop_fetches (ps : list SyncedProduct) :
  forall (s : St SyncResults) (F : list string),
    fetchedAre F s ->
    fetchedAre (F ++ map bunjangPid ps) (snd (for_of ps (fullSyncStep svc config) s)).
Proof.
  induction ps as [| p ps IH]; intros s F HF.
  - cbn. rewrite app_nil_r. exact HF.
  - cbn [for_of map]. unfold bind.
    pose proof (fullSyncStep_run svc config p s) as Hstep. cbv zeta in Hstep.
    pose proof (checkAndSync_fetches (bunjangPid p) F s HF) as Hf.
    rewrite Hstep.
    match goal with |- context [for_of ps _ ?st] =>
      specialize (IH st (F ++ [bunjangPid p])%list Hf)
    end.
    rewrite <- app_assoc in IH. exact IH.
Qed.

Lemma fullSync_run {L} (s : St L) (found : list SyncedProduct) (w1 : W) :
  dbFindSynced svc (world s) = (Returned found, w1) ->
  let products := firstn 1000 found in
  let s1 := mkSt w1 (log s ++ [EvDbFindSynced])
              (set_total (Z.of_nat (List.length products)) results0) in
  let s2 := snd (for_of products (fullSyncStep svc config) s1) in
  performFullInventorySync svc config s
  = (Returned (vars s2), mkSt (world s2) (log s2) (vars s)).
Proof.
  intros Hfind products s1 s2. subst s2.
  destruct (fullSync_loop svc config products s1) as [Hret _].
  unfold performFullInventorySync, scope, try_catch.
  unfold bind at 1. unfold perform. cbn [world log vars]. rewrite Hfind.
  unfold bind at 1. cbn [modify world log vars]. fold products. fold s1.
  unfold bind at 1.
  destruct (for_of products (fullSyncStep svc config) s1) as [[[] | e] s2];
    cbn [fst snd] in *; [| discriminate].
  reflexivity.
Qed.

(** X15.  A full sync whose query for links throws re-raises that error
    having made no other call.  Otherwise it fetches the Platform B details
    of every visited link exactly once, in the order of the query result,
    whatever happens to the links before it; the caller's variables are
    untouched either way. *)
Theorem fullSync_fetches_each_link_once {L} (s : St L) :
  let run := performFullInventorySync svc config s in
  (forall e w1,
      dbFindSynced svc (world s) = (Thrown e, w1) ->
      run = (Thrown e, mkSt w1 (log s ++ [EvDbFindSynced]) (vars s)))
  /\ (forall found w1,
      dbFindSynced svc (world s) = (Returned found, w1) ->
      fetched (log (snd run))
      = (fetched (log s) ++ map bunjangPid (firstn 1000 found))%list
      /\ vars (snd run) = vars s).
Proof.
  cbv zeta. split.
  - intros e w1 Hfind.
    unfold performFullInventorySync, scope, try_catch.
    unfold bind at 1. unfold perform. cbn [world log vars].
    rewrite Hfind. reflexivity.
  - intros found w1 Hfind.
    pose proof (fullSync_run s found w1 Hfind) as Hrun. cbv zeta in Hrun.
    rewrite Hrun. cbn [snd log vars]. split; [| reflexivity].
    match goal with |- context [for_of ?ps _ ?st] =>
      apply (fullSync_loop_fetches ps st (fetched (log s)))
    end.
    unfold fetchedAre, fetched. cbn [log]. rewrite flat_map_app. cbn.
    rewrite app_nil_r. reflexivity.
Qed.

End InventoryMore.

(** * The configuration check *)

Section ConfigFacts.
Import ConfigCheck.
Context (env : string -> option string).

Lemma filter_nil_iff {X} (f : X -> bool) (l : list X) :
  filter f l = [] <-> forall x, In x l -> f x = false.
Proof.
  induction l as [| x l IH]; cbn [filter].
  - split; [intros _ y [] | reflexivity].
  - destruct (f x) eqn:E.
    + split; [discriminate |]. intros H. rewrite (H x (or_introl eq_refl)) in E.
      discriminate E.
    + rewrite IH. split.
      * intros H y [<- | Hy]; [exact E | apply H, Hy].
      * intros H y Hy. apply H. right. exact Hy.
Qed.

Lemma missingVars_nil :
  missingVars env = []
  <-> forall name, In name requiredEnvVars -> truthy_str (env name) = true.
Proof.
  unfold missingVars. rewrite filter_nil_iff. split; intros H name Hin.
  - specialize (H name Hin). destruct (truthy_str (env name)); [reflexivity | discriminate H].
  - rewrite (H name Hin). reflexivity.
Qed.

(** X16.  The configuration check returns exactly when every required
    variable is set to a non-empty value and the process is not a production
    one running on a default secret.  It exits with no other code than 1; a
    missing required variable makes it exit after one message, sent to the
    logger's [error] when there is one and to the console otherwise.  With
    default secrets in production and a logger that has [warn] but no
    [fatal], it neither returns nor exits: it throws a TypeError. *)
Theorem validateRequiredConfig_endings (loggerInstance : option Logger) :
  let run := validateRequiredConfig env loggerInstance in
  let complete :=
    forall name, In name requiredEnvVars -> truthy_str (env name) = true in
  (snd run = Returns <-> complete /\ defaultSecretsInProduction env = false)
  /\ (forall code, snd run = Exits code -> code = 1)
  /\ (forall e, snd run = Throws e
                <-> complete
                    /\ defaultSecretsInProduction env = true
                    /\ can loggerInstance hasWarn = true
                    /\ can loggerInstance hasFatal = false
                    /\ e = plainError TypeError "loggerInstance.fatal is not a function")
  /\ (~ complete ->
      run = ([ if can loggerInstance hasError then LoggerError (missingMessage env)
               else ConsoleError (missingMessage env) ],
             Exits 1)).
Proof.
  cbv zeta. pose proof missingVars_nil as Hnil.
  unfold validateRequiredConfig.
  destruct (missingVars env) as [| name0 rest] eqn:Em.
  - assert (forall name, In name requiredEnvVars -> truthy_str (env name) = true)
      as Hall by (apply Hnil; reflexivity).
    cbv zeta.
    destruct (defaultSecretsInProduction env);
      destruct (can loggerInstance hasWarn);
      destruct (can loggerInstance hasFatal); cbn [snd];
      (split; [| split; [| split]]);
      try (intros H; exfalso; apply H; exact Hall);
      try (intros code H; first [discriminate H | injection H as <-; reflexivity]);
      try (intros e; split;
           [ intros H; first [ discriminate H
                             | injection H as <-; repeat split; auto ]
           | intros (_ & H1 & H2 & H3 & H4);
             first [ discriminate H1 | discriminate H2 | discriminate H3
                   | rewrite H4; reflexivity ] ]);
      try (split;
           [ intros H; first [discriminate H | split; [exact Hall | reflexivity]]
           | intros [_ H]; first [discriminate H | reflexivity] ]).
  - assert (~ forall name, In name requiredEnvVars -> truthy_str (env name) = true)
      as Hsome.
    { intros H. apply Hnil in H. discriminate H. }
    cbn [snd]. split; [| split; [| split]].
    + split; [discriminate | intros [H _]; contradiction].
    + intros code H. injection H as <-. reflexivity.
    + intros e. split; [discriminate | intros [H _]; contradiction].
    + intros _. reflexivity.
Qed.

End ConfigFacts.

Section ConfigOptional.
Import ConfigCheck.

Lemma in_required_password : In "ARENA_ADMIN_PASSWORD" ("NODE_ENV" :: requiredEnvVars).
Proof. unfold requiredEnvVars. cbn. tauto. Qed.

Lemma in_required_api_key : In "INTERNAL_API_KEY" ("NODE_ENV" :: requiredEnvVars).
Proof. unfold requiredEnvVars. cbn. tauto. Qed.

(** X17.  How the configuration check ends depends on [NODE_ENV] and the
    fifteen required variables only: two environments that agree on these
    end it the same way, whatever the optional variables and all others
    hold. *)
Theorem optional_variables_never_change_ending (env env' : string -> option string)
    (loggerInstance : option Logger) :
  (forall name, In name ("NODE_ENV" :: requiredEnvVars) -> env name = env' name) ->
  snd (validateRequiredConfig env loggerInstance)
  = snd (validateRequiredConfig env' loggerInstance).
Proof.
  intros Hsame.
  assert (missingVars env = missingVars env') as Hm.
  { unfold missingVars. apply filter_ext_in. intros name Hin.
    rewrite (Hsame name (or_intror Hin)). reflexivity. }
  assert (defaultSecretsInProduction env = defaultSecretsInProduction env') as Hd.
  { unfold defaultSecretsInProduction, configEnv, envIs.
    rewrite (Hsame "NODE_ENV" (or_introl eq_refl)).
    rewrite (Hsame _ in_required_password), (Hsame _ in_required_api_key).
    reflexivity. }
  unfold validateRequiredConfig. rewrite Hm, Hd.
  destruct (missingVars env'); [| reflexivity]. cbv zeta.
  destruct (defaultSecretsInProduction env'), (can loggerInstance hasWarn),
    (can loggerInstance hasFatal); reflexivity.
Qed.

End ConfigOptional.

(** * The webhook registration script *)

Section RegisterFacts.
Import RegisterWebhooks.
Context {W : Type} (axios : Axios W).
Context (shopDomain : string) (apiVersion : option string)
        (envBaseUrl : option string) (middlewareBaseUrl : option string).

Lemma deleteAll_calls (rows : list WebhookRow) :
  forall r,
    snd (deleteAll axios shopDomain apiVersion rows r)
    = (snd r ++ map (fun row => HttpDelete (deleteUrl shopDomain apiVersion (wh_id row)))
                  rows)%list.
Proof.
  induction rows as [| row rows IH]; intros r; cbn [deleteAll map].
  - rewrite app_nil_r. reflexivity.
  - destruct (axiosDelete axios _ (fst r)) as [o w'].
    rewrite IH. cbn [snd]. rewrite <- app_assoc. reflexivity.
Qed.

Lemma registerAll_calls (regs : list Registration) :
  forall r,
    snd (registerAll axios shopDomain apiVersion regs r)
    = (snd r ++ map (HttpPost (shopifyApiUrl shopDomain apiVersion)) regs)%list.
Proof.
  induction regs as [| reg regs IH]; intros r; cbn [registerAll map].
  - rewrite app_nil_r. reflexivity.
  - destruct (axiosPost axios _ reg (fst r)) as [o w'].
    rewrite IH. cbn [snd]. rewrite <- app_assoc. reflexivity.
Qed.

(** X18.  When listing the shop's webhooks fails, the registration script
    makes no other request.  Otherwise its requests are, in this order: the
    listing; one delete per listed webhook, of that webhook's id; the three
    registrations; a final listing.  No reply to a delete, to a registration
    or to the final listing changes them: a failed delete does not stop the
    deletes after it nor the registrations. *)
Theorem cleanAndRegister_requests (w : W) :
  let url := shopifyApiUrl shopDomain apiVersion in
  let calls :=
    snd (cleanAndRegisterWebhooks axios shopDomain apiVersion envBaseUrl
           middlewareBaseUrl w) in
  (forall e w1, axiosGet axios url w = (Thrown e, w1) -> calls = [HttpGet url])
  /\ (forall listed w1,
      axiosGet axios url w = (Returned listed, w1) ->
      calls
      = ([HttpGet url]
         ++ map (fun row => HttpDelete (deleteUrl shopDomain apiVersion (wh_id row)))
              (match listed with Some l => l | None => [] end)
         ++ map (HttpPost url) (webhooksToRegister envBaseUrl middlewareBaseUrl)
         ++ [HttpGet url])%list).
Proof.
  cbv zeta. unfold cleanAndRegisterWebhooks. split.
  - intros e w1 Hget. rewrite Hget. reflexivity.
  - intros listed w1 Hget. rewrite Hget. cbv zeta.
    match goal with |- context [axiosGet axios ?u (fst ?r2)] =>
      destruct (axiosGet axios u (fst r2)) as [o w3]
    end.
    cbn [snd]. rewrite registerAll_calls, deleteAll_calls. cbn [snd].
    rewrite <- !app_assoc. reflexivity.
Qed.

(** X19.  Under the mount point [/webhooks], the script registers the paths
    [/orders/create], [/orders/updated] and [/orders/cancelled] below a base
    URL that is never empty.  The router defines the first two, and in no
    environment the third: nothing handles the address registered for the
    topic [orders/cancelled]. *)
Theorem cancelled_topic_has_no_route (configEnv : string) :
  let base := WEBHOOK_BASE_URL envBaseUrl middlewareBaseUrl in
  map (fun r => (reg_topic r, reg_address r))
      (webhooksToRegister envBaseUrl middlewareBaseUrl)
  = map (fun p => (substring 1 (String.length p - 1) p, base ++ "/webhooks" ++ p))
      ["/orders/create"; "/orders/updated"; "/orders/cancelled"]
  /\ base <> ""
  /\ In "/orders/create" (routerPaths configEnv)
  /\ In "/orders/updated" (routerPaths configEnv)
  /\ ~ In "/orders/cancelled" (routerPaths configEnv).
Proof.
  cbv zeta. split; [reflexivity |]. split.
  - unfold WEBHOOK_BASE_URL, orElse.
    destruct envBaseUrl as [a |]; [destruct (nonempty a) eqn:Ea |].
    + intros ->. discriminate Ea.
    + destruct middlewareBaseUrl as [b |]; [destruct (nonempty b) eqn:Eb |];
        try discriminate. intros ->. discriminate Eb.
    + destruct middlewareBaseUrl as [b |]; [destruct (nonempty b) eqn:Eb |];
        try discriminate. intros ->. discriminate Eb.
  - unfold routerPaths. split; [cbn; tauto |]. split; [cbn; tauto |].
    intros Hin. apply in_app_or in Hin. destruct Hin as [Hin | Hin].
    + cbn in Hin. destruct Hin as [H | [H | [H | []]]]; discriminate H.
    + destruct (String.eqb configEnv "production"); cbn in Hin;
        [destruct Hin | destruct Hin as [H | []]; discriminate H].
Qed.

End RegisterFacts.

(** * Checks of the further properties *)

Section MoreChecks.
Import Scenario Cases.

Lemma processOrder_rejects_invalid_witness :
  exists e,
    processShopifyOrderForBunjang (scripted calm) cfg noItems start = (Thrown e, start)
    /\ errClass e = ValidationError.
Proof.
  exact (processOrder_rejects_invalid (scripted calm) cfg noItems start eq_refl).
Defined.

Lemma processOrder_calls_own_order_witness :
  In (EvUpdateOrder (errorTags "PID-12345-InsufficientPoints")) (log start)
  \/ orchestratorCall "gid://shopify/Order/987"
       (EvUpdateOrder (errorTags "PID-12345-InsufficientPoints")).
Proof.
  apply (processOrder_calls_own_order (scripted pointShortage) cfg twoLinkedItems start
           "gid://shopify/Order/987" eq_refl).
  vm_compute. tauto.
Defined.

Lemma created_tag_is_search_key_witness :
  exists tag u rest rest',
    tag = "BunjangOrderID-555"
    /\ log (snd (processItem (scripted calm) cfg "gid://shopify/Order/987"
                "bungjang_order_987" (item 1 "BJ-12345" 111 1)
                (mkSt tt [] orderVars0)))
    = ([] ++ [ EvGetProductDetails "12345";
               EvCreateOrder zeroFeePayload (Returned (Some {| resp_id := Some 555 |}));
               EvUpdateOrder u ] ++ rest)%list
    /\ ou_id u = "gid://shopify/Order/987"
    /\ tags u = Some ["BunjangOrderPlaced"; "bungjang_order_987"; tag]
    /\ log (snd (updateShopifyOrderFromBunjangStatus (scripted calm)
                   {| bo_id := 555; orderItems := [confirmed] |} start))
       = ([] ++ [EvFindOrderByTag (searchByTag tag)] ++ rest')%list.
Proof.
  exact (created_tag_is_search_key (scripted calm) cfg "gid://shopify/Order/987"
           "bungjang_order_987" (item 1 "BJ-12345" 111 1) "12345" liveDetails
           feePayload {| pp_id := 12345; pp_price := 50000 |} 555
           (mkSt tt [] orderVars0) tt tt [confirmed] start
           eq_refl eq_refl eq_refl eq_refl eq_refl ltac:(discriminate)).
Defined.

Lemma balance_check_outcomes_witness :
  checkPointBalance (scripted calm) cfg "gid://shopify/Order/987" start
  = (Returned tt, mkSt tt [EvGetPointBalance] tt).
Proof.
  destruct (balance_check_outcomes (scripted calm) cfg "gid://shopify/Order/987" start
              (Returned (Some {| balance := 5000000; pointExpiredIn30Days := 0 |}))
              tt eq_refl) as (_ & H & _).
  exact H.
Defined.

Lemma ordersCreate_pushes_non_negative_witness :
  In (EvUpdateInventoryLevel "gid://shopify/InventoryItem/9"
        (Some "gid://shopify/Location/1") 0) (log start)
  \/ 0 <= 0.
Proof.
  apply (ordersCreate_pushes_non_negative (scripted calm) cfg
           (order987 [item 1 "BJ-12345" 111 5] None) start).
  - intros p w d w' H. cbn in H. injection H as <- _. cbn. lia.
  - vm_compute. tauto.
Defined.

Lemma handlers_leave_unlinked_items_witness :
  linkByProduct otherLinked 999 = Returned (Some link12345)
  /\ log (snd (ordersCreate (scripted otherLinked) cfg twoLinkedItems start))
     = [ EvDbFindOneByProductId 111; EvDbFindOneByProductId 112 ].
Proof.
  split; [reflexivity |].
  destruct (handlers_leave_unlinked_items (scripted otherLinked) cfg twoLinkedItems
              start) as [H _].
  destruct H as [H _].
  - exists None, tt. split; [reflexivity |]. split; [reflexivity |].
    exists None, tt. split; [reflexivity |]. split; [reflexivity |]. exact I.
  - exact H.
Defined.

Lemma syncStatuses_pages_in_order_witness :
  match syncBunjangOrderStatuses (scripted calm) 3 (Some 0) (Some 86400000) start with
  | Some (_, s') =>
    exists k,
      (1 <= k <= 3)%nat
      /\ pageQueries (log s')
         = (pageQueries (log start) ++ pagesFrom 0 86400000 0 k)%list
  | None => False
  end.
Proof.
  destruct (syncStatuses_pages_in_order (scripted calm) 3 0 86400000 start
              ltac:(vm_compute; discriminate)) as [H _].
  destruct (syncBunjangOrderStatuses (scripted calm) 3 (Some 0) (Some 86400000) start)
    as [[o s'] |] eqn:E.
  - exact (H o s' eq_refl).
  - vm_compute in E. discriminate E.
Defined.

Lemma unmatched_order_counts_as_synced_witness :
  syncOneOrder (scripted noMatch) order42
    (mkSt tt [] {| syncedCount := 0; errorCount := 0 |})
  = (Returned tt,
     mkSt tt [EvFindOrderByTag (searchByTag "BunjangOrderID-42")]
       {| syncedCount := 1; errorCount := 0 |}).
Proof.
  exact (unmatched_order_counts_as_synced (scripted noMatch) order42
           (mkSt tt [] {| syncedCount := 0; errorCount := 0 |})
           {| edges := Some [] |} tt eq_refl (or_intror eq_refl)).
Defined.

Lemma status_update_stamps_every_item_witness :
  stamps (log (snd (updateShopifyOrderFromBunjangStatus (scripted calm) order41 start)))
  = ["PURCHASE_CONFIRM"].
Proof.
  destruct (status_update_stamps_every_item (scripted calm) order41 start
              {| edges := Some [ {| node_id := "gid://shopify/Order/987";
                                    node_tags := [] |} ] |}
              tt {| node_id := "gid://shopify/Order/987"; node_tags := [] |} []
              eq_refl eq_refl) as [_ [H _]].
  exact (H eq_refl).
Defined.

Lemma syncOne_rethrows_first_failure_witness :
  syncBunjangInventoryToShopify (scripted pushDown) cfg "12345" 5 start
  = (Thrown platformADown,
     mkSt tt [ EvDbFindOneByPid "12345";
               EvGetProductVariants "gid://shopify/Product/111";
               EvUpdateInventoryLevel "gid://shopify/InventoryItem/9"
                 (Some "gid://shopify/Location/1") 5 ] tt).
Proof.
  destruct (syncOne_rethrows_first_failure (scripted pushDown) cfg "12345" 5 start)
    as [_ H].
  destruct (H (Some link12345) tt "gid://shopify/Product/111" eq_refl eq_refl)
    as [_ H2].
  destruct (H2 {| vr_product := Some [variant3] |} tt variant3 [] eq_refl eq_refl
              ltac:(discriminate)) as [H3 _].
  exact (H3 platformADown tt eq_refl).
Defined.

Lemma fullSync_fetches_each_link_once_witness :
  fetched (log (snd (performFullInventorySync (scripted threeLinks) cfg start)))
  = ["111"; "222"; "333"].
Proof.
  destruct (fullSync_fetches_each_link_once (scripted threeLinks) cfg start) as [_ H].
  destruct (H [link "111" 9; link "222" 1; link "333" 50] tt eq_refl) as [H1 _].
  exact H1.
Defined.

Lemma optional_variables_never_change_ending_witness :
  snd (ConfigCheck.validateRequiredConfig productionEnv None)
  = snd (ConfigCheck.validateRequiredConfig productionEnvQuiet None).
Proof.
  apply optional_variables_never_change_ending.
  intros name Hin. cbn in Hin.
  repeat (destruct Hin as [<- | Hin]; [reflexivity |]). destruct Hin.
Defined.

Lemma cleanAndRegister_requests_witness :
  snd (RegisterWebhooks.cleanAndRegisterWebhooks stubbornShop "shop.myshopify.com"
         None None (Some "https://middleware.example") tt)
  = [ HttpGet "https://shop.myshopify.com/admin/api/2025-04/webhooks.json";
      HttpDelete "https://shop.myshopify.com/admin/api/2025-04/webhooks/7.json";
      HttpDelete "https://shop.myshopify.com/admin/api/2025-04/webhooks/9.json";
      HttpPost "https://shop.myshopify.com/admin/api/2025-04/webhooks.json"
        {| reg_topic := "orders/create";
           reg_address := "https://middleware.example/webhooks/orders/create";
           reg_format := "json" |};
      HttpPost "https://shop.myshopify.com/admin/api/2025-04/webhooks.json"
        {| reg_topic := "orders/updated";
           reg_address := "https://middleware.example/webhooks/orders/updated";
           reg_format := "json" |};
      HttpPost "https://shop.myshopify.com/admin/api/2025-04/webhooks.json"
        {| reg_topic := "orders/cancelled";
           reg_address := "https://middleware.example/webhooks/orders/cancelled";
           reg_format := "json" |};
      HttpGet "https://shop.myshopify.com/admin/api/2025-04/webhooks.json" ].
Proof.
  destruct (cleanAndRegister_requests stubbornShop "shop.myshopify.com" None None
              (Some "https://middleware.example") tt) as [_ H].
  exact (H _ tt eq_refl).
Defined.

End MoreChecks.
